(** * Cognito authentication and custodial wallet modules: a shallow embedding

    The repository carries two Go implementations of the same feature:

    - [Runtime]: the 2025 module under [runtime/] ([auth.go], [main.go]
      with [wallet.go] appended, [evm_signer.go], [kms.go], [errors.go]);
    - [CognitoModule]: the 2024 module under [cognito_module/] ([jwt.go],
      its [main.go] and its [wallet.go]).

    Go values are embedded as follows.  [error] values form one inductive
    type shared by both modules; a function returning [(T, error)] returns an
    [outcome]; code that talks to the Nakama storage collaborator, reads the
    clock or calls the signing service runs in a small state monad over a
    [World] that also records a trace of the calls made.  Logger calls have no
    effect on results and are left out.  Functions of third-party libraries
    (golang-jwt, go-ethereum, crypto, encoding) are parameters of the
    sections that use them. *)

From Stdlib Require Import ZArith QArith String Ascii List Bool Lia DecimalString.
From stdpp Require Import base option gmap strings list.
Import ListNotations.
Close Scope Q_scope.
Local Open Scope string_scope.
Local Open Scope Z_scope.
#[local] Set Warnings "-register-all".

(** ** Go errors *)

(** The package-level error variables of [runtime/errors.go]. *)
Inductive sentinel : Type :=
| ErrInvalidToken | ErrTokenExpired | ErrInvalidIssuer | ErrInvalidAudience
| ErrInvalidTokenType | ErrMissingSubject | ErrJWKSFetch | ErrInvalidSignature
| ErrAuthFailed | ErrLinkFailed | ErrWalletNotEnabled | ErrWalletNotFound
| ErrKMSOperation | ErrInvalidChain | ErrRateLimitExceeded
| ErrInsufficientFunds | ErrInvalidPayload.

(** Go [error] values. The last four constructors are the errors of the
    golang-jwt parser as far as [errors.Is] tells them apart:
    [JwtUnverifiable] wraps whatever the key function returned. *)
Inductive error : Type :=
| Sentinel (s : sentinel)
    (* errors.New values of errors.go *)
| AuthError (Code Message : string) (Err : option error)
    (* *AuthError built by NewAuthError *)
| Errorf (msg : string) (wrapped : option error)
    (* fmt.Errorf; [wrapped] is the %w operand *)
| External (msg : string)
    (* an error value produced by a collaborator or a library *)
| JwtMalformed
| JwtUnverifiable (keyfunc_err : error)
| JwtSignatureInvalid
| JwtClaimsInvalid (msg : string).

Definition NewAuthError (code message : string) (err : option error) : error :=
  AuthError code message err.

(** [(e *AuthError) Unwrap] and the %w chain of [fmt.Errorf]. *)
Definition Unwrap (e : error) : option error :=
  match e with
  | AuthError _ _ err => err
  | Errorf _ w => w
  | JwtUnverifiable k => Some k
  | _ => None
  end.

Inductive outcome (A : Type) : Type :=
| Ok (a : A)
| Err (e : error).
Arguments Ok {A} a.
Arguments Err {A} e.

Definition is_ok {A} (o : outcome A) : bool :=
  match o with Ok _ => true | Err _ => false end.

(** A call either returns or panics (nil pointer dereference). *)
Inductive result (A : Type) : Type :=
| Returns (o : outcome A)
| Panics.
Arguments Returns {A} o.
Arguments Panics {A}.

(** ** JSON documents

    [jwt.MapClaims] is a [map[string]interface{}] holding decoded JSON: a
    number is a [float64], an array is a [[]interface{}]. Numbers are kept
    as rationals (every finite float64 is one). *)
Inductive json : Type :=
| JNull
| JBool (b : bool)
| JNum (q : Q)
| JStr (s : string)
| JArr (l : list json)
| JObj (fields : list (string * json)).

(** ** The host runtime: storage, clock and the record of calls

    [runtime.NakamaModule] is the collaborator both modules receive as [nk].
    Its storage engine is a finite map from (collection, key) to the stored
    object (all reads and writes of the modules use the system owner, the
    empty user id). Whether the engine answers or fails, and what the
    account calls return, is fixed per collaborator. *)
Abbreviation bytes := (list Byte.byte).

Record StorageObject : Type := {
  Value : string;
  PermissionRead : Z;
  PermissionWrite : Z
}.

Inductive event : Type :=
| EvStorageRead (collection key : string)
| EvStorageWrite (collection key : string) (object : StorageObject)
| EvAccountUpdate (userId : string)
| EvDerive (externalID : string)
| EvSign (externalID : string) (hash : bytes).

Record World : Type := {
  storage : gmap (string * string) StorageObject;
  clock : Z;                 (* time.Now(), nanoseconds since the epoch *)
  trace : list event         (* calls made so far, oldest first *)
}.

Record NakamaModule : Type := {
  (* userID or session, username, created *)
  nk_AuthenticateCustom : string -> string -> bool -> outcome (string * string * bool);
  nk_LinkCustom : string -> string -> option error;
  nk_AccountUpdateId : string -> option error;
  nk_AccountGetId : string -> outcome string;        (* the account's CustomId *)
  nk_AuthenticateTokenGenerate : string -> string -> outcome string;
  nk_StorageRead_failure : option error;
  nk_StorageWrite_failure : option error
}.

Definition Eff (A : Type) : Type := World -> outcome A * World.

Definition ret {A} (a : A) : Eff A := fun w => (Ok a, w).
Definition fail {A} (e : error) : Eff A := fun w => (Err e, w).
Definition bind {A B} (m : Eff A) (k : A -> Eff B) : Eff B :=
  fun w => match m w with
           | (Ok a, w') => k a w'
           | (Err e, w') => (Err e, w')
           end.
Definition lift {A} (o : outcome A) : Eff A := fun w => (o, w).

Notation "'do' x <- m ; k" := (bind m (fun x => k))
  (at level 10, x name, m at level 100, k at level 200).
Notation "'do' '_' <- m ; k" := (bind m (fun _ => k))
  (at level 10, m at level 100, k at level 200).

Definition emit (ev : event) : Eff unit :=
  fun w => (Ok tt, {| storage := storage w; clock := clock w;
                      trace := trace w ++ [ev] |}).

Definition time_Now : Eff Z := fun w => (Ok (clock w), w).

(** [nk.StorageRead] of one object id; the result holds the object when it
    exists and is empty otherwise (the engine returns no nil entries). *)
Definition StorageRead (nk : NakamaModule) (collection key : string)
    : Eff (list StorageObject) :=
  do _ <- emit (EvStorageRead collection key);
  match nk_StorageRead_failure nk with
  | Some err => fail err
  | None => fun w =>
      (Ok (match storage w !! (collection, key) with
           | Some obj => [obj]
           | None => []
           end), w)
  end.

(** [nk.StorageWrite] of one object. *)
Definition StorageWrite (nk : NakamaModule) (collection key : string)
    (obj : StorageObject) : Eff unit :=
  do _ <- emit (EvStorageWrite collection key obj);
  match nk_StorageWrite_failure nk with
  | Some err => fail err
  | None => fun w =>
      (Ok tt, {| storage := <[(collection, key) := obj]> (storage w);
                 clock := clock w; trace := trace w |})
  end.

Definition is_write (ev : event) : bool :=
  match ev with EvStorageWrite _ _ _ => true | _ => false end.
Definition is_derive (ev : event) : bool :=
  match ev with EvDerive _ => true | _ => false end.
Definition is_sign (ev : event) : bool :=
  match ev with EvSign _ _ => true | _ => false end.

(** The events a run from [w] to [w'] added. *)
Definition new_events (w w' : World) : list event :=
  drop (length (trace w)) (trace w').

(** ** math/big: [Int.SetString(s, 0)] and [Int.Uint64]

    The scanner of Go's [math/big] for base 0: an optional sign, then a
    base prefix ([0b], [0o], [0x], or a leading [0] for octal), then digits
    of that base; an underscore may separate digits or follow the prefix;
    the whole string has to be consumed. *)
Module big.

Inductive prev_kind : Type := PrevOther | PrevSep | PrevDigit.
Inductive prefix_kind : Type := NoPrefix | PrefixB | PrefixO | PrefixX | Prefix0.

(** Digit value of a character: 0-9, then a-z and A-Z as 10 to 35. *)
Definition digit (ch : ascii) : option Z :=
  let n := Z.of_nat (nat_of_ascii ch) in
  if (48 <=? n) && (n <=? 57) then Some (n - 48)
  else if (97 <=? n) && (n <=? 122) then Some (n - 97 + 10)
  else if (65 <=? n) && (n <=? 90) then Some (n - 65 + 10)
  else None.

(** The digit loop of [nat.scan]; returns the unread rest as well. *)
Fixpoint scan_loop (b : Z) (s : list ascii) (res count : Z) (prev : prev_kind)
    (invalSep : bool) : Z * Z * prev_kind * bool * list ascii :=
  match s with
  | [] => (res, count, prev, invalSep, [])
  | ch :: rest =>
      if Ascii.eqb ch "_" then
        scan_loop b rest res count PrevSep
          (match prev with PrevDigit => invalSep | _ => true end)
      else
        match digit ch with
        | Some d1 =>
            if d1 <? b
            then scan_loop b rest (res * b + d1) (count + 1) PrevDigit invalSep
            else (res, count, prev, invalSep, ch :: rest)
        | None => (res, count, prev, invalSep, ch :: rest)
        end
  end.

Definition one_of (ch a b : ascii) : bool := Ascii.eqb ch a || Ascii.eqb ch b.

(** [nat.scan(r, 0, false)]: the magnitude, or [None] for a syntax error,
    and what is left unread. *)
Definition nat_scan (s : list ascii) : option Z * list ascii :=
  let '(b, prefix, count, prev, s) :=
    match s with
    | "0"%char :: rest =>
        match rest with
        | [] => (10, NoPrefix, 1, PrevDigit, [])
        | ch :: rest' =>
            if one_of ch "b" "B" then (2, PrefixB, 0, PrevDigit, rest')
            else if one_of ch "o" "O" then (8, PrefixO, 0, PrevDigit, rest')
            else if one_of ch "x" "X" then (16, PrefixX, 0, PrevDigit, rest')
            else (8, Prefix0, 0, PrevDigit, ch :: rest')
        end
    | _ => (10, NoPrefix, 0, PrevOther, s)
    end in
  let '(res, count, prev, invalSep, rest) := scan_loop b s 0 count prev false in
  let err := invalSep || match prev with PrevSep => true | _ => false end in
  if count =? 0 then
    match prefix with
    | Prefix0 => (if err then None else Some 0, rest)
    | _ => (None, rest)
    end
  else (if err then None else Some res, rest).

(** [new(big.Int).SetString(s, 0)]: the value, or [None] when [ok] is false. *)
Definition SetString (s : string) : option Z :=
  match list_ascii_of_string s with
  | [] => None
  | ch :: rest =>
      let '(neg, body) :=
        if Ascii.eqb ch "-" then (true, rest)
        else if Ascii.eqb ch "+" then (false, rest)
        else (false, ch :: rest) in
      match nat_scan body with
      | (Some abs, []) => Some (if neg then - abs else abs)
      | _ => None
      end
  end.

(** [x.Uint64()]: the low 64 bits of the magnitude. *)
Definition Uint64 (x : Z) : Z := Z.abs x mod 2 ^ 64.

End big.

(** ** strconv: [Atoi] and [ParseBool]

    [Atoi] on a 64-bit platform: an optional sign and then decimal digits
    only, the value within the range of [int]; anything else is an error. *)
Module strconv.

(** The digit loop: the value of a run of decimal digits, [None] when a
    character is no decimal digit. *)
Fixpoint digits (s : list ascii) (n : Z) : option Z :=
  match s with
  | [] => Some n
  | ch :: rest =>
      let d := Z.of_nat (nat_of_ascii ch) - 48 in
      if (0 <=? d) && (d <=? 9) then digits rest (n * 10 + d) else None
  end.

Definition Atoi (s : string) : option Z :=
  match list_ascii_of_string s with
  | [] => None
  | ch :: rest =>
      let '(neg, body) :=
        if Ascii.eqb ch "-" then (true, rest)
        else if Ascii.eqb ch "+" then (false, rest)
        else (false, ch :: rest) in
      match body with
      | [] => None
      | _ =>
          match digits body 0 with
          | None => None
          | Some n =>
              let n := if neg then - n else n in
              if (- 2 ^ 63 <=? n) && (n <=? 2 ^ 63 - 1) then Some n else None
          end
      end
  end.

Definition ParseBool (str : string) : option bool :=
  if existsb (String.eqb str) ["1"; "t"; "T"; "TRUE"; "true"; "True"] then Some true
  else if existsb (String.eqb str) ["0"; "f"; "F"; "FALSE"; "false"; "False"]
  then Some false
  else None.

End strconv.

(** ** Third-party libraries

    [crypto/sha256], go-ethereum's [crypto], [common] and [core/types]. *)
Class Sha256 : Type := { sha256_Sum256 : string -> bytes }.

Class Crypto : Type := {
  PrivateKey : Type;
  PublicKey : Type;
  common_Address : Type;
  crypto_ToECDSA : bytes -> outcome PrivateKey;
  privateKey_Public : PrivateKey -> PublicKey;
  crypto_PubkeyToAddress : PublicKey -> common_Address;
  address_Hex : common_Address -> string;
  crypto_Sign : bytes -> PrivateKey -> outcome bytes;
  crypto_FromECDSAPub : PublicKey -> bytes;
  (* recovers the signing public key from a digest and a signature *)
  crypto_SigToPub : bytes -> bytes -> outcome PublicKey;
  common_HexToAddress : string -> common_Address;
  common_FromHex : string -> bytes
}.

(** * The 2025 runtime module *)
Module Runtime.

(** ** main.go: configuration *)
Record Config : Type := {
  CognitoIssuer : string;
  CognitoAudience : string;
  JWKSCacheTTL : Z;
  WalletEnabled : bool;
  WalletChain : string;
  WalletMasterKeyARN : string;
  WalletDerivationPath : string
}.

(** [os.Getenv] over the process environment: the empty string for a
    variable that is not set. *)
Definition os_Getenv (env : gmap string string) (key : string) : string :=
  default "" (env !! key).

Definition getEnv (env : gmap string string) (key defaultValue : string) : string :=
  let value := os_Getenv env key in
  if negb (String.eqb value "") then value else defaultValue.

Definition getEnvInt (env : gmap string string) (key : string) (defaultValue : Z) : Z :=
  let value := os_Getenv env key in
  if negb (String.eqb value "") then
    match strconv.Atoi value with
    | Some intValue => intValue
    | None => defaultValue
    end
  else defaultValue.

Definition getEnvBool (env : gmap string string) (key : string)
    (defaultValue : bool) : bool :=
  let value := os_Getenv env key in
  if negb (String.eqb value "") then
    match strconv.ParseBool value with
    | Some boolValue => boolValue
    | None => defaultValue
    end
  else defaultValue.

Definition loadConfig (env : gmap string string) : outcome Config :=
  let cfg :=
    {| CognitoIssuer := getEnv env "NAKAMA_COGNITO_ISS" "";
       CognitoAudience := getEnv env "NAKAMA_COGNITO_AUDIENCE" "";
       JWKSCacheTTL := getEnvInt env "NAKAMA_JWKS_CACHE_TTL" 3600;
       WalletEnabled := getEnvBool env "NAKAMA_WALLET_ENABLED" false;
       WalletChain := getEnv env "NAKAMA_WALLET_CHAIN" "evm";
       WalletMasterKeyARN := getEnv env "NAKAMA_WALLET_MASTER_KEY_ARN" "";
       WalletDerivationPath :=
         getEnv env "NAKAMA_WALLET_DERIVATION_PATH" "m/44'/60'/0'/0" |} in
  if String.eqb (CognitoIssuer cfg) "" then
    Err (Errorf "NAKAMA_COGNITO_ISS is required" None)
  else if String.eqb (CognitoAudience cfg) "" then
    Err (Errorf "NAKAMA_COGNITO_AUDIENCE is required" None)
  else if WalletEnabled cfg && String.eqb (WalletMasterKeyARN cfg) "" then
    Err (Errorf "NAKAMA_WALLET_MASTER_KEY_ARN is required when wallet is enabled" None)
  else Ok cfg.

(** ** auth.go *)

(** [CognitoTokenClaims]: the fields of the embedded [jwt.RegisteredClaims]
    that the module reads, then the Cognito ones. [ExpiresAt] is a
    [*NumericDate]: [None] is the nil pointer of a token without [exp];
    instants are nanoseconds since the epoch. *)
Record CognitoTokenClaims : Type := {
  Issuer : string;
  Subject : string;
  Audience : list string;
  ExpiresAt : option Z;
  TokenUse : string;
  Email : string;
  EmailVerified : bool;
  Name : string;
  Picture : string;
  CognitoGroups : list string
}.

(** What the type assertion of [token.Claims] to a [CognitoTokenClaims]
    pointer can find. *)
Inductive token_claims : Type :=
| ClaimsPtr (c : CognitoTokenClaims)
| ClaimsOther.

Record jwt_Token : Type := {
  Valid : bool;
  Claims : token_claims
}.

(** The [for _, aud := range claims.Audience] loop with its [break]. *)
Fixpoint validAudience (audience : list string) (expected : string) : bool :=
  match audience with
  | [] => false
  | aud :: rest =>
      if String.eqb aud expected then true else validAudience rest expected
  end.

(** [VerifyCognitoIDToken]. [parsed] is what
    [jwt.ParseWithClaims(tokenStr, &CognitoTokenClaims{}, m.jwks.Keyfunc)]
    returned, [now] is the [time.Now()] of the expiration check. *)
Definition VerifyCognitoIDToken (config : Config) (now : Z)
    (parsed : outcome jwt_Token) : result CognitoTokenClaims :=
  match parsed with
  | Err err =>
      Returns (Err (NewAuthError "TOKEN_PARSE_FAILED" "Failed to parse token" (Some err)))
  | Ok token =>
      if negb (Valid token) then
        Returns (Err (NewAuthError "TOKEN_INVALID" "Token validation failed"
                        (Some (Sentinel ErrInvalidToken))))
      else
        match Claims token with
        | ClaimsOther =>
            Returns (Err (NewAuthError "CLAIMS_EXTRACTION_FAILED" "Failed to extract claims"
                            (Some (Sentinel ErrInvalidToken))))
        | ClaimsPtr claims =>
            if negb (String.eqb (Issuer claims) (CognitoIssuer config)) then
              Returns (Err (NewAuthError "INVALID_ISSUER"
                              ("Expected issuer " ++ CognitoIssuer config)
                              (Some (Sentinel ErrInvalidIssuer))))
            else if negb (validAudience (Audience claims) (CognitoAudience config)) then
              Returns (Err (NewAuthError "INVALID_AUDIENCE"
                              ("Expected audience " ++ CognitoAudience config)
                              (Some (Sentinel ErrInvalidAudience))))
            else if negb (String.eqb (TokenUse claims) "id") then
              Returns (Err (NewAuthError "INVALID_TOKEN_USE" "Expected token_use=id"
                              (Some (Sentinel ErrInvalidTokenType))))
            else
              match ExpiresAt claims with
              | None => Panics
              | Some exp =>
                  (* time.Now().After(claims.ExpiresAt.Time) *)
                  if exp <? now then
                    Returns (Err (NewAuthError "TOKEN_EXPIRED" "Token has expired"
                                    (Some (Sentinel ErrTokenExpired))))
                  else if String.eqb (Subject claims) "" then
                    Returns (Err (NewAuthError "MISSING_SUBJECT" "Token missing subject claim"
                                    (Some (Sentinel ErrMissingSubject))))
                  else Returns (Ok claims)
              end
        end
  end.

(** The loop of [ExtractUserVars] that joins the groups with commas. *)
Fixpoint join_groups (i : nat) (groups : string) (l : list string) : string :=
  match l with
  | [] => groups
  | group :: rest =>
      let groups := if (0 <? i)%nat then groups ++ "," else groups in
      join_groups (S i) (groups ++ group) rest
  end.

(** [fmt.Sprintf("%t", b)]. *)
Definition Sprintf_t (b : bool) : string := if b then "true" else "false".

Definition ExtractUserVars (claims : CognitoTokenClaims) : gmap string string :=
  let vars : gmap string string := ∅ in
  let vars := if negb (String.eqb (Email claims) "")
              then <["email" := Email claims]> vars else vars in
  let vars := <["email_verified" := Sprintf_t (EmailVerified claims)]> vars in
  let vars := if negb (String.eqb (Name claims) "")
              then <["name" := Name claims]> vars else vars in
  let vars := if negb (String.eqb (Picture claims) "")
              then <["picture" := Picture claims]> vars else vars in
  let vars := <["provider" := "cognito"]> vars in
  if (0 <? length (CognitoGroups claims))%nat
  then <["cognito_groups" := join_groups 0 "" (CognitoGroups claims)]> vars
  else vars.

(** [JWKSManager]: [jwks] stands for
    [jwt.ParseWithClaims(·, &CognitoTokenClaims{}, m.jwks.Keyfunc)], the
    parser of golang-jwt driven by the key function of keyfunc/v3. *)
Record JWKSManager : Type := {
  jwks : string -> outcome jwt_Token;
  mgr_config : Config
}.

(** [NewJWKSManager]; [NewDefault] stands for [keyfunc.NewDefault] followed
    by the parser it is later handed to, for the list of key-set URLs. *)
Definition NewJWKSManager
    (NewDefault : list string -> outcome (string -> outcome jwt_Token))
    (config : Config) : outcome JWKSManager :=
  if String.eqb (CognitoIssuer config) "" then
    Err (Errorf "NAKAMA_COGNITO_ISS is required" None)
  else
    let jwksURL := CognitoIssuer config ++ "/.well-known/jwks.json" in
    match NewDefault [jwksURL] with
    | Err err => Err (NewAuthError "JWKS_INIT_FAILED" "Failed to initialize JWKS" (Some err))
    | Ok jwks => Ok {| jwks := jwks; mgr_config := config |}
    end.

(** ** types.go *)
Record WalletInfo : Type := {
  info_Address : string;
  info_Chain : string
}.

Record LoginResponse : Type := {
  Token : string;
  Wallet_of_login : option WalletInfo      (* Wallet *WalletInfo, omitempty *)
}.

Record LinkResponse : Type := {
  Success : bool;
  Wallet_of_link : option WalletInfo       (* Wallet *WalletInfo, omitempty *)
}.

(** [ToJSON] of the response structs, up to the text of the document: the
    object [json.Marshal] builds, a nil [Wallet] being omitted. *)
Definition WalletInfo_json (i : WalletInfo) : json :=
  JObj [("address", JStr (info_Address i)); ("chain", JStr (info_Chain i))].

Definition ToJSON_LoginResponse (r : LoginResponse) : outcome json :=
  Ok (JObj (("token", JStr (Token r)) ::
            match Wallet_of_login r with
            | Some i => [("wallet", WalletInfo_json i)]
            | None => []
            end)).

Definition ToJSON_LinkResponse (r : LinkResponse) : outcome json :=
  Ok (JObj (("success", JBool (Success r)) ::
            match Wallet_of_link r with
            | Some i => [("wallet", WalletInfo_json i)]
            | None => []
            end)).

(** ** wallet.go *)
Definition WalletCollection : string := "wallet".

Record Wallet : Type := {
  Chain : string;
  Address : string;
  CreatedAt : Z       (* epoch milliseconds *)
}.

(** [json.Marshal] and [json.Unmarshal] at type [Wallet]. *)
Class WalletCodec : Type := {
  json_Marshal : Wallet -> string;
  json_Unmarshal : string -> outcome Wallet
}.

(** ** kms.go *)

(** The [KMSSigner] interface. *)
Record KMSSigner : Type := {
  Sign : string -> bytes -> outcome bytes;
  GetPublicKey : string -> outcome bytes
}.

Section WithLibraries.
Context {sha : Sha256} {crypto : Crypto} {codec : WalletCodec}.

Record MockKMSSigner : Type := { mock_config : Config }.

Definition NewMockKMSSigner (config : Config) : MockKMSSigner :=
  {| mock_config := config |}.

Definition derivePrivateKey (m : MockKMSSigner) (externalID : string)
    : outcome PrivateKey :=
  let seed := WalletMasterKeyARN (mock_config m) ++ ":" ++ externalID in
  let hash := sha256_Sum256 seed in
  match crypto_ToECDSA hash with
  | Err err => Err err
  | Ok privateKey => Ok privateKey
  end.

Definition MockKMSSigner_Sign (m : MockKMSSigner) (externalID : string)
    (hash : bytes) : outcome bytes :=
  match derivePrivateKey m externalID with
  | Err err => Err (Errorf "failed to derive private key: %w" (Some err))
  | Ok privateKey =>
      match crypto_Sign hash privateKey with
      | Err err => Err (Errorf "failed to sign: %w" (Some err))
      | Ok signature => Ok signature
      end
  end.

Definition MockKMSSigner_GetPublicKey (m : MockKMSSigner) (externalID : string)
    : outcome bytes :=
  match derivePrivateKey m externalID with
  | Err err => Err (Errorf "failed to derive private key: %w" (Some err))
  | Ok privateKey => Ok (crypto_FromECDSAPub (privateKey_Public privateKey))
  end.

(** [MockKMSSigner] implements [KMSSigner]. *)
Definition MockKMSSigner_KMSSigner (m : MockKMSSigner) : KMSSigner :=
  {| Sign := MockKMSSigner_Sign m; GetPublicKey := MockKMSSigner_GetPublicKey m |}.

Definition GetKMSSigner (config : Config) : KMSSigner :=
  MockKMSSigner_KMSSigner (NewMockKMSSigner config).

(** ** evm_signer.go *)
Record EVMTransactionRequest : Type := {
  To : string;
  ValueWei : string;
  Data : string;
  GasLimit : string;
  MaxFeePerGasWei : string;
  MaxPriorityFeePerGasWei : string;
  Nonce : Z
}.

(** [types.DynamicFeeTx]. *)
Record DynamicFeeTx : Type := {
  tx_ChainID : Z;
  tx_Nonce : Z;
  tx_GasTipCap : Z;
  tx_GasFeeCap : Z;
  tx_Gas : Z;
  tx_To : common_Address;
  tx_Value : Z;
  tx_Data : bytes
}.

(** go-ethereum's [core/types]: the signing hash of the latest signer for a
    chain id, [tx.WithSignature] and the hex hash of the signed transaction. *)
Class CoreTypes : Type := {
  SignedTx : Type;
  Signer_Hash : Z -> DynamicFeeTx -> bytes;
  tx_WithSignature : Z -> DynamicFeeTx -> bytes -> outcome SignedTx;
  signedTx_Hash_Hex : SignedTx -> string
}.
Context {coretypes : CoreTypes}.

Definition deriveEVMAddress (externalID : string) (config : Config)
    : outcome string :=
  let seed := WalletMasterKeyARN config ++ ":" ++ externalID in
  let hash := sha256_Sum256 seed in
  match crypto_ToECDSA hash with
  | Err err => Err (Errorf "failed to derive private key: %w" (Some err))
  | Ok privateKey =>
      let publicKey := privateKey_Public privateKey in
      let address := crypto_PubkeyToAddress publicKey in
      Ok (address_Hex address)
  end.

(** [signTransaction]; the call of the signing service is recorded in the
    trace. *)
Definition signTransaction (externalID : string) (hash : bytes)
    (config : Config) (kmsSigner : KMSSigner) : Eff bytes :=
  do _ <- emit (EvSign externalID hash);
  match Sign kmsSigner externalID hash with
  | Err err => fail (Errorf "KMS signing failed: %w" (Some err))
  | Ok signature => ret signature
  end.

(** One of the four [new(big.Int)] / [SetString(field, 0)] blocks: an empty
    field leaves the zero value, [label] is the text of the error. *)
Definition parse_field (field label : string) : outcome Z :=
  if String.eqb field "" then Ok 0
  else match big.SetString field with
       | Some v => Ok v
       | None => Err (Errorf (label ++ field) None)
       end.

(** [signAndSendEVMTransaction]. The function signs with the package-level
    [kmsSigner], not with its [signer] argument. *)
Definition signAndSendEVMTransaction (externalID : string)
    (request : EVMTransactionRequest) (config : Config)
    (signer kmsSigner : KMSSigner) : Eff string :=
  if String.eqb (To request) "" then fail (Errorf "missing 'to' address" None) else
  do value <- lift (parse_field (ValueWei request) "invalid value: ");
  do gasLimit <- lift (parse_field (GasLimit request) "invalid gas limit: ");
  do maxFeePerGas <-
    lift (parse_field (MaxFeePerGasWei request) "invalid max fee per gas: ");
  do maxPriorityFeePerGas <-
    lift (parse_field (MaxPriorityFeePerGasWei request)
            "invalid max priority fee per gas: ");
  let data := if String.eqb (Data request) "" then []
              else common_FromHex (Data request) in
  let chainID := 1 in
  let to := common_HexToAddress (To request) in
  let tx := {| tx_ChainID := chainID; tx_Nonce := Nonce request;
               tx_GasTipCap := maxPriorityFeePerGas;
               tx_GasFeeCap := maxFeePerGas;
               tx_Gas := big.Uint64 gasLimit;
               tx_To := to; tx_Value := value; tx_Data := data |} in
  let txHash := Signer_Hash chainID tx in
  fun w =>
    match signTransaction externalID txHash config kmsSigner w with
    | (Err err, w') => (Err (Errorf "failed to sign transaction: %w" (Some err)), w')
    | (Ok signature, w') =>
        match tx_WithSignature chainID tx signature with
        | Err err => (Err (Errorf "failed to apply signature: %w" (Some err)), w')
        | Ok signedTx => (Ok (signedTx_Hash_Hex signedTx), w')
        end
    end.

(** ** wallet.go, continued *)

(** [deriveWalletAddress]; the derivation request is recorded in the trace. *)
Definition deriveWalletAddress (externalID : string) (config : Config)
    : Eff string :=
  do _ <- emit (EvDerive externalID);
  if String.eqb (WalletChain config) "evm" then
    lift (deriveEVMAddress externalID config)
  else if String.eqb (WalletChain config) "solana" then
    fail (Sentinel ErrInvalidChain)
  else fail (Sentinel ErrInvalidChain).

(** [time.Time.UnixMilli]. *)
Definition UnixMilli (t : Z) : Z := t / 1000000.

Definition ensureWallet (nk : NakamaModule) (externalID : string)
    (config : Config) : Eff Wallet :=
  if negb (WalletEnabled config) then fail (Sentinel ErrWalletNotEnabled) else
  do objects <- StorageRead nk WalletCollection externalID;
  match objects with
  | obj :: _ =>
      match json_Unmarshal (Value obj) with
      | Err err => fail err
      | Ok wallet => ret wallet
      end
  | [] =>
      do address <- deriveWalletAddress externalID config;
      do now <- time_Now;
      let wallet := {| Chain := WalletChain config; Address := address;
                       CreatedAt := UnixMilli now |} in
      (* json.Marshal cannot fail on a struct of strings and an int64 *)
      let walletData := json_Marshal wallet in
      do _ <- StorageWrite nk WalletCollection externalID
                {| Value := walletData; PermissionRead := 1; PermissionWrite := 0 |};
      ret wallet
  end.

Definition getWallet (nk : NakamaModule) (externalID : string) : Eff Wallet :=
  do objects <- StorageRead nk WalletCollection externalID;
  match objects with
  | [] => fail (Sentinel ErrWalletNotFound)
  | obj :: _ =>
      match json_Unmarshal (Value obj) with
      | Err err => fail err
      | Ok wallet => ret wallet
      end
  end.

(** ** main.go: the RPC handlers *)
Record LoginRequest : Type := {
  IDToken : string;
  Create : bool;
  Username : string
}.

Record LinkRequest : Type := { link_IDToken : string }.

Definition wallet_info (wallet : Wallet) : WalletInfo :=
  {| info_Address := Address wallet; info_Chain := Chain wallet |}.

(** The [if config.WalletEnabled] block shared by login and link: a failure
    of [ensureWallet] is logged and the wallet left nil. *)
Definition provision (nk : NakamaModule) (externalID : string) (config : Config)
    (w : World) : option WalletInfo * World :=
  if WalletEnabled config then
    match ensureWallet nk externalID config w with
    | (Err _, w') => (None, w')
    | (Ok wallet, w') => (Some (wallet_info wallet), w')
    end
  else (None, w).

(** [rpcCognitoLogin]; [request] is the result of [FromJSON(payload, &request)]. *)
Definition rpcCognitoLogin (nk : NakamaModule) (jwksManager : JWKSManager)
    (config : Config) (request : outcome LoginRequest)
    : World -> result json * World :=
  fun w =>
  match request with
  | Err err =>
      (Returns (Err (NewAuthError "INVALID_PAYLOAD" "Failed to parse request" (Some err))), w)
  | Ok request =>
      match VerifyCognitoIDToken (mgr_config jwksManager) (clock w)
              (jwks jwksManager (IDToken request)) with
      | Panics => (Panics, w)
      | Returns (Err err) => (Returns (Err err), w)
      | Returns (Ok claims) =>
          let externalID := "cognito:" ++ Subject claims in
          let userVars := ExtractUserVars claims in
          let username := if String.eqb (Username request) ""
                          then Subject claims else Username request in
          match nk_AuthenticateCustom nk externalID username (Create request) with
          | Err err =>
              (Returns (Err (NewAuthError "AUTH_FAILED" "Failed to authenticate" (Some err))), w)
          | Ok (session, userId, created) =>
              (* a failure of AccountUpdateId is only logged *)
              let w1 := if (0 <? size userVars)%nat
                        then snd (emit (EvAccountUpdate userId) w) else w in
              let '(wallet, w2) := provision nk externalID config w1 in
              (Returns (ToJSON_LoginResponse
                          {| Token := session; Wallet_of_login := wallet |}), w2)
          end
      end
  end.

(** [rpcLinkCognito]; [ctx_user_id] is the string found under
    [RUNTIME_CTX_USER_ID] in the context, if any. *)
Definition rpcLinkCognito (nk : NakamaModule) (jwksManager : JWKSManager)
    (config : Config) (ctx_user_id : option string)
    (request : outcome LinkRequest) : World -> result json * World :=
  fun w =>
  match ctx_user_id with
  | None => (Returns (Err (NewAuthError "UNAUTHORIZED" "User session required" None)), w)
  | Some userID =>
      if String.eqb userID "" then
        (Returns (Err (NewAuthError "UNAUTHORIZED" "User session required" None)), w)
      else
      match request with
      | Err err =>
          (Returns (Err (NewAuthError "INVALID_PAYLOAD" "Failed to parse request" (Some err))), w)
      | Ok request =>
          match VerifyCognitoIDToken (mgr_config jwksManager) (clock w)
                  (jwks jwksManager (link_IDToken request)) with
          | Panics => (Panics, w)
          | Returns (Err err) => (Returns (Err err), w)
          | Returns (Ok claims) =>
              let externalID := "cognito:" ++ Subject claims in
              match nk_LinkCustom nk userID externalID with
              | Some err =>
                  (Returns (Err (NewAuthError "LINK_FAILED" "Failed to link account" (Some err))), w)
              | None =>
                  let '(wallet, w') := provision nk externalID config w in
                  (Returns (ToJSON_LinkResponse
                              {| Success := true; Wallet_of_link := wallet |}), w')
              end
          end
      end
  end.

(** [account.CustomId != "" && len(account.CustomId) > 8 &&
    account.CustomId[:8] == "cognito:"]. *)
Definition is_cognito_id (customId : string) : bool :=
  negb (String.eqb customId "")
  && (8 <? String.length customId)%nat
  && String.eqb (substring 0 8 customId) "cognito:".

(** [rpcGetWallet]. *)
Definition rpcGetWallet (nk : NakamaModule) (config : Config)
    (ctx_user_id : option string) : Eff json :=
  if negb (WalletEnabled config) then fail (Sentinel ErrWalletNotEnabled) else
  match ctx_user_id with
  | None => fail (NewAuthError "UNAUTHORIZED" "User session required" None)
  | Some userID =>
      if String.eqb userID "" then
        fail (NewAuthError "UNAUTHORIZED" "User session required" None)
      else
      do customId <- lift (nk_AccountGetId nk userID);
      if is_cognito_id customId then
        do wallet <- getWallet nk customId;
        ret (JObj [("address", JStr (Address wallet)); ("chain", JStr (Chain wallet))])
      else fail (Sentinel ErrWalletNotFound)
  end.

(** [rpcSignAndSend]; [txRequest] is the result of
    [FromJSON(payload, &txRequest)], [kmsSigner] the package-level signer. *)
Definition rpcSignAndSend (nk : NakamaModule) (config : Config)
    (kmsSigner : KMSSigner) (ctx_user_id : option string)
    (txRequest : outcome EVMTransactionRequest) : Eff json :=
  if negb (WalletEnabled config) then fail (Sentinel ErrWalletNotEnabled) else
  match ctx_user_id with
  | None => fail (NewAuthError "UNAUTHORIZED" "User session required" None)
  | Some userID =>
      if String.eqb userID "" then
        fail (NewAuthError "UNAUTHORIZED" "User session required" None)
      else
      do customId <- lift (nk_AccountGetId nk userID);
      if is_cognito_id customId then
        match txRequest with
        | Err err =>
            fail (NewAuthError "INVALID_PAYLOAD" "Failed to parse transaction request"
                    (Some err))
        | Ok txRequest =>
            do txHash <- signAndSendEVMTransaction customId txRequest config
                           kmsSigner kmsSigner;
            ret (JObj [("txHash", JStr txHash)])
        end
      else fail (Sentinel ErrAuthFailed)
  end.

(** ** main.go: [InitModule]

    The package-level variables after initialisation, and the handlers
    registered, in order. [RegisterRpc] tells for which ids the initializer
    fails. *)
Record Globals : Type := {
  g_jwksManager : JWKSManager;
  g_kmsSigner : option KMSSigner;
  g_config : Config
}.

Definition InitModule (env : gmap string string)
    (NewDefault : list string -> outcome (string -> outcome jwt_Token))
    (RegisterRpc : string -> option error) : outcome Globals * list string :=
  match loadConfig env with
  | Err err => (Err err, [])
  | Ok config =>
      match NewJWKSManager NewDefault config with
      | Err err => (Err err, [])
      | Ok jwksMgr =>
          let kmsSigner :=
            if WalletEnabled config then Some (GetKMSSigner config) else None in
          match RegisterRpc "rpc_cognito_login" with
          | Some err => (Err err, [])
          | None =>
          match RegisterRpc "rpc_link_cognito" with
          | Some err => (Err err, ["rpc_cognito_login"])
          | None =>
          match RegisterRpc "rpc_get_wallet" with
          | Some err => (Err err, ["rpc_cognito_login"; "rpc_link_cognito"])
          | None =>
              let registered :=
                ["rpc_cognito_login"; "rpc_link_cognito"; "rpc_get_wallet"] in
              let globals := {| g_jwksManager := jwksMgr; g_kmsSigner := kmsSigner;
                                g_config := config |} in
              if WalletEnabled config then
                match RegisterRpc "rpc_sign_and_send" with
                | Some err => (Err err, registered)
                | None => (Ok globals, (registered ++ ["rpc_sign_and_send"])%list)
                end
              else (Ok globals, registered)
          end end end
      end
  end.

End WithLibraries.

End Runtime.

(** * The 2024 cognito_module *)
Module CognitoModule.

(** ** jwt.go *)
Record JWK : Type := {
  Kid : string;
  Kty : string;
  Alg : string;
  Use : string;
  N : string;
  E : string
}.

(** [rsa.PublicKey]. *)
Record rsa_PublicKey : Type := {
  rsa_N : Z;
  rsa_E : Z
}.

(** [JWKSCache] without its mutex and logger; [lastFetch] and [ttl] are in
    nanoseconds. *)
Record JWKSCache : Type := {
  issuer : string;
  jwksURL : string;
  cache : gmap string rsa_PublicKey;
  ttl : Z;
  lastFetch : Z
}.

(** The zero [time.Time] (January 1, year 1) in nanoseconds since the epoch. *)
Definition zero_Time : Z := -62135596800 * 1000000000.

Definition NewJWKSCache (issuer : string) (ttl : Z) : JWKSCache :=
  {| issuer := issuer; jwksURL := issuer ++ "/.well-known/jwks.json";
     cache := ∅; ttl := ttl; lastFetch := zero_Time |}.

(** What [http.Get] delivers: the status and the result of reading the body. *)
Record http_Response : Type := {
  StatusCode : Z;
  Body : outcome string
}.

(** [encoding/base64] and [encoding/json] at type [JWKS]. *)
Class Encoding : Type := {
  base64_RawURLEncoding_DecodeString : string -> outcome bytes;
  json_Unmarshal_JWKS : string -> outcome (list JWK)
}.

(** The three segments of a token decoded by the parser, before any check:
    whether the header names an RSA signing method, the header, the claims,
    and under which keys the signature verifies. *)
Record UnverifiedToken : Type := {
  Method_is_RSA : bool;
  Header : gmap string json;
  MapClaims : gmap string json;
  signature_verifies : rsa_PublicKey -> bool
}.

Inductive token_claims : Type :=
| ClaimsMap (m : gmap string json)
| ClaimsOther.

Record jwt_Token : Type := {
  Valid : bool;
  Claims : token_claims
}.

(** [decode] splits and decodes a token string ([None]: malformed);
    [validate] is the parser's own validation of the registered claims. *)
Class JwtParser : Type := {
  jwt_decode : string -> option UnverifiedToken;
  jwt_validate : gmap string json -> option error
}.

(** [time.Since]: a [time.Duration] saturates at its bounds. *)
Definition maxDuration : Z := 2 ^ 63 - 1.
Definition minDuration : Z := - 2 ^ 63.
Definition time_Since (now t : Z) : Z :=
  Z.max minDuration (Z.min (now - t) maxDuration).

(** [new(big.Int).SetBytes]: big-endian. *)
Definition SetBytes (b : bytes) : Z :=
  fold_left (fun acc x => acc * 256 + Z.of_N (Byte.to_N x)) b 0.

(** [int(e.Int64())] of a non-negative [e]: the low 64 bits, signed. *)
Definition Int64 (x : Z) : Z := (x + 2 ^ 63) mod 2 ^ 64 - 2 ^ 63.

Section WithLibraries.
Context {sha : Sha256} {enc : Encoding} {parser : JwtParser}.

Definition jwkToRSAPublicKey (jwk : JWK) : outcome rsa_PublicKey :=
  match base64_RawURLEncoding_DecodeString (N jwk) with
  | Err err => Err (Errorf "failed to decode n: %w" (Some err))
  | Ok nBytes =>
      match base64_RawURLEncoding_DecodeString (E jwk) with
      | Err err => Err (Errorf "failed to decode e: %w" (Some err))
      | Ok eBytes =>
          let n := SetBytes nBytes in
          let e := SetBytes eBytes in
          Ok {| rsa_N := n; rsa_E := Int64 e |}
      end
  end.

(** The [for _, jwk := range jwks.Keys] loop of [fetchJWKS], which stores
    into the existing map. *)
Fixpoint update_cache (keys : list JWK) (cache : gmap string rsa_PublicKey)
    : gmap string rsa_PublicKey :=
  match keys with
  | [] => cache
  | jwk :: rest =>
      if negb (String.eqb (Kty jwk) "RSA") then update_cache rest cache
      else
        match jwkToRSAPublicKey jwk with
        | Err _ => update_cache rest cache
        | Ok key => update_cache rest (<[Kid jwk := key]> cache)
        end
  end.

(** [fmt.Sprintf("%d", n)]. *)
Definition Sprintf_d (n : Z) : string :=
  DecimalString.NilZero.string_of_int (Z.to_int n).

(** [fetchJWKS]; [net] is what [http.Get(c.jwksURL)] returns, [now] the
    clock. Returns the cache after the call and the error, if any. *)
Definition fetchJWKS (c : JWKSCache) (now : Z)
    (net : string -> outcome http_Response) : JWKSCache * option error :=
  match net (jwksURL c) with
  | Err err => (c, Some (Errorf "failed to fetch JWKS: %w" (Some err)))
  | Ok resp =>
      if negb (StatusCode resp =? 200) then
        (c, Some (Errorf ("JWKS endpoint returned status " ++ Sprintf_d (StatusCode resp)) None))
      else
        match Body resp with
        | Err err => (c, Some (Errorf "failed to read JWKS response: %w" (Some err)))
        | Ok body =>
            match json_Unmarshal_JWKS body with
            | Err err => (c, Some (Errorf "failed to parse JWKS: %w" (Some err)))
            | Ok keys =>
                ({| issuer := issuer c; jwksURL := jwksURL c;
                    cache := update_cache keys (cache c);
                    ttl := ttl c; lastFetch := now |}, None)
            end
        end
  end.

Definition GetKey (c : JWKSCache) (kid : string) (now : Z)
    (net : string -> outcome http_Response) : JWKSCache * outcome rsa_PublicKey :=
  let needsRefresh := ttl c <? time_Since now (lastFetch c) in
  match cache c !! kid, needsRefresh with
  | Some key, false => (c, Ok key)
  | _, _ =>
      match fetchJWKS c now net with
      | (c', Some err) => (c', Err (Errorf "failed to fetch JWKS: %w" (Some err)))
      | (c', None) =>
          match cache c' !! kid with
          | Some key => (c', Ok key)
          | None => (c', Err (Errorf ("key with kid '" ++ kid ++ "' not found in JWKS") None))
          end
      end
  end.

(** ** main.go: configuration *)
Record CognitoConfig : Type := {
  Issuer : string;
  Audience : string;
  JWKSCacheTTL : Z;
  WalletChain : string;
  WalletMasterKeyARN : string;
  WalletDerivePath : string
}.

(** [CognitoModule]; [jwksCache] is the state of the cache it points to. *)
Record CognitoModule : Type := {
  config : CognitoConfig;
  jwksCache : JWKSCache
}.

(** The key function handed to [jwt.Parse]. *)
Definition keyFunc (c : JWKSCache) (now : Z) (net : string -> outcome http_Response)
    (token : UnverifiedToken) : JWKSCache * outcome rsa_PublicKey :=
  if negb (Method_is_RSA token) then
    (c, Err (Errorf "unexpected signing method" None))
  else
    match Header token !! "kid" with
    | Some (JStr kid) => GetKey c kid now net
    | _ => (c, Err (Errorf "missing kid in token header" None))
    end.

(** [jwt.Parse(idToken, keyFunc)] of golang-jwt v5: decode, ask the key
    function, verify the signature, validate the registered claims. *)
Definition jwt_Parse (idToken : string)
    (keyFunc : UnverifiedToken -> JWKSCache * outcome rsa_PublicKey)
    (c : JWKSCache) : JWKSCache * outcome jwt_Token :=
  match jwt_decode idToken with
  | None => (c, Err JwtMalformed)
  | Some token =>
      match keyFunc token with
      | (c', Err err) => (c', Err (JwtUnverifiable err))
      | (c', Ok key) =>
          if negb (signature_verifies token key) then (c', Err JwtSignatureInvalid)
          else
            match jwt_validate (MapClaims token) with
            | Some err => (c', Err err)
            | None => (c', Ok {| Valid := true; Claims := ClaimsMap (MapClaims token) |})
            end
      end
  end.

(** [int64(exp)] for a [float64]: truncation towards zero. *)
Definition int64_of_float (q : Q) : Z := Z.quot (Qnum q) (Zpos (Qden q)).

(** [time.Time.Unix]. *)
Definition Unix (t : Z) : Z := t / 1000000000.

(** The claim checks of [verifyCognitoIDToken], after the parse. *)
Definition check_claims (config : CognitoConfig) (now : Z)
    (parsed : outcome jwt_Token) : outcome (gmap string json) :=
  match parsed with
  | Err err => Err (Errorf "failed to parse/verify token: %w" (Some err))
  | Ok token =>
      if negb (Valid token) then Err (Errorf "token is invalid" None) else
      match Claims token with
      | ClaimsOther => Err (Errorf "failed to extract claims" None)
      | ClaimsMap claims =>
          let iss := match claims !! "iss" with Some (JStr iss) => Some iss | _ => None end in
          if negb (match iss with
                   | Some iss => String.eqb iss (Issuer config)
                   | None => false
                   end) then
            Err (Errorf ("invalid issuer: expected " ++ Issuer config ++ ", got "
                           ++ default "" iss) None)
          else
          let aud :=
            match claims !! "aud" with
            | Some (JStr aud) => aud
            | Some (JArr (JStr audStr :: _)) => audStr
            | _ => ""
            end in
          if negb (String.eqb aud (Audience config)) then
            Err (Errorf ("invalid audience: expected " ++ Audience config ++ ", got "
                           ++ aud) None)
          else
          let tokenUse :=
            match claims !! "token_use" with Some (JStr u) => Some u | _ => None end in
          if negb (match tokenUse with
                   | Some u => String.eqb u "id"
                   | None => false
                   end) then
            Err (Errorf ("invalid token_use: expected 'id', got '"
                           ++ default "" tokenUse ++ "'") None)
          else
          match claims !! "exp" with
          | Some (JNum exp) =>
              if Z.geb (Unix now) (int64_of_float exp)
              then Err (Errorf "token has expired" None)
              else Ok claims
          | _ => Err (Errorf "missing or invalid exp claim" None)
          end
      end
  end.

(** [verifyCognitoIDToken]: returns the cache after the call too. *)
Definition verifyCognitoIDToken (m : CognitoModule) (now : Z)
    (net : string -> outcome http_Response) (idToken : string)
    : JWKSCache * outcome (gmap string json) :=
  let '(c', parsed) :=
    jwt_Parse idToken (keyFunc (jwksCache m) now net) (jwksCache m) in
  (c', check_claims (config m) now parsed).

(** ** wallet.go *)
Definition walletCollection : string := "wallet".

Record WalletRecord : Type := {
  Chain : string;
  Address : string;
  CreatedAt : Z
}.

(** [json.Marshal] and [json.Unmarshal] at type [WalletRecord]. *)
Class WalletCodec : Type := {
  json_Marshal : WalletRecord -> string;
  json_Unmarshal : string -> outcome WalletRecord
}.
Context {codec : WalletCodec}.

Definition readWallet (nk : NakamaModule) (externalID : string) : Eff WalletRecord :=
  fun w =>
  match StorageRead nk walletCollection externalID w with
  | (Err err, w') => (Err (Errorf "storage read failed: %w" (Some err)), w')
  | (Ok objects, w') =>
      match objects with
      | [] => (Err (Errorf "wallet not found" None), w')
      | obj :: _ =>
          match json_Unmarshal (Value obj) with
          | Err err => (Err (Errorf "failed to unmarshal wallet: %w" (Some err)), w')
          | Ok wallet => (Ok wallet, w')
          end
      end
  end.

Definition writeWallet (nk : NakamaModule) (externalID : string)
    (wallet : WalletRecord) : Eff unit :=
  (* json.Marshal cannot fail on a struct of strings and an int64 *)
  let walletBytes := json_Marshal wallet in
  fun w =>
  match StorageWrite nk walletCollection externalID
          {| Value := walletBytes; PermissionRead := 0; PermissionWrite := 0 |} w with
  | (Err err, w') => (Err (Errorf "storage write failed: %w" (Some err)), w')
  | (Ok _, w') => (Ok tt, w')
  end.

(** [hex.EncodeToString]. *)
Definition hex_digit (n : Z) : ascii :=
  nth (Z.to_nat n) (list_ascii_of_string "0123456789abcdef") "0"%char.

Definition hex_EncodeToString (b : bytes) : string :=
  fold_right (fun x acc =>
                let n := Z.of_N (Byte.to_N x) in
                String (hex_digit (n / 16)) (String (hex_digit (n mod 16)) acc))
             "" b.

Definition deriveAddress (externalID chain : string) : outcome string :=
  let hash := sha256_Sum256 externalID in
  if String.eqb chain "evm" then
    let addressBytes := take 20 hash in
    Ok ("0x" ++ hex_EncodeToString addressBytes)
  else if String.eqb chain "solana" then
    let addressBytes := take 32 hash in
    Ok (hex_EncodeToString addressBytes)
  else Err (Errorf ("unsupported chain: " ++ chain) None).

(** [ensureWallet]; the call of [deriveAddress] is recorded in the trace. *)
Definition ensureWallet (nk : NakamaModule) (externalID chain : string)
    : Eff WalletRecord :=
  fun w =>
  match readWallet nk externalID w with
  | (Ok wallet, w') => (Ok wallet, w')
  | (Err _, w') =>
      (do _ <- emit (EvDerive externalID);
       match deriveAddress externalID chain with
       | Err err => fail (Errorf "failed to derive address: %w" (Some err))
       | Ok address =>
           do now <- time_Now;
           let wallet := {| Chain := chain; Address := address;
                            CreatedAt := Unix now |} in
           fun w =>
           match writeWallet nk externalID wallet w with
           | (Err err, w') => (Err (Errorf "failed to write wallet: %w" (Some err)), w')
           | (Ok _, w') => (Ok wallet, w')
           end
       end) w'
  end.

(** ** main.go: the RPC handlers *)
Record LoginRequest : Type := {
  IDToken : string;
  Create : option bool;
  Username : string
}.

Record LinkRequest : Type := { link_IDToken : string }.

Record WalletSummary : Type := {
  sum_Address : string;
  sum_Chain : string
}.

Record LoginResponse : Type := {
  Token : string;
  Wallet : WalletSummary
}.

(** [json.Marshal] of the response structs, up to the text of the document. *)
Definition WalletSummary_json (s : WalletSummary) : json :=
  JObj [("address", JStr (sum_Address s)); ("chain", JStr (sum_Chain s))].

Definition LoginResponse_json (r : LoginResponse) : json :=
  JObj [("token", JStr (Token r)); ("wallet", WalletSummary_json (Wallet r))].

(** A string-typed claim: [claims[key].(string)]. *)
Definition string_claim (claims : gmap string json) (key : string) : option string :=
  match claims !! key with
  | Some (JStr s) => Some s
  | _ => None
  end.

(** Lookup in a decoded JSON object, the last of equal keys winning. *)
Fixpoint obj_lookup (key : string) (fields : list (string * json)) : option json :=
  match fields with
  | [] => None
  | (k, v) :: rest =>
      match obj_lookup key rest with
      | Some v' => Some v'
      | None => if String.eqb k key then Some v else None
      end
  end.

Definition updateUserMetadata (nk : NakamaModule) (userID : string)
    (claims : gmap string json) : Eff unit :=
  let metadata : gmap string json := ∅ in
  let metadata := match claims !! "email" with
                  | Some (JStr email) => <["email" := JStr email]> metadata
                  | _ => metadata
                  end in
  let metadata := match claims !! "email_verified" with
                  | Some (JBool b) => <["email_verified" := JBool b]> metadata
                  | _ => metadata
                  end in
  let metadata := match claims !! "name" with
                  | Some (JStr name) => <["name" := JStr name]> metadata
                  | _ => metadata
                  end in
  let metadata := match claims !! "picture" with
                  | Some (JStr picture) => <["picture" := JStr picture]> metadata
                  | _ => metadata
                  end in
  let metadata := match claims !! "identities" with
                  | Some (JArr (JObj identity :: _)) =>
                      match obj_lookup "providerName" identity with
                      | Some (JStr providerName) =>
                          <["provider" := JStr providerName]> metadata
                      | _ => metadata
                      end
                  | _ => metadata
                  end in
  if (0 <? size metadata)%nat then
    do _ <- emit (EvAccountUpdate userID);
    match nk_AccountUpdateId nk userID with
    | Some err => fail err
    | None => ret tt
    end
  else ret tt.

(** [rpcCognitoLogin]; [req] is the result of [json.Unmarshal] on the
    payload. Returns the state of the key cache after the call too. *)
Definition rpcCognitoLogin (nk : NakamaModule) (module : CognitoModule)
    (net : string -> outcome http_Response) (req : outcome LoginRequest)
    : World -> outcome json * JWKSCache * World :=
  fun w =>
  let c := jwksCache module in
  match req with
  | Err err => (Err (Errorf "invalid request payload: %w" (Some err)), c, w)
  | Ok req =>
      if String.eqb (IDToken req) "" then (Err (Errorf "id_token is required" None), c, w) else
      match verifyCognitoIDToken module (clock w) net (IDToken req) with
      | (c, Err err) => (Err (Errorf "token verification failed: %w" (Some err)), c, w)
      | (c, Ok claims) =>
          match string_claim claims "sub" with
          | None => (Err (Errorf "missing or invalid 'sub' claim in token" None), c, w)
          | Some sub =>
              if String.eqb sub "" then
                (Err (Errorf "missing or invalid 'sub' claim in token" None), c, w)
              else
              let externalID := "cognito:" ++ sub in
              let create := match Create req with Some b => b | None => true end in
              let username :=
                if String.eqb (Username req) "" then
                  match string_claim claims "email" with
                  | Some (String a email) => String a email
                  | _ =>
                      match string_claim claims "cognito:username" with
                      | Some (String a u) => String a u
                      | _ => ""
                      end
                  end
                else Username req in
              match nk_AuthenticateCustom nk externalID username create with
              | Err err => (Err (Errorf "authentication failed: %w" (Some err)), c, w)
              | Ok (userID, usernameResult, created) =>
                  (* a failure of updateUserMetadata is only logged *)
                  let w := snd (updateUserMetadata nk userID claims w) in
                  match ensureWallet nk externalID (WalletChain (config module)) w with
                  | (Err err, w) => (Err (Errorf "failed to ensure wallet: %w" (Some err)), c, w)
                  | (Ok wallet, w) =>
                      match nk_AuthenticateTokenGenerate nk userID usernameResult with
                      | Err err => (Err (Errorf "failed to generate token: %w" (Some err)), c, w)
                      | Ok token =>
                          (Ok (LoginResponse_json
                                 {| Token := token;
                                    Wallet := {| sum_Address := Address wallet;
                                                 sum_Chain := Chain wallet |} |}), c, w)
                      end
                  end
              end
          end
      end
  end.

(** [rpcLinkCognito]; [ctx_user_id] is the string found under
    [RUNTIME_CTX_USER_ID] in the context, if any. *)
Definition rpcLinkCognito (nk : NakamaModule) (module : CognitoModule)
    (net : string -> outcome http_Response) (ctx_user_id : option string)
    (req : outcome LinkRequest) : World -> outcome json * JWKSCache * World :=
  fun w =>
  let c := jwksCache module in
  match ctx_user_id with
  | None => (Err (Errorf "user must be authenticated to link Cognito account" None), c, w)
  | Some userID =>
      if String.eqb userID "" then
        (Err (Errorf "user must be authenticated to link Cognito account" None), c, w)
      else
      match req with
      | Err err => (Err (Errorf "invalid request payload: %w" (Some err)), c, w)
      | Ok req =>
          if String.eqb (link_IDToken req) "" then
            (Err (Errorf "id_token is required" None), c, w)
          else
          match verifyCognitoIDToken module (clock w) net (link_IDToken req) with
          | (c, Err err) => (Err (Errorf "token verification failed: %w" (Some err)), c, w)
          | (c, Ok claims) =>
              match string_claim claims "sub" with
              | None => (Err (Errorf "missing or invalid 'sub' claim in token" None), c, w)
              | Some sub =>
                  if String.eqb sub "" then
                    (Err (Errorf "missing or invalid 'sub' claim in token" None), c, w)
                  else
                  let externalID := "cognito:" ++ sub in
                  match nk_LinkCustom nk userID externalID with
                  | Some err => (Err (Errorf "failed to link custom ID: %w" (Some err)), c, w)
                  | None =>
                      let w := snd (updateUserMetadata nk userID claims w) in
                      match ensureWallet nk externalID (WalletChain (config module)) w with
                      | (Err err, w) =>
                          (Err (Errorf "failed to ensure wallet: %w" (Some err)), c, w)
                      | (Ok wallet, w) =>
                          (Ok (WalletSummary_json
                                 {| sum_Address := Address wallet;
                                    sum_Chain := Chain wallet |}), c, w)
                      end
                  end
              end
          end
      end
  end.

(** [account.CustomId != "" && len(account.CustomId) > 8 &&
    account.CustomId[:8] == "cognito:"]. *)
Definition is_cognito_id (customId : string) : bool :=
  negb (String.eqb customId "")
  && (8 <? String.length customId)%nat
  && String.eqb (substring 0 8 customId) "cognito:".

(** [rpcGetWallet]. *)
Definition rpcGetWallet (nk : NakamaModule) (ctx_user_id : option string) : Eff json :=
  match ctx_user_id with
  | None => fail (Errorf "user must be authenticated" None)
  | Some userID =>
      if String.eqb userID "" then fail (Errorf "user must be authenticated" None) else
      match nk_AccountGetId nk userID with
      | Err err => fail (Errorf "failed to get account: %w" (Some err))
      | Ok customId =>
          if is_cognito_id customId then
            fun w =>
            match readWallet nk customId w with
            | (Err err, w') => (Err (Errorf "failed to read wallet: %w" (Some err)), w')
            | (Ok walletRecord, w') =>
                (Ok (WalletSummary_json
                       {| sum_Address := Address walletRecord;
                          sum_Chain := Chain walletRecord |}), w')
            end
          else fail (Errorf "no Cognito account linked" None)
      end
  end.

Record TransactionRequest : Type := {
  To : string;
  ValueWei : string;
  Data : option string;
  GasLimit : option string;
  MaxFeePerGasWei : option string;
  MaxPriorityFeePerGasWei : option string;
  Nonce : option Z
}.

(** The hexadecimal digits of a non-negative [int64], most significant
    first (none for zero). *)
Fixpoint hex_digits (fuel : nat) (n : Z) (acc : string) : string :=
  match fuel with
  | O => acc
  | S fuel =>
      if n =? 0 then acc
      else hex_digits fuel (n / 16) (String (hex_digit (n mod 16)) acc)
  end.

Fixpoint zeros (n : nat) : string :=
  match n with
  | O => ""
  | S n => String "0" (zeros n)
  end.

(** [fmt.Sprintf("%064x", n)] for an [int64]: zero padding to 64 characters,
    after the sign if there is one. *)
Definition Sprintf_064x (n : Z) : string :=
  if n <? 0 then
    let d := hex_digits 16 (- n) "" in
    "-" ++ zeros (63 - String.length d) ++ d
  else
    let d := hex_digits 16 n "" in
    zeros (64 - String.length d) ++ d.

(** [rpcSignAndSend]: the placeholder of the 2024 module; [time.Now().UnixNano()]
    is the clock. *)
Definition rpcSignAndSend (nk : NakamaModule) (ctx_user_id : option string)
    (req : outcome TransactionRequest) : Eff json :=
  match ctx_user_id with
  | None => fail (Errorf "user must be authenticated" None)
  | Some userID =>
      if String.eqb userID "" then fail (Errorf "user must be authenticated" None) else
      match req with
      | Err err => fail (Errorf "invalid request payload: %w" (Some err))
      | Ok req =>
          if String.eqb (To req) "" then fail (Errorf "'to' address is required" None) else
          match nk_AccountGetId nk userID with
          | Err err => fail (Errorf "failed to get account: %w" (Some err))
          | Ok customId =>
              if is_cognito_id customId then
                do now <- time_Now;
                ret (JObj [("txHash", JStr ("0x" ++ Sprintf_064x now))])
              else fail (Errorf "no Cognito account linked" None)
          end
      end
  end.

End WithLibraries.

End CognitoModule.

(** * Reading the results, and sample inputs *)

(** The audience the 2024 verifier compares with the configuration when the
    claim is an array: its first entry if that is a string, else the empty
    string. *)
Definition first_audience (l : list json) : string :=
  match l with
  | JStr s :: _ => s
  | _ => ""
  end.

Definition sample_claims (aud : json) (exp : Q) : gmap string json :=
  <["iss" := JStr "https://idp.example/pool1"]>
  (<["aud" := aud]>
  (<["token_use" := JStr "id"]>
  (<["sub" := JStr "user-42"]>
  (<["exp" := JNum exp]> ∅)))).

Definition sample_config : CognitoModule.CognitoConfig :=
  {| CognitoModule.Issuer := "https://idp.example/pool1";
     CognitoModule.Audience := "client-abc";
     CognitoModule.JWKSCacheTTL := 3600;
     CognitoModule.WalletChain := "evm";
     CognitoModule.WalletMasterKeyARN := "";
     CognitoModule.WalletDerivePath := "m/44'/60'/0'/0" |}.

Definition sample_runtime_config : Runtime.Config :=
  {| Runtime.CognitoIssuer := "https://idp.example/pool1";
     Runtime.CognitoAudience := "client-abc";
     Runtime.JWKSCacheTTL := 3600;
     Runtime.WalletEnabled := true;
     Runtime.WalletChain := "evm";
     Runtime.WalletMasterKeyARN := "arn:aws:kms:key/1";
     Runtime.WalletDerivationPath := "m/44'/60'/0'/0" |}.

Definition sample_runtime_claims (aud : list string) (exp : Z)
    : Runtime.CognitoTokenClaims :=
  {| Runtime.Issuer := "https://idp.example/pool1";
     Runtime.Subject := "user-42";
     Runtime.Audience := aud;
     Runtime.ExpiresAt := Some exp;
     Runtime.TokenUse := "id";
     Runtime.Email := ""; Runtime.EmailVerified := false;
     Runtime.Name := ""; Runtime.Picture := "";
     Runtime.CognitoGroups := [] |}.

(** The stable code of an error: the [Code] of an [AuthError], the text of
    a [fmt.Errorf]. *)
Definition error_code (e : error) : string :=
  match e with
  | AuthError code _ _ => code
  | Errorf msg _ => msg
  | _ => ""
  end.

Definition returned_error {A} (r : result A) : option error :=
  match r with
  | Returns (Err e) => Some e
  | _ => None
  end.

(** ** A small instance of the libraries

    Stand-ins for the third-party libraries, to run the handlers on concrete
    inputs: a digest is the bytes of the message, a key pair is its seed,
    a signature names its key, and a key-set document is the key id of its
    single RSA key. *)
Module Sample.

Definition bytes_of_string (s : string) : bytes :=
  map byte_of_ascii (list_ascii_of_string s).

Definition string_of_bytes (b : bytes) : string :=
  string_of_list_ascii (map ascii_of_byte b).

Definition sha : Sha256 := {| sha256_Sum256 := bytes_of_string |}.

Definition crypto : Crypto :=
  {| PrivateKey := bytes;
     PublicKey := bytes;
     common_Address := string;
     crypto_ToECDSA := fun b =>
       match b with
       | [] => Err (External "invalid length, need 256 bits")
       | _ => Ok b
       end;
     privateKey_Public := fun k => k;
     crypto_PubkeyToAddress := string_of_bytes;
     address_Hex := fun a => ("0x" ++ a)%string;
     crypto_Sign := fun _ k => Ok k;
     crypto_FromECDSAPub := fun p => p;
     crypto_SigToPub := fun _ s => Ok s;
     common_HexToAddress := fun s => s;
     common_FromHex := bytes_of_string |}.

Definition coretypes : @Runtime.CoreTypes crypto :=
  {| Runtime.SignedTx := bytes;
     Runtime.Signer_Hash := fun _ tx => bytes_of_string "digest";
     Runtime.tx_WithSignature := fun _ _ signature => Ok signature;
     Runtime.signedTx_Hash_Hex := fun _ => "0x00" |}.

(** A stored wallet is its address; every wallet read back is an EVM one
    created at the epoch. *)
Definition runtime_codec : Runtime.WalletCodec :=
  {| Runtime.json_Marshal := Runtime.Address;
     Runtime.json_Unmarshal := fun s =>
       Ok {| Runtime.Chain := "evm"; Runtime.Address := s; Runtime.CreatedAt := 0 |} |}.

Definition cognito_codec : CognitoModule.WalletCodec :=
  {| CognitoModule.json_Marshal := CognitoModule.Address;
     CognitoModule.json_Unmarshal := fun s =>
       Ok {| CognitoModule.Chain := "evm"; CognitoModule.Address := s;
             CognitoModule.CreatedAt := 0 |} |}.

Definition jwk_of (kid : string) : CognitoModule.JWK :=
  {| CognitoModule.Kid := kid; CognitoModule.Kty := "RSA";
     CognitoModule.Alg := "RS256"; CognitoModule.Use := "sig";
     CognitoModule.N := "n"; CognitoModule.E := "e" |}.

Definition enc : CognitoModule.Encoding :=
  {| CognitoModule.base64_RawURLEncoding_DecodeString := fun s => Ok (bytes_of_string s);
     CognitoModule.json_Unmarshal_JWKS := fun body =>
       if String.eqb body "" then Err (External "unexpected end of JSON input")
       else Ok [jwk_of body] |}.

(** Every non-empty token string decodes to an RS256 token with key id
    [k1], whose claims are the sample claims with an audience array and an
    expiry far ahead, and whose signature verifies. *)
Definition parser : CognitoModule.JwtParser :=
  {| CognitoModule.jwt_decode := fun s =>
       if String.eqb s "" then None
       else Some {| CognitoModule.Method_is_RSA := true;
                    CognitoModule.Header := {["kid" := JStr "k1"]};
                    CognitoModule.MapClaims :=
                      sample_claims (JArr [JStr "client-abc"]) (inject_Z 4000000000);
                    CognitoModule.signature_verifies := fun _ => true |};
     CognitoModule.jwt_validate := fun _ => None |}.

Definition nk : NakamaModule :=
  {| nk_AuthenticateCustom := fun _ _ _ => Ok ("session-1", "user-1", true);
     nk_LinkCustom := fun _ _ => None;
     nk_AccountUpdateId := fun _ => None;
     nk_AccountGetId := fun _ => Ok "cognito:user-42";
     nk_AuthenticateTokenGenerate := fun _ _ => Ok "token-1";
     nk_StorageRead_failure := None;
     nk_StorageWrite_failure := None |}.

Definition world : World := {| storage := ∅; clock := 0; trace := [] |}.

Definition key : CognitoModule.rsa_PublicKey :=
  {| CognitoModule.rsa_N := 110; CognitoModule.rsa_E := 101 |}.

End Sample.

(** ** Sample inputs and notions used in the statements *)

Definition stale_cache : CognitoModule.JWKSCache :=
  {| CognitoModule.issuer := "https://idp.example/pool1";
     CognitoModule.jwksURL := "https://idp.example/pool1/.well-known/jwks.json";
     CognitoModule.cache := {["old-kid" := Sample.key]};
     CognitoModule.ttl := 3600 * 1000000000;
     CognitoModule.lastFetch := 0 |}.

Definition rotated_key_set (url : string) : outcome CognitoModule.http_Response :=
  Ok {| CognitoModule.StatusCode := 200; CognitoModule.Body := Ok "new-kid" |}.

(** The world after one storage read of the wallet of [externalID]. *)
Definition after_read (collection externalID : string) (w : World) : World :=
  {| storage := storage w; clock := clock w;
     trace := trace w ++ [EvStorageRead collection externalID] |}.

(** A numeric field the builder rejects: not empty and not an integer
    literal of [SetString] with base 0. *)
Definition malformed (field : string) : Prop :=
  field <> "" /\ big.SetString field = None.

Definition stored_object : StorageObject :=
  {| Value := "0x52908400098527886E0F7030069857D2E4169EE7";
     PermissionRead := 1; PermissionWrite := 0 |}.

Definition world_with_wallet : World :=
  {| storage := {[("wallet", "cognito:user-42") := stored_object]};
     clock := 0; trace := [] |}.

Definition stored_wallet : Runtime.Wallet :=
  {| Runtime.Chain := "evm";
     Runtime.Address := "0x52908400098527886E0F7030069857D2E4169EE7";
     Runtime.CreatedAt := 0 |}.

Definition stored_record : CognitoModule.WalletRecord :=
  {| CognitoModule.Chain := "evm";
     CognitoModule.Address := "0x52908400098527886E0F7030069857D2E4169EE7";
     CognitoModule.CreatedAt := 0 |}.

Definition solana_config : Runtime.Config :=
  {| Runtime.CognitoIssuer := "https://idp.example/pool1";
     Runtime.CognitoAudience := "client-abc";
     Runtime.JWKSCacheTTL := 3600;
     Runtime.WalletEnabled := true;
     Runtime.WalletChain := "solana";
     Runtime.WalletMasterKeyARN := "arn:aws:kms:key/1";
     Runtime.WalletDerivationPath := "m/44'/60'/0'/0" |}.

Definition warm_cache : CognitoModule.JWKSCache :=
  {| CognitoModule.issuer := "https://idp.example/pool1";
     CognitoModule.jwksURL := "https://idp.example/pool1/.well-known/jwks.json";
     CognitoModule.cache := {["k1" := Sample.key]};
     CognitoModule.ttl := 3600 * 1000000000;
     CognitoModule.lastFetch := 0 |}.

Definition sample_module : CognitoModule.CognitoModule :=
  {| CognitoModule.config := sample_config; CognitoModule.jwksCache := warm_cache |}.

Definition cold_module : CognitoModule.CognitoModule :=
  {| CognitoModule.config := sample_config;
     CognitoModule.jwksCache :=
       CognitoModule.NewJWKSCache "https://idp.example/pool1" (3600 * 1000000000) |}.

Definition offline (url : string) : outcome CognitoModule.http_Response :=
  Err (External "dial tcp: connection refused").

Definition storage_down : NakamaModule :=
  {| nk_AuthenticateCustom := nk_AuthenticateCustom Sample.nk;
     nk_LinkCustom := nk_LinkCustom Sample.nk;
     nk_AccountUpdateId := nk_AccountUpdateId Sample.nk;
     nk_AccountGetId := nk_AccountGetId Sample.nk;
     nk_AuthenticateTokenGenerate := nk_AuthenticateTokenGenerate Sample.nk;
     nk_StorageRead_failure := None;
     nk_StorageWrite_failure := Some (External "storage unavailable") |}.

Definition login_request : CognitoModule.LoginRequest :=
  {| CognitoModule.IDToken := "header.payload.signature";
     CognitoModule.Create := None;
     CognitoModule.Username := "" |}.

Definition link_request : CognitoModule.LinkRequest :=
  {| CognitoModule.link_IDToken := "header.payload.signature" |}.

Definition runtime_login_request : Runtime.LoginRequest :=
  {| Runtime.IDToken := "header.payload.signature";
     Runtime.Create := true;
     Runtime.Username := "" |}.

Definition runtime_link_request : Runtime.LinkRequest :=
  {| Runtime.link_IDToken := "header.payload.signature" |}.

Definition sample_manager : Runtime.JWKSManager :=
  {| Runtime.jwks := fun _ =>
       Ok {| Runtime.Valid := true;
             Runtime.Claims :=
               Runtime.ClaimsPtr
                 (sample_runtime_claims ["client-abc"] (3600 * 1000000000)) |};
     Runtime.mgr_config := sample_runtime_config |}.

Definition write_failed : error :=
  Errorf "failed to write wallet: %w"
    (Some (Errorf "storage write failed: %w" (Some (External "storage unavailable")))).

Definition negative_value_request : Runtime.EVMTransactionRequest :=
  {| Runtime.To := "0x52908400098527886E0F7030069857D2E4169EE7";
     Runtime.ValueWei := "-1";
     Runtime.Data := "";
     Runtime.GasLimit := "21000";
     Runtime.MaxFeePerGasWei := "0x3b9aca00";
     Runtime.MaxPriorityFeePerGasWei := "";
     Runtime.Nonce := 12 |}.

Definition not_a_number_request : Runtime.EVMTransactionRequest :=
  {| Runtime.To := "0x52908400098527886E0F7030069857D2E4169EE7";
     Runtime.ValueWei := "not-a-number";
     Runtime.Data := "";
     Runtime.GasLimit := "21000";
     Runtime.MaxFeePerGasWei := "";
     Runtime.MaxPriorityFeePerGasWei := "";
     Runtime.Nonce := 12 |}.

Definition sample_signer : Runtime.KMSSigner :=
  Runtime.GetKMSSigner (sha := Sample.sha) (crypto := Sample.crypto)
    sample_runtime_config.

Definition reads_fail : NakamaModule :=
  {| nk_AuthenticateCustom := nk_AuthenticateCustom Sample.nk;
     nk_LinkCustom := nk_LinkCustom Sample.nk;
     nk_AccountUpdateId := nk_AccountUpdateId Sample.nk;
     nk_AccountGetId := nk_AccountGetId Sample.nk;
     nk_AuthenticateTokenGenerate := nk_AuthenticateTokenGenerate Sample.nk;
     nk_StorageRead_failure := Some (External "context deadline exceeded");
     nk_StorageWrite_failure := None |}.

Definition sample_token : CognitoModule.UnverifiedToken :=
  {| CognitoModule.Method_is_RSA := true;
     CognitoModule.Header := {["kid" := JStr "k1"]};
     CognitoModule.MapClaims :=
       sample_claims (JArr [JStr "client-abc"]) (inject_Z 4000000000);
     CognitoModule.signature_verifies := fun _ => true |}.

Definition no_audience_config : CognitoModule.CognitoConfig :=
  {| CognitoModule.Issuer := "https://idp.example/pool1";
     CognitoModule.Audience := "";
     CognitoModule.JWKSCacheTTL := 3600;
     CognitoModule.WalletChain := "evm";
     CognitoModule.WalletMasterKeyARN := "";
     CognitoModule.WalletDerivePath := "m/44'/60'/0'/0" |}.

Definition claims_without_audience : gmap string json :=
  <["iss" := JStr "https://idp.example/pool1"]>
  (<["token_use" := JStr "id"]>
  (<["sub" := JStr "user-42"]>
  (<["exp" := JNum (inject_Z 4000000000)]> ∅))).

Definition wallet_off_config : Runtime.Config :=
  {| Runtime.CognitoIssuer := "https://idp.example/pool1";
     Runtime.CognitoAudience := "client-abc";
     Runtime.JWKSCacheTTL := 3600;
     Runtime.WalletEnabled := false;
     Runtime.WalletChain := "evm";
     Runtime.WalletMasterKeyARN := "";
     Runtime.WalletDerivationPath := "m/44'/60'/0'/0" |}.

Definition sample_env : gmap string string :=
  <["NAKAMA_COGNITO_ISS" := "https://idp.example/pool1"]>
  (<["NAKAMA_COGNITO_AUDIENCE" := "client-abc"]>
  (<["NAKAMA_WALLET_ENABLED" := "true"]>
  (<["NAKAMA_WALLET_MASTER_KEY_ARN" := "arn:aws:kms:key/1"]> ∅))).

(** An identity whose sample digest has the 32 bytes of a SHA-256 sum. *)
Definition long_identity : string := "cognito:0123456789abcdef01234567".

(** * Properties *)

(** ** Token verification: audience *)

Lemma validAudience_spec (audience : list string) (expected : string) :
  Runtime.validAudience audience expected = true <-> In expected audience.
Proof.
  induction audience as [|aud rest IH]; simpl.
  - split; [discriminate | tauto].
  - destruct (String.eqb_spec aud expected) as [-> | Hne].
    + split; auto.
    + rewrite IH. split; [auto | intros [H | H]; [contradiction | exact H]].
Qed.

(** The runtime verifier lets a validly parsed token pass the audience check
    exactly when the configured audience occurs in the list. *)
Lemma runtime_audience_check (config : Runtime.Config) (now : Z)
    (claims : Runtime.CognitoTokenClaims) :
  Runtime.Issuer claims = Runtime.CognitoIssuer config ->
  (Runtime.VerifyCognitoIDToken config now
     (Ok {| Runtime.Valid := true; Runtime.Claims := Runtime.ClaimsPtr claims |})
   = Returns (Err (AuthError "INVALID_AUDIENCE"
                     ("Expected audience " ++ Runtime.CognitoAudience config)
                     (Some (Sentinel ErrInvalidAudience)))))
  <-> ~ In (Runtime.CognitoAudience config) (Runtime.Audience claims).
Proof.
  intros Hiss. unfold Runtime.VerifyCognitoIDToken. simpl.
  rewrite Hiss, String.eqb_refl. simpl.
  rewrite <- validAudience_spec.
  destruct (Runtime.validAudience _ _); simpl.
  - split; [| intros H; exfalso; apply H; reflexivity].
    destruct (String.eqb (Runtime.TokenUse claims) "id"); simpl; [| discriminate].
    destruct (Runtime.ExpiresAt claims) as [exp|]; [| discriminate].
    destruct (exp <? now); [discriminate |].
    destruct (String.eqb (Runtime.Subject claims) ""); discriminate.
  - split; [intros _; discriminate | reflexivity].
Qed.

(** C1. A token whose audience array holds the configured audience in second
    position: the runtime verifier accepts it, the 2024 verifier, which
    looks at the first entry only, rejects it with "invalid audience". *)
Theorem C1_audience_second_position :
  let aud := ["other-client"; "client-abc"] in
  let now := 1700000000 * 1000000000 in
  In "client-abc" aud
  /\ Runtime.VerifyCognitoIDToken sample_runtime_config now
       (Ok {| Runtime.Valid := true;
              Runtime.Claims :=
                Runtime.ClaimsPtr (sample_runtime_claims aud (now + 3600 * 1000000000)) |})
     = Returns (Ok (sample_runtime_claims aud (now + 3600 * 1000000000)))
  /\ CognitoModule.check_claims sample_config now
       (Ok {| CognitoModule.Valid := true;
              CognitoModule.Claims :=
                CognitoModule.ClaimsMap
                  (sample_claims (JArr (map JStr aud)) (inject_Z (1700000000 + 3600))) |})
     = Err (Errorf "invalid audience: expected client-abc, got other-client" None).
Proof.
  cbv zeta. split; [simpl; auto |]. split; vm_compute; reflexivity.
Qed.

(** For a validly parsed token with the right issuer and an array for
    audience, the 2024 verifier reports "invalid audience" exactly when the
    first entry is not the configured audience. *)
Lemma cognito_audience_check (config : CognitoModule.CognitoConfig) (now : Z)
    (claims : gmap string json) (l : list json) :
  claims !! "iss" = Some (JStr (CognitoModule.Issuer config)) ->
  claims !! "aud" = Some (JArr l) ->
  (CognitoModule.check_claims config now
     (Ok {| CognitoModule.Valid := true;
            CognitoModule.Claims := CognitoModule.ClaimsMap claims |})
   = Err (Errorf ("invalid audience: expected " ++ CognitoModule.Audience config
                    ++ ", got " ++ first_audience l) None))
  <-> first_audience l <> CognitoModule.Audience config.
Proof.
  intros Hiss Haud. unfold CognitoModule.check_claims. simpl.
  rewrite Hiss, Haud, String.eqb_refl. simpl.
  assert (Hfa : match l with JStr audStr :: _ => audStr | _ => "" end = first_audience l)
    by reflexivity.
  rewrite Hfa.
  destruct (String.eqb_spec (first_audience l) (CognitoModule.Audience config)) as [He | Hne];
    simpl.
  - split; [| intros H; contradiction].
    destruct (claims !! "token_use") as [[| | |u| |]|]; simpl; try discriminate.
    destruct (String.eqb u "id"); simpl; [| discriminate].
    destruct (claims !! "exp") as [[| |q| | |]|]; try discriminate.
    destruct (Z.geb _ _); discriminate.
  - split; [intros _; exact Hne | reflexivity].
Qed.

(** ** Token verification: expiry *)

(** With every other check passing, the runtime verifier reports
    TOKEN_EXPIRED exactly when [exp] lies strictly before [now]. *)
Lemma runtime_expiry_check (config : Runtime.Config) (now exp : Z)
    (claims : Runtime.CognitoTokenClaims) :
  Runtime.Issuer claims = Runtime.CognitoIssuer config ->
  In (Runtime.CognitoAudience config) (Runtime.Audience claims) ->
  Runtime.TokenUse claims = "id" ->
  Runtime.ExpiresAt claims = Some exp ->
  Runtime.Subject claims <> "" ->
  Runtime.VerifyCognitoIDToken config now
    (Ok {| Runtime.Valid := true; Runtime.Claims := Runtime.ClaimsPtr claims |})
  = if exp <? now
    then Returns (Err (AuthError "TOKEN_EXPIRED" "Token has expired"
                         (Some (Sentinel ErrTokenExpired))))
    else Returns (Ok claims).
Proof.
  intros Hiss Haud Huse Hexp Hsub. unfold Runtime.VerifyCognitoIDToken. simpl.
  apply validAudience_spec in Haud.
  rewrite Hiss, String.eqb_refl, Haud, Huse, Hexp. simpl.
  destruct (exp <? now); [reflexivity |].
  destruct (String.eqb_spec (Runtime.Subject claims) ""); [contradiction | reflexivity].
Qed.

Lemma int64_of_float_le (q : Q) (n : Z) :
  Qle q (inject_Z n) -> CognitoModule.int64_of_float q <= n.
Proof.
  unfold Qle, CognitoModule.int64_of_float. destruct q as [a d]. simpl.
  rewrite Z.mul_1_r. intros H.
  destruct (Z.le_gt_cases 0 a) as [Ha | Ha].
  - rewrite Z.quot_div_nonneg by lia.
    apply Z.div_le_upper_bound; lia.
  - assert (Hq : Z.quot a (Z.pos d) <= 0).
    { replace a with (- (- a)) by lia. rewrite Z.quot_opp_l by lia.
      assert (0 <= Z.quot (- a) (Z.pos d)) by (apply Z.quot_pos; lia). lia. }
    destruct (Z.le_gt_cases 0 n) as [Hn | Hn]; [lia |].
    replace a with (- (- a)) by lia. rewrite Z.quot_opp_l by lia.
    assert (- n <= Z.quot (- a) (Z.pos d)); [| lia].
    rewrite Z.quot_div_nonneg by lia.
    apply Z.div_le_lower_bound; lia.
Qed.

(** With every other check passing, the 2024 verifier rejects every token
    whose [exp] is not after the current second. *)
Lemma cognito_expiry_check (config : CognitoModule.CognitoConfig) (now : Z)
    (claims : gmap string json) (exp : Q) :
  claims !! "iss" = Some (JStr (CognitoModule.Issuer config)) ->
  claims !! "aud" = Some (JStr (CognitoModule.Audience config)) ->
  claims !! "token_use" = Some (JStr "id") ->
  claims !! "exp" = Some (JNum exp) ->
  Qle exp (inject_Z (CognitoModule.Unix now)) ->
  CognitoModule.check_claims config now
    (Ok {| CognitoModule.Valid := true;
           CognitoModule.Claims := CognitoModule.ClaimsMap claims |})
  = Err (Errorf "token has expired" None).
Proof.
  intros Hiss Haud Huse Hexp Hle. unfold CognitoModule.check_claims. simpl.
  rewrite Hiss, Haud, Huse, Hexp, !String.eqb_refl. simpl.
  apply int64_of_float_le in Hle.
  rewrite Z.geb_leb. destruct (Z.leb_spec (CognitoModule.int64_of_float exp)
                                 (CognitoModule.Unix now)); [reflexivity | lia].
Qed.

(** C2. The runtime verifier accepts a token whose [exp] equals the instant
    of the check: its test is [time.Now().After(exp)], which is false for
    equal instants. *)
Theorem C2_expiry_equal_to_now_accepted :
  forall now : Z,
    Runtime.VerifyCognitoIDToken sample_runtime_config now
      (Ok {| Runtime.Valid := true;
             Runtime.Claims :=
               Runtime.ClaimsPtr (sample_runtime_claims ["client-abc"] now) |})
    = Returns (Ok (sample_runtime_claims ["client-abc"] now)).
Proof.
  intros now. rewrite (runtime_expiry_check _ now now); try reflexivity.
  - rewrite Z.ltb_irrefl. reflexivity.
  - simpl; auto.
  - discriminate.
Qed.

(** ** Token verification: key fetch failures *)

(** C5. Whatever error the parser hands back, a failure of the key function
    to fetch the key set as much as a malformed token or a bad signature,
    the runtime verifier returns the one code TOKEN_PARSE_FAILED with the
    same message; and none of its other errors carries [ErrJWKSFetch]. *)
Theorem C5_key_fetch_failure_has_no_code_of_its_own :
  forall (config : Runtime.Config) (now : Z),
    (forall cause : error,
        Runtime.VerifyCognitoIDToken config now (Err cause)
        = Returns (Err (AuthError "TOKEN_PARSE_FAILED" "Failed to parse token" (Some cause))))
    /\ (forall fetch_err : error,
          error_code <$> returned_error
            (Runtime.VerifyCognitoIDToken config now (Err (JwtUnverifiable fetch_err)))
          = error_code <$> returned_error
              (Runtime.VerifyCognitoIDToken config now (Err JwtMalformed)))
    /\ (forall token code message,
          Runtime.VerifyCognitoIDToken config now (Ok token)
          <> Returns (Err (AuthError code message (Some (Sentinel ErrJWKSFetch))))).
Proof.
  intros config now. split; [reflexivity |]. split; [reflexivity |].
  intros token code message. unfold Runtime.VerifyCognitoIDToken.
  destruct (Runtime.Valid token); simpl; [| discriminate].
  destruct (Runtime.Claims token) as [claims|]; [| discriminate].
  destruct (String.eqb _ _); simpl; [| discriminate].
  destruct (Runtime.validAudience _ _); simpl; [| discriminate].
  destruct (String.eqb _ _); simpl; [| discriminate].
  destruct (Runtime.ExpiresAt claims) as [exp|]; [| discriminate].
  destruct (exp <? now); [discriminate |].
  destruct (String.eqb _ _); discriminate.
Qed.

(** ** User attributes *)

Lemma string_app_cons (a : ascii) (s t : string) :
  (String a s ++ t)%string = String a (s ++ t).
Proof. reflexivity. Qed.

Lemma string_app_nil_r (s : string) : (s ++ "")%string = s.
Proof.
  induction s as [|a s IH]; [reflexivity |].
  now rewrite string_app_cons, IH.
Qed.

Lemma string_app_assoc (s t u : string) :
  ((s ++ t) ++ u)%string = (s ++ t ++ u)%string.
Proof.
  induction s as [|a s IH]; [reflexivity |].
  now rewrite !string_app_cons, IH.
Qed.

Lemma join_groups_later (l : list string) (i : nat) (groups : string) :
  (0 < i)%nat ->
  Runtime.join_groups i groups l
  = (groups ++ fold_right (fun g r => "," ++ g ++ r) "" l)%string.
Proof.
  revert i groups. induction l as [|g l IH]; intros i groups Hi; simpl.
  - now rewrite string_app_nil_r.
  - destruct (Nat.ltb_spec 0 i) as [_ | Hle]; [| lia].
    rewrite IH by lia. now rewrite !string_app_assoc.
Qed.

(** The groups entry is the comma-separated list of the groups. *)
Lemma join_groups_concat (l : list string) :
  Runtime.join_groups 0 "" l = String.concat "," l.
Proof.
  destruct l as [|g l]; [reflexivity |]. simpl.
  rewrite join_groups_later by lia.
  revert g. induction l as [|h l IH]; intros g; simpl.
  - apply string_app_nil_r.
  - f_equal. f_equal. apply IH.
Qed.

(** C9, as amended. [ExtractUserVars] has an entry for email, name and
    picture exactly when the claim is a non-empty string, and for the groups
    exactly when there is one at least; the verified flag and the provider
    always have an entry, the flag printed from the boolean (false for a
    token without the claim); there is no other entry. *)
Theorem C9_user_vars_entries :
  forall claims : Runtime.CognitoTokenClaims,
    let vars := Runtime.ExtractUserVars claims in
    vars !! "email"
      = (if String.eqb (Runtime.Email claims) "" then None
         else Some (Runtime.Email claims))
    /\ vars !! "name"
       = (if String.eqb (Runtime.Name claims) "" then None
          else Some (Runtime.Name claims))
    /\ vars !! "picture"
       = (if String.eqb (Runtime.Picture claims) "" then None
          else Some (Runtime.Picture claims))
    /\ vars !! "cognito_groups"
       = match Runtime.CognitoGroups claims with
         | [] => None
         | groups => Some (String.concat "," groups)
         end
    /\ vars !! "email_verified"
       = Some (if Runtime.EmailVerified claims then "true" else "false")
    /\ vars !! "provider" = Some "cognito"
    /\ (forall key : string,
          is_Some (vars !! key) ->
          In key ["email"; "email_verified"; "name"; "picture"; "provider";
                  "cognito_groups"]).
Proof.
  intros claims vars. subst vars. unfold Runtime.ExtractUserVars.
  rewrite join_groups_concat.
  destruct (String.eqb (Runtime.Email claims) "");
    destruct (String.eqb (Runtime.Name claims) "");
    destruct (String.eqb (Runtime.Picture claims) "");
    destruct (Runtime.CognitoGroups claims) as [|g gs]; cbn [negb length Nat.ltb Nat.leb];
    (repeat split; [simplify_map_eq; reflexivity .. |]);
    intros key [v Hv]; simpl;
    repeat match type of Hv with
           | <[?k := _]> _ !! key = Some _ =>
               destruct (decide (k = key)) as [<- | ?];
               [tauto | rewrite lookup_insert_ne in Hv by assumption]
           end;
    rewrite lookup_empty in Hv; discriminate.
Qed.

(** C9, counterexample. A token without any optional claim still gets a
    verified-flag entry, with the value false. *)
Lemma C9_counterexample :
  Runtime.ExtractUserVars (sample_runtime_claims ["client-abc"] 0) !! "email_verified"
  = Some "false".
Proof. vm_compute. reflexivity. Qed.

(** ** The key cache *)

Section KeyCache.
Context {sha : Sha256} {enc : CognitoModule.Encoding} {parser : CognitoModule.JwtParser}.

(** The refresh loop overlays the keys of the document on the table it
    starts from. *)
Lemma update_cache_union (keys : list CognitoModule.JWK)
    (old : gmap string CognitoModule.rsa_PublicKey) :
  CognitoModule.update_cache keys old = CognitoModule.update_cache keys ∅ ∪ old.
Proof.
  revert old. induction keys as [|jwk rest IH]; intros old; simpl.
  - now rewrite (left_id_L ∅ (∪)).
  - destruct (negb (String.eqb (CognitoModule.Kty jwk) "RSA")); [apply IH |].
    destruct (CognitoModule.jwkToRSAPublicKey jwk) as [key | err]; [| apply IH].
    rewrite (IH (<[_ := key]> old)), (IH (<[_ := key]> ∅)).
    rewrite <- (assoc_L (∪)). f_equal.
    now rewrite <- insert_union_l, (left_id_L ∅ (∪)).
Qed.

(** Keys of the table a refresh starts from stay in it. *)
Lemma update_cache_keeps (keys : list CognitoModule.JWK)
    (old : gmap string CognitoModule.rsa_PublicKey) (kid : string) :
  is_Some (old !! kid) -> is_Some (CognitoModule.update_cache keys old !! kid).
Proof.
  revert old. induction keys as [|jwk rest IH]; intros old Hold; simpl; [exact Hold |].
  destruct (negb (String.eqb (CognitoModule.Kty jwk) "RSA")); [now apply IH |].
  destruct (CognitoModule.jwkToRSAPublicKey jwk) as [key | err]; [| now apply IH].
  apply IH. destruct (decide (CognitoModule.Kid jwk = kid)) as [-> | Hne].
  - rewrite lookup_insert_eq. eauto.
  - now rewrite lookup_insert_ne.
Qed.

(** C4, as amended. A successful refresh read a key-set document with
    status 200 and leaves the table that results from storing the RSA keys
    of the document into the previous table: every key id of the previous
    table is still present, with its old key unless the document has a key
    for the same id. *)
Theorem C4_refresh_merges_into_cache :
  forall (c c' : CognitoModule.JWKSCache) (now : Z)
         (net : string -> outcome CognitoModule.http_Response),
    CognitoModule.fetchJWKS c now net = (c', None) ->
    exists resp body keys,
      net (CognitoModule.jwksURL c) = Ok resp
      /\ CognitoModule.StatusCode resp = 200
      /\ CognitoModule.Body resp = Ok body
      /\ CognitoModule.json_Unmarshal_JWKS body = Ok keys
      /\ CognitoModule.cache c'
         = CognitoModule.update_cache keys ∅ ∪ CognitoModule.cache c
      /\ CognitoModule.lastFetch c' = now
      /\ (forall kid, is_Some (CognitoModule.cache c !! kid) ->
                      is_Some (CognitoModule.cache c' !! kid)).
Proof.
  intros c c' now net H. unfold CognitoModule.fetchJWKS in H.
  destruct (net (CognitoModule.jwksURL c)) as [resp | err]; [| discriminate].
  destruct (Z.eqb_spec (CognitoModule.StatusCode resp) 200) as [Hst | Hst];
    simpl in H; [| discriminate].
  destruct (CognitoModule.Body resp) as [body | err] eqn:Hbody; [| discriminate].
  destruct (CognitoModule.json_Unmarshal_JWKS body) as [keys | err] eqn:Hkeys;
    [| discriminate].
  injection H as <-. exists resp, body, keys. simpl.
  repeat split; try assumption.
  - apply update_cache_union.
  - intros kid. apply update_cache_keeps.
Qed.

End KeyCache.

(** C4 at a sample refresh: the new key is stored, the time recorded. *)
Lemma C4_witness :
  exists c',
    CognitoModule.fetchJWKS (enc := Sample.enc) stale_cache 7 rotated_key_set = (c', None)
    /\ CognitoModule.cache c' !! "new-kid" = Some Sample.key
    /\ CognitoModule.lastFetch c' = 7.
Proof.
  eexists. split; [reflexivity |].
  destruct (C4_refresh_merges_into_cache (enc := Sample.enc)
              stale_cache _ 7 rotated_key_set eq_refl)
    as (resp & body & keys & Hnet & _ & Hbody & Hkeys & Hcache & Hlast & _).
  split; [| exact Hlast].
  injection Hnet as <-. injection Hbody as <-. injection Hkeys as <-.
  rewrite Hcache. vm_compute. reflexivity.
Defined.

(** C4, counterexample. The table holds a key under [old-kid]; the key set
    is rotated and the document now lists [new-kid] only; after the
    successful refresh [old-kid] is still served from the table. *)
Lemma C4_counterexample :
  exists c',
    CognitoModule.fetchJWKS (enc := Sample.enc) stale_cache 7 rotated_key_set = (c', None)
    /\ CognitoModule.json_Unmarshal_JWKS (Encoding := Sample.enc) "new-kid"
       = Ok [Sample.jwk_of "new-kid"]
    /\ ~ In "old-kid" (map CognitoModule.Kid [Sample.jwk_of "new-kid"])
    /\ CognitoModule.cache c' !! "old-kid" = Some Sample.key.
Proof.
  eexists. split; [reflexivity |]. split; [reflexivity |]. split.
  - simpl. intros [H | []]. discriminate.
  - vm_compute. reflexivity.
Qed.

(** ** The wallet provisioner *)

Lemma new_events_after_read (collection externalID : string) (w : World) :
  new_events w (after_read collection externalID w)
  = [EvStorageRead collection externalID].
Proof. unfold new_events, after_read. simpl. apply drop_app_length. Qed.

Section RuntimeWallet.
Context {sha : Sha256} {crypto : Crypto} {codec : Runtime.WalletCodec}
        {coretypes : Runtime.CoreTypes}.

Lemma runtime_ensureWallet_found (nk : NakamaModule) (externalID : string)
    (config : Runtime.Config) (w : World) (obj : StorageObject)
    (wallet : Runtime.Wallet) :
  Runtime.WalletEnabled config = true ->
  nk_StorageRead_failure nk = None ->
  storage w !! (Runtime.WalletCollection, externalID) = Some obj ->
  Runtime.json_Unmarshal (Value obj) = Ok wallet ->
  Runtime.ensureWallet nk externalID config w
  = (Ok wallet, after_read Runtime.WalletCollection externalID w).
Proof.
  intros Hen Hread Hobj Hdec.
  unfold Runtime.ensureWallet, StorageRead, bind, emit. rewrite Hen, Hread. simpl.
  rewrite Hobj, Hdec. reflexivity.
Qed.

Lemma runtime_ensureWallet_again (nk : NakamaModule) (externalID : string)
    (config : Runtime.Config) (w w1 : World) (wallet : Runtime.Wallet) :
  Runtime.ensureWallet nk externalID config w = (Ok wallet, w1) ->
  Runtime.json_Unmarshal (Runtime.json_Marshal wallet) = Ok wallet ->
  Runtime.ensureWallet nk externalID config w1
  = (Ok wallet, after_read Runtime.WalletCollection externalID w1).
Proof.
  intros Hfirst Hround.
  unfold Runtime.ensureWallet, StorageRead, StorageWrite, bind, emit, fail, ret,
    lift, time_Now, Runtime.deriveWalletAddress in Hfirst.
  destruct (Runtime.WalletEnabled config) eqn:Hen; [| discriminate].
  simpl in Hfirst.
  destruct (nk_StorageRead_failure nk) eqn:Hread; [discriminate |].
  simpl in Hfirst.
  destruct (storage w !! (Runtime.WalletCollection, externalID)) as [obj|] eqn:Hobj.
  - destruct (Runtime.json_Unmarshal (Value obj)) as [wl | err] eqn:Hdec;
      [| discriminate].
    injection Hfirst as <- <-.
    eapply runtime_ensureWallet_found; eauto.
  - assert (Hevm : exists address,
               Runtime.deriveEVMAddress externalID config = Ok address
               /\ String.eqb (Runtime.WalletChain config) "evm" = true).
    { destruct (String.eqb (Runtime.WalletChain config) "evm");
        [| destruct (String.eqb (Runtime.WalletChain config) "solana"); discriminate].
      destruct (Runtime.deriveEVMAddress externalID config); [eauto | discriminate]. }
    destruct Hevm as (address & Haddr & Hchain). rewrite Hchain, Haddr in Hfirst.
    simpl in Hfirst.
    destruct (nk_StorageWrite_failure nk); [discriminate |].
    injection Hfirst as <- <-.
    eapply runtime_ensureWallet_found; eauto.
    simpl. apply lookup_insert_eq.
    exact Hround.
Qed.

(** With a chain other than [evm], and no wallet stored for the identity,
    provisioning fails with [ErrInvalidChain] after one read and without any
    write. *)
Lemma runtime_ensureWallet_unsupported (nk : NakamaModule) (externalID : string)
    (config : Runtime.Config) (w : World) :
  Runtime.WalletEnabled config = true ->
  Runtime.WalletChain config <> "evm" ->
  nk_StorageRead_failure nk = None ->
  storage w !! (Runtime.WalletCollection, externalID) = None ->
  Runtime.ensureWallet nk externalID config w
  = (Err (Sentinel ErrInvalidChain),
     {| storage := storage w; clock := clock w;
        trace := trace w ++ [EvStorageRead Runtime.WalletCollection externalID;
                             EvDerive externalID] |}).
Proof.
  intros Hen Hchain Hread Hobj.
  unfold Runtime.ensureWallet, Runtime.deriveWalletAddress, StorageRead, bind,
    emit, fail.
  rewrite Hen, Hread. simpl. rewrite Hobj. simpl.
  destruct (String.eqb_spec (Runtime.WalletChain config) "evm"); [contradiction |].
  rewrite <- app_assoc. simpl.
  destruct (String.eqb (Runtime.WalletChain config) "solana"); reflexivity.
Qed.

Lemma runtime_getWallet_absent (nk : NakamaModule) (externalID : string) (w : World) :
  nk_StorageRead_failure nk = None ->
  storage w !! (Runtime.WalletCollection, externalID) = None ->
  Runtime.getWallet nk externalID w
  = (Err (Sentinel ErrWalletNotFound),
     after_read Runtime.WalletCollection externalID w).
Proof.
  intros Hread Hobj. unfold Runtime.getWallet, StorageRead, bind, emit, fail.
  rewrite Hread. simpl. rewrite Hobj. reflexivity.
Qed.

(** With a chain other than [evm], no call of [ensureWallet] writes,
    whatever the storage holds or answers. *)
Lemma runtime_ensureWallet_unsupported_frame (nk : NakamaModule)
    (externalID : string) (config : Runtime.Config) (w : World) :
  Runtime.WalletChain config <> "evm" ->
  storage (snd (Runtime.ensureWallet nk externalID config w)) = storage w
  /\ existsb is_write
       (new_events w (snd (Runtime.ensureWallet nk externalID config w))) = false.
Proof.
  intros Hchain.
  unfold Runtime.ensureWallet, Runtime.deriveWalletAddress, StorageRead, bind,
    emit, fail, ret, new_events.
  destruct (Runtime.WalletEnabled config); simpl.
  2: { now rewrite drop_all. }
  destruct (nk_StorageRead_failure nk); simpl.
  { now rewrite drop_app_length. }
  destruct (storage w !! (Runtime.WalletCollection, externalID)) as [obj|]; simpl.
  { destruct (Runtime.json_Unmarshal (Value obj)); simpl;
      now rewrite drop_app_length. }
  destruct (String.eqb_spec (Runtime.WalletChain config) "evm"); [contradiction |].
  destruct (String.eqb (Runtime.WalletChain config) "solana"); simpl;
    now rewrite <- app_assoc, drop_app_length.
Qed.


End RuntimeWallet.

Section CognitoWallet.
Context {sha : Sha256} {codec : CognitoModule.WalletCodec}.

Lemma cognito_ensureWallet_found (nk : NakamaModule) (externalID chain : string)
    (w : World) (obj : StorageObject) (wallet : CognitoModule.WalletRecord) :
  nk_StorageRead_failure nk = None ->
  storage w !! (CognitoModule.walletCollection, externalID) = Some obj ->
  CognitoModule.json_Unmarshal (Value obj) = Ok wallet ->
  CognitoModule.ensureWallet nk externalID chain w
  = (Ok wallet, after_read CognitoModule.walletCollection externalID w).
Proof.
  intros Hread Hobj Hdec.
  unfold CognitoModule.ensureWallet, CognitoModule.readWallet, StorageRead, bind, emit.
  rewrite Hread. simpl. rewrite Hobj, Hdec. reflexivity.
Qed.

Lemma cognito_ensureWallet_again (nk : NakamaModule) (externalID chain : string)
    (w w1 : World) (wallet : CognitoModule.WalletRecord) :
  nk_StorageRead_failure nk = None ->
  CognitoModule.ensureWallet nk externalID chain w = (Ok wallet, w1) ->
  CognitoModule.json_Unmarshal (CognitoModule.json_Marshal wallet) = Ok wallet ->
  CognitoModule.ensureWallet nk externalID chain w1
  = (Ok wallet, after_read CognitoModule.walletCollection externalID w1).
Proof.
  intros Hread Hfirst Hround.
  unfold CognitoModule.ensureWallet in Hfirst.
  destruct (CognitoModule.readWallet nk externalID w) as [[wl | err] w'] eqn:Hrw.
  - injection Hfirst as <- <-.
    unfold CognitoModule.readWallet, StorageRead, bind, emit in Hrw.
    rewrite Hread in Hrw. simpl in Hrw.
    destruct (storage w !! (CognitoModule.walletCollection, externalID))
      as [obj|] eqn:Hobj; [| discriminate].
    destruct (CognitoModule.json_Unmarshal (Value obj)) as [wl' | err] eqn:Hdec;
      [| discriminate].
    injection Hrw as <- <-.
    eapply cognito_ensureWallet_found; eauto.
  - unfold CognitoModule.writeWallet, StorageWrite, bind, emit, fail, time_Now in Hfirst.
    simpl in Hfirst.
    destruct (CognitoModule.deriveAddress externalID chain) as [address | err'];
      [| discriminate].
    simpl in Hfirst.
    destruct (nk_StorageWrite_failure nk); [discriminate |].
    injection Hfirst as <- <-.
    eapply cognito_ensureWallet_found; eauto.
    + simpl. apply lookup_insert_eq.
    + exact Hround.
Qed.

End CognitoWallet.

Section EnsureWallet.
Context {sha : Sha256} {crypto : Crypto} {rcodec : Runtime.WalletCodec}
        {ccodec : CognitoModule.WalletCodec}.


End EnsureWallet.

(** ** Login and link when wallet provisioning fails *)

Lemma userVars_provider (claims : Runtime.CognitoTokenClaims) :
  Runtime.ExtractUserVars claims !! "provider" = Some "cognito".
Proof.
  unfold Runtime.ExtractUserVars.
  destruct (0 <? length (Runtime.CognitoGroups claims))%nat; simplify_map_eq; reflexivity.
Qed.

Lemma userVars_nonempty (claims : Runtime.CognitoTokenClaims) :
  (0 <? size (Runtime.ExtractUserVars claims))%nat = true.
Proof.
  apply Nat.ltb_lt.
  assert (size (Runtime.ExtractUserVars claims) <> 0%nat); [| lia].
  apply (map_size_ne_0_lookup_2 _ "provider"). rewrite userVars_provider. eauto.
Qed.

Section Handlers.
Context {sha : Sha256} {crypto : Crypto} {rcodec : Runtime.WalletCodec}
        {enc : CognitoModule.Encoding} {parser : CognitoModule.JwtParser}
        {ccodec : CognitoModule.WalletCodec}.

Lemma runtime_login_without_wallet (nk : NakamaModule)
    (jwksManager : Runtime.JWKSManager) (config : Runtime.Config)
    (req : Runtime.LoginRequest) (claims : Runtime.CognitoTokenClaims)
    (session userId : string) (created : bool) (e : error) (w : World) :
  Runtime.VerifyCognitoIDToken (Runtime.mgr_config jwksManager) (clock w)
    (Runtime.jwks jwksManager (Runtime.IDToken req)) = Returns (Ok claims) ->
  nk_AuthenticateCustom nk ("cognito:" ++ Runtime.Subject claims)
    (if String.eqb (Runtime.Username req) "" then Runtime.Subject claims
     else Runtime.Username req) (Runtime.Create req)
  = Ok (session, userId, created) ->
  Runtime.WalletEnabled config = true ->
  fst (Runtime.ensureWallet nk ("cognito:" ++ Runtime.Subject claims) config
         (snd (emit (EvAccountUpdate userId) w))) = Err e ->
  fst (Runtime.rpcCognitoLogin nk jwksManager config (Ok req) w)
  = Returns (Ok (JObj [("token", JStr session)])).
Proof.
  intros Hver Hauth Hen Hwallet. unfold Runtime.rpcCognitoLogin.
  rewrite Hver, Hauth, userVars_nonempty. unfold Runtime.provision. rewrite Hen.
  destruct (Runtime.ensureWallet _ _ _ _) as [[wallet | err] w2]; [discriminate |].
  reflexivity.
Qed.

Lemma runtime_link_without_wallet (nk : NakamaModule)
    (jwksManager : Runtime.JWKSManager) (config : Runtime.Config)
    (userID : string) (req : Runtime.LinkRequest)
    (claims : Runtime.CognitoTokenClaims) (e : error) (w : World) :
  userID <> "" ->
  Runtime.VerifyCognitoIDToken (Runtime.mgr_config jwksManager) (clock w)
    (Runtime.jwks jwksManager (Runtime.link_IDToken req)) = Returns (Ok claims) ->
  nk_LinkCustom nk userID ("cognito:" ++ Runtime.Subject claims) = None ->
  Runtime.WalletEnabled config = true ->
  fst (Runtime.ensureWallet nk ("cognito:" ++ Runtime.Subject claims) config w) = Err e ->
  fst (Runtime.rpcLinkCognito nk jwksManager config (Some userID) (Ok req) w)
  = Returns (Ok (JObj [("success", JBool true)])).
Proof.
  intros Hid Hver Hlink Hen Hwallet. unfold Runtime.rpcLinkCognito.
  destruct (String.eqb_spec userID ""); [contradiction |].
  rewrite Hver, Hlink. unfold Runtime.provision. rewrite Hen.
  destruct (Runtime.ensureWallet _ _ _ _) as [[wallet | err] w2]; [discriminate |].
  reflexivity.
Qed.

Lemma cognito_login_wallet_failure (nk : NakamaModule)
    (module : CognitoModule.CognitoModule)
    (net : string -> outcome CognitoModule.http_Response)
    (req : CognitoModule.LoginRequest) (c : CognitoModule.JWKSCache)
    (claims : gmap string json) (sub userID usernameResult : string)
    (created : bool) (e : error) (w : World) :
  CognitoModule.IDToken req <> "" ->
  CognitoModule.verifyCognitoIDToken module (clock w) net (CognitoModule.IDToken req)
  = (c, Ok claims) ->
  CognitoModule.string_claim claims "sub" = Some sub ->
  sub <> "" ->
  (forall username create,
      nk_AuthenticateCustom nk ("cognito:" ++ sub) username create
      = Ok (userID, usernameResult, created)) ->
  fst (CognitoModule.ensureWallet nk ("cognito:" ++ sub)
         (CognitoModule.WalletChain (CognitoModule.config module))
         (snd (CognitoModule.updateUserMetadata nk userID claims w))) = Err e ->
  fst (fst (CognitoModule.rpcCognitoLogin nk module net (Ok req) w))
  = Err (Errorf "failed to ensure wallet: %w" (Some e)).
Proof.
  intros Htok Hver Hsub Hne Hauth Hwallet. unfold CognitoModule.rpcCognitoLogin.
  destruct (String.eqb_spec (CognitoModule.IDToken req) ""); [contradiction |].
  rewrite Hver, Hsub.
  destruct (String.eqb_spec sub ""); [contradiction |].
  rewrite Hauth.
  destruct (CognitoModule.ensureWallet _ _ _ _) as [[wallet | err] w2]; [discriminate |].
  simpl in Hwallet. injection Hwallet as ->. reflexivity.
Qed.

Lemma cognito_link_wallet_failure (nk : NakamaModule)
    (module : CognitoModule.CognitoModule)
    (net : string -> outcome CognitoModule.http_Response)
    (userID : string) (req : CognitoModule.LinkRequest)
    (c : CognitoModule.JWKSCache) (claims : gmap string json) (sub : string)
    (e : error) (w : World) :
  userID <> "" ->
  CognitoModule.link_IDToken req <> "" ->
  CognitoModule.verifyCognitoIDToken module (clock w) net
    (CognitoModule.link_IDToken req) = (c, Ok claims) ->
  CognitoModule.string_claim claims "sub" = Some sub ->
  sub <> "" ->
  nk_LinkCustom nk userID ("cognito:" ++ sub) = None ->
  fst (CognitoModule.ensureWallet nk ("cognito:" ++ sub)
         (CognitoModule.WalletChain (CognitoModule.config module))
         (snd (CognitoModule.updateUserMetadata nk userID claims w))) = Err e ->
  fst (fst (CognitoModule.rpcLinkCognito nk module net (Some userID) (Ok req) w))
  = Err (Errorf "failed to ensure wallet: %w" (Some e)).
Proof.
  intros Hid Htok Hver Hsub Hne Hlink Hwallet. unfold CognitoModule.rpcLinkCognito.
  destruct (String.eqb_spec userID ""); [contradiction |].
  destruct (String.eqb_spec (CognitoModule.link_IDToken req) ""); [contradiction |].
  rewrite Hver, Hsub.
  destruct (String.eqb_spec sub ""); [contradiction |].
  rewrite Hlink.
  destruct (CognitoModule.ensureWallet _ _ _ _) as [[wallet | err] w2]; [discriminate |].
  simpl in Hwallet. injection Hwallet as ->. reflexivity.
Qed.

(** C3, as amended. In the runtime module, a login (a link) whose token
    verifies and whose account call succeeds, but whose wallet provisioning
    fails, returns the session token (the success flag) in a document
    without wallet field. In the 2024 module, where the wallet is a
    mandatory part of both responses, the same situation makes login and
    link return the error "failed to ensure wallet". *)
Theorem C3_wallet_failure_during_login_and_link :
  forall (nk : NakamaModule) (w : World) (e : error),
    (forall jwksManager config req claims session userId created,
        Runtime.VerifyCognitoIDToken (Runtime.mgr_config jwksManager) (clock w)
          (Runtime.jwks jwksManager (Runtime.IDToken req)) = Returns (Ok claims) ->
        nk_AuthenticateCustom nk ("cognito:" ++ Runtime.Subject claims)
          (if String.eqb (Runtime.Username req) "" then Runtime.Subject claims
           else Runtime.Username req) (Runtime.Create req)
        = Ok (session, userId, created) ->
        Runtime.WalletEnabled config = true ->
        fst (Runtime.ensureWallet nk ("cognito:" ++ Runtime.Subject claims) config
               (snd (emit (EvAccountUpdate userId) w))) = Err e ->
        fst (Runtime.rpcCognitoLogin nk jwksManager config (Ok req) w)
        = Returns (Ok (JObj [("token", JStr session)])))
    /\ (forall jwksManager config userID req claims,
          userID <> "" ->
          Runtime.VerifyCognitoIDToken (Runtime.mgr_config jwksManager) (clock w)
            (Runtime.jwks jwksManager (Runtime.link_IDToken req)) = Returns (Ok claims) ->
          nk_LinkCustom nk userID ("cognito:" ++ Runtime.Subject claims) = None ->
          Runtime.WalletEnabled config = true ->
          fst (Runtime.ensureWallet nk ("cognito:" ++ Runtime.Subject claims) config w)
          = Err e ->
          fst (Runtime.rpcLinkCognito nk jwksManager config (Some userID) (Ok req) w)
          = Returns (Ok (JObj [("success", JBool true)])))
    /\ (forall module net req c claims sub userID usernameResult created,
          CognitoModule.IDToken req <> "" ->
          CognitoModule.verifyCognitoIDToken module (clock w) net
            (CognitoModule.IDToken req) = (c, Ok claims) ->
          CognitoModule.string_claim claims "sub" = Some sub ->
          sub <> "" ->
          (forall username create,
              nk_AuthenticateCustom nk ("cognito:" ++ sub) username create
              = Ok (userID, usernameResult, created)) ->
          fst (CognitoModule.ensureWallet nk ("cognito:" ++ sub)
                 (CognitoModule.WalletChain (CognitoModule.config module))
                 (snd (CognitoModule.updateUserMetadata nk userID claims w))) = Err e ->
          fst (fst (CognitoModule.rpcCognitoLogin nk module net (Ok req) w))
          = Err (Errorf "failed to ensure wallet: %w" (Some e)))
    /\ (forall module net userID req c claims sub,
          userID <> "" ->
          CognitoModule.link_IDToken req <> "" ->
          CognitoModule.verifyCognitoIDToken module (clock w) net
            (CognitoModule.link_IDToken req) = (c, Ok claims) ->
          CognitoModule.string_claim claims "sub" = Some sub ->
          sub <> "" ->
          nk_LinkCustom nk userID ("cognito:" ++ sub) = None ->
          fst (CognitoModule.ensureWallet nk ("cognito:" ++ sub)
                 (CognitoModule.WalletChain (CognitoModule.config module))
                 (snd (CognitoModule.updateUserMetadata nk userID claims w))) = Err e ->
          fst (fst (CognitoModule.rpcLinkCognito nk module net (Some userID) (Ok req) w))
          = Err (Errorf "failed to ensure wallet: %w" (Some e))).
Proof.
  intros nk w e. split; [| split; [| split]].
  - intros. eapply runtime_login_without_wallet; eauto.
  - intros. eapply runtime_link_without_wallet; eauto.
  - intros. eapply cognito_login_wallet_failure; eauto.
  - intros. eapply cognito_link_wallet_failure; eauto.
Qed.

End Handlers.

(** ** Address derivation and the mock signer *)

Section Derivation.
Context {sha : Sha256} {crypto : Crypto}.

(** C10. The address [deriveEVMAddress] computes for an identity is the
    address of the public key of the private key the mock signer derives
    for that identity under the same configuration (both fail together
    when the digest is no valid key); so, for a signature scheme whose
    signatures recover the signer's public key, what [Sign] returns
    recovers to the provisioned address. *)
Theorem C10_address_is_that_of_the_signing_key :
  forall (config : Runtime.Config) (externalID : string),
    match Runtime.derivePrivateKey (Runtime.NewMockKMSSigner config) externalID with
    | Ok privateKey =>
        Runtime.deriveEVMAddress externalID config
        = Ok (address_Hex (crypto_PubkeyToAddress (privateKey_Public privateKey)))
    | Err err =>
        Runtime.deriveEVMAddress externalID config
        = Err (Errorf "failed to derive private key: %w" (Some err))
    end
    /\ (forall hash signature address,
          (forall h k s, crypto_Sign h k = Ok s ->
                         crypto_SigToPub h s = Ok (privateKey_Public k)) ->
          Runtime.deriveEVMAddress externalID config = Ok address ->
          Runtime.Sign (Runtime.GetKMSSigner config) externalID hash = Ok signature ->
          exists publicKey,
            crypto_SigToPub hash signature = Ok publicKey
            /\ address_Hex (crypto_PubkeyToAddress publicKey) = address).
Proof.
  intros config externalID.
  unfold Runtime.derivePrivateKey, Runtime.deriveEVMAddress, Runtime.GetKMSSigner,
    Runtime.MockKMSSigner_KMSSigner, Runtime.MockKMSSigner_Sign,
    Runtime.derivePrivateKey, Runtime.NewMockKMSSigner. simpl.
  destruct (crypto_ToECDSA _) as [privateKey | err]; (split; [reflexivity |]).
  - intros hash signature address Hrec Haddr Hsign.
    injection Haddr as <-.
    destruct (crypto_Sign hash privateKey) as [s | err] eqn:Hs; [| discriminate].
    injection Hsign as <-. exists (privateKey_Public privateKey).
    split; [now apply Hrec | reflexivity].
  - intros hash signature address _ Haddr. discriminate.
Qed.

End Derivation.

(** ** The transaction builder *)

Section Signing.
Context {sha : Sha256} {crypto : Crypto} {coretypes : Runtime.CoreTypes}.

Lemma parse_field_cases (field label : string) :
  (exists v, Runtime.parse_field field label = Ok v /\ ~ malformed field)
  \/ (Runtime.parse_field field label = Err (Errorf (label ++ field) None)
      /\ malformed field).
Proof.
  unfold Runtime.parse_field, malformed.
  destruct (String.eqb_spec field "") as [-> | Hne].
  - left. eexists. split; [reflexivity | intros [H _]; now apply H].
  - destruct (big.SetString field) as [v|] eqn:Hv.
    + left. eexists. split; [reflexivity | intros [_ H]; discriminate].
    + right. split; [reflexivity | split; [exact Hne | reflexivity]].
Qed.

Lemma signAndSend_rejects_malformed (externalID : string)
    (request : Runtime.EVMTransactionRequest) (config : Runtime.Config)
    (signer kmsSigner : Runtime.KMSSigner) (w : World) :
  malformed (Runtime.ValueWei request)
  \/ malformed (Runtime.GasLimit request)
  \/ malformed (Runtime.MaxFeePerGasWei request)
  \/ malformed (Runtime.MaxPriorityFeePerGasWei request) ->
  exists msg,
    Runtime.signAndSendEVMTransaction externalID request config signer kmsSigner w
    = (Err (Errorf msg None), w).
Proof.
  intros Hbad.
  unfold Runtime.signAndSendEVMTransaction, bind, lift, fail.
  destruct (String.eqb (Runtime.To request) ""); [eauto |].
  destruct (parse_field_cases (Runtime.ValueWei request) "invalid value: ")
    as [(v1 & -> & H1) | [-> _]]; [| eauto].
  destruct (parse_field_cases (Runtime.GasLimit request) "invalid gas limit: ")
    as [(v2 & -> & H2) | [-> _]]; [| eauto].
  destruct (parse_field_cases (Runtime.MaxFeePerGasWei request)
              "invalid max fee per gas: ")
    as [(v3 & -> & H3) | [-> _]]; [| eauto].
  destruct (parse_field_cases (Runtime.MaxPriorityFeePerGasWei request)
              "invalid max priority fee per gas: ")
    as [(v4 & -> & H4) | [-> _]]; [| eauto].
  tauto.
Qed.

(** The handler passes the error of the builder on as it is. *)
Lemma rpcSignAndSend_malformed (nk : NakamaModule) (config : Runtime.Config)
    (kmsSigner : Runtime.KMSSigner) (userID customId : string)
    (request : Runtime.EVMTransactionRequest) (w : World) :
  Runtime.WalletEnabled config = true ->
  userID <> "" ->
  nk_AccountGetId nk userID = Ok customId ->
  Runtime.is_cognito_id customId = true ->
  malformed (Runtime.ValueWei request)
  \/ malformed (Runtime.GasLimit request)
  \/ malformed (Runtime.MaxFeePerGasWei request)
  \/ malformed (Runtime.MaxPriorityFeePerGasWei request) ->
  exists msg,
    Runtime.rpcSignAndSend nk config kmsSigner (Some userID) (Ok request) w
    = (Err (Errorf msg None), w).
Proof.
  intros Hen Hid Hacc Hcog Hbad. unfold Runtime.rpcSignAndSend.
  rewrite Hen. simpl. destruct (String.eqb_spec userID ""); [contradiction |].
  unfold bind at 1. unfold lift at 1. rewrite Hacc, Hcog. unfold bind at 1.
  destruct (signAndSend_rejects_malformed customId request config kmsSigner
              kmsSigner w Hbad) as [msg ->].
  eauto.
Qed.


(** A request with a recipient whose numeric fields all parse, whatever
    their sign, reaches the signing service. *)
Lemma signAndSend_signs_parsed_request (externalID : string)
    (request : Runtime.EVMTransactionRequest) (config : Runtime.Config)
    (signer kmsSigner : Runtime.KMSSigner) (w : World) :
  Runtime.To request <> "" ->
  ~ malformed (Runtime.ValueWei request) ->
  ~ malformed (Runtime.GasLimit request) ->
  ~ malformed (Runtime.MaxFeePerGasWei request) ->
  ~ malformed (Runtime.MaxPriorityFeePerGasWei request) ->
  existsb is_sign
    (new_events w
       (snd (Runtime.signAndSendEVMTransaction externalID request config
               signer kmsSigner w))) = true.
Proof.
  intros Hto H1 H2 H3 H4.
  unfold Runtime.signAndSendEVMTransaction, bind, lift, fail.
  destruct (String.eqb_spec (Runtime.To request) ""); [contradiction |].
  destruct (parse_field_cases (Runtime.ValueWei request) "invalid value: ")
    as [(v1 & -> & _) | [_ ?]]; [| contradiction].
  destruct (parse_field_cases (Runtime.GasLimit request) "invalid gas limit: ")
    as [(v2 & -> & _) | [_ ?]]; [| contradiction].
  destruct (parse_field_cases (Runtime.MaxFeePerGasWei request)
              "invalid max fee per gas: ")
    as [(v3 & -> & _) | [_ ?]]; [| contradiction].
  destruct (parse_field_cases (Runtime.MaxPriorityFeePerGasWei request)
              "invalid max priority fee per gas: ")
    as [(v4 & -> & _) | [_ ?]]; [| contradiction].
  unfold Runtime.signTransaction, bind, emit, fail, ret. simpl.
  destruct (Runtime.Sign kmsSigner _ _) as [signature | err]; simpl.
  - destruct (Runtime.tx_WithSignature _ _ _); simpl;
      unfold new_events; simpl; now rewrite drop_app_length.
  - unfold new_events. simpl. now rewrite drop_app_length.
Qed.

End Signing.

(** ** The statements above at the sample inputs *)



(** C10 at the sample libraries, whose signatures name their key. *)
Lemma C10_witness :
  Runtime.deriveEVMAddress (sha := Sample.sha) (crypto := Sample.crypto)
    "cognito:user-42" sample_runtime_config
  = Ok "0xarn:aws:kms:key/1:cognito:user-42"
  /\ exists publicKey,
       crypto_SigToPub (Crypto := Sample.crypto)
         (Sample.bytes_of_string "digest")
         (Sample.bytes_of_string "arn:aws:kms:key/1:cognito:user-42")
       = Ok publicKey
       /\ address_Hex (Crypto := Sample.crypto)
            (crypto_PubkeyToAddress (Crypto := Sample.crypto) publicKey)
          = "0xarn:aws:kms:key/1:cognito:user-42".
Proof.
  destruct (C10_address_is_that_of_the_signing_key (sha := Sample.sha)
              (crypto := Sample.crypto) sample_runtime_config "cognito:user-42")
    as [H1 H2].
  split; [exact H1 |].
  apply (H2 (Sample.bytes_of_string "digest")).
  - intros h k s Hs. injection Hs as <-. reflexivity.
  - reflexivity.
  - reflexivity.
Defined.

(** C3, counterexample. The token verifies, the account call succeeds, the
    storage engine refuses the wallet write: the login of the 2024 module
    returns an error and no session token. *)
Lemma C3_counterexample :
  is_ok (snd (CognitoModule.verifyCognitoIDToken (enc := Sample.enc)
                (parser := Sample.parser) sample_module 0 offline
                "header.payload.signature")) = true
  /\ nk_AuthenticateCustom storage_down "cognito:user-42" "" true
     = Ok ("session-1", "user-1", true)
  /\ fst (fst (CognitoModule.rpcCognitoLogin (sha := Sample.sha) (enc := Sample.enc)
                 (parser := Sample.parser) (codec := Sample.cognito_codec)
                 storage_down sample_module offline (Ok login_request) Sample.world))
     = Err (Errorf "failed to ensure wallet: %w" (Some write_failed)).
Proof. repeat split; vm_compute; reflexivity. Qed.

(** C3 at the sample token, the storage engine refusing writes. *)
Lemma C3_witness :
  fst (Runtime.rpcCognitoLogin (sha := Sample.sha) (crypto := Sample.crypto)
         (codec := Sample.runtime_codec) storage_down sample_manager
         sample_runtime_config (Ok runtime_login_request) Sample.world)
  = Returns (Ok (JObj [("token", JStr "session-1")]))
  /\ fst (Runtime.rpcLinkCognito (sha := Sample.sha) (crypto := Sample.crypto)
            (codec := Sample.runtime_codec) storage_down sample_manager
            sample_runtime_config (Some "user-1") (Ok runtime_link_request) Sample.world)
     = Returns (Ok (JObj [("success", JBool true)]))
  /\ fst (fst (CognitoModule.rpcCognitoLogin (sha := Sample.sha) (enc := Sample.enc)
                 (parser := Sample.parser) (codec := Sample.cognito_codec)
                 storage_down sample_module offline (Ok login_request) Sample.world))
     = Err (Errorf "failed to ensure wallet: %w" (Some write_failed))
  /\ fst (fst (CognitoModule.rpcLinkCognito (sha := Sample.sha) (enc := Sample.enc)
                 (parser := Sample.parser) (codec := Sample.cognito_codec)
                 storage_down sample_module offline (Some "user-1") (Ok link_request)
                 Sample.world))
     = Err (Errorf "failed to ensure wallet: %w" (Some write_failed)).
Proof.
  destruct (C3_wallet_failure_during_login_and_link (sha := Sample.sha)
              (crypto := Sample.crypto) (rcodec := Sample.runtime_codec)
              (enc := Sample.enc) (parser := Sample.parser)
              (ccodec := Sample.cognito_codec) storage_down Sample.world
              (External "storage unavailable")) as (R1 & R2 & _ & _).
  destruct (C3_wallet_failure_during_login_and_link (sha := Sample.sha)
              (crypto := Sample.crypto) (rcodec := Sample.runtime_codec)
              (enc := Sample.enc) (parser := Sample.parser)
              (ccodec := Sample.cognito_codec) storage_down Sample.world
              write_failed) as (_ & _ & C1 & C2).
  split; [| split; [| split]].
  - eapply (R1 sample_manager sample_runtime_config runtime_login_request);
      vm_compute; reflexivity.
  - eapply (R2 sample_manager sample_runtime_config "user-1" runtime_link_request);
      [discriminate | vm_compute; reflexivity ..].
  - eapply (C1 sample_module offline login_request _ _ "user-42");
      [discriminate | vm_compute; reflexivity | vm_compute; reflexivity
      | discriminate | intros; reflexivity | vm_compute; reflexivity].
  - eapply (C2 sample_module offline "user-1" link_request _ _ "user-42");
      [discriminate | discriminate | vm_compute; reflexivity | vm_compute; reflexivity
      | discriminate | reflexivity | vm_compute; reflexivity].
Defined.



(** The 2024 verifier with an empty cache and the key-set endpoint
    unreachable, against a malformed token: the two errors have the same
    text and differ only in what they wrap. *)
Example cognito_fetch_failure_same_code :
  snd (CognitoModule.verifyCognitoIDToken (enc := Sample.enc) (parser := Sample.parser)
         cold_module 0 offline "header.payload.signature")
  = Err (Errorf "failed to parse/verify token: %w"
           (Some (JwtUnverifiable
                    (Errorf "failed to fetch JWKS: %w"
                       (Some (Errorf "failed to fetch JWKS: %w"
                                (Some (External "dial tcp: connection refused"))))))))
  /\ snd (CognitoModule.verifyCognitoIDToken (enc := Sample.enc) (parser := Sample.parser)
            cold_module 0 offline "")
     = Err (Errorf "failed to parse/verify token: %w" (Some JwtMalformed)).
Proof. split; vm_compute; reflexivity. Qed.

(** Outside the case of a record that is found: when the read itself
    fails, the runtime [ensureWallet] returns the error of the read, while
    the 2024 one takes any error of [readWallet] for an absent wallet,
    derives an address and writes over the stored record. *)
Example ensureWallet_after_failed_read :
  Runtime.ensureWallet (sha := Sample.sha) (crypto := Sample.crypto)
    (codec := Sample.runtime_codec) reads_fail "cognito:user-42"
    sample_runtime_config world_with_wallet
  = (Err (External "context deadline exceeded"),
     after_read "wallet" "cognito:user-42" world_with_wallet)
  /\ map is_write
       (trace (snd (CognitoModule.ensureWallet (sha := Sample.sha)
                      (codec := Sample.cognito_codec) reads_fail "cognito:user-42"
                      "evm" world_with_wallet)))
     = [false; false; true]
  /\ storage (snd (CognitoModule.ensureWallet (sha := Sample.sha)
                     (codec := Sample.cognito_codec) reads_fail "cognito:user-42"
                     "evm" world_with_wallet))
       !! ("wallet", "cognito:user-42")
     = Some {| Value := "0x636f676e69746f3a757365722d3432";
               PermissionRead := 0; PermissionWrite := 0 |}.
Proof. repeat split; vm_compute; reflexivity. Qed.

(** * Further properties of the modules *)

(** ** The key cache, continued *)

Section KeyCacheMore.
Context {enc : CognitoModule.Encoding}.

Lemma fetchJWKS_error (c c' : CognitoModule.JWKSCache) (now : Z)
    (net : string -> outcome CognitoModule.http_Response) (err : error) :
  CognitoModule.fetchJWKS c now net = (c', Some err) -> c' = c.
Proof.
  unfold CognitoModule.fetchJWKS.
  destruct (net _) as [resp | e]; [| now intros [= <- _]].
  destruct (negb _); [now intros [= <- _] |].
  destruct (CognitoModule.Body resp) as [body | e]; [| now intros [= <- _]].
  destruct (CognitoModule.json_Unmarshal_JWKS body); [discriminate | now intros [= <- _]].
Qed.

Lemma fetchJWKS_keeps (c c' : CognitoModule.JWKSCache) (now : Z)
    (net : string -> outcome CognitoModule.http_Response) (r : option error)
    (kid : string) :
  CognitoModule.fetchJWKS c now net = (c', r) ->
  is_Some (CognitoModule.cache c !! kid) -> is_Some (CognitoModule.cache c' !! kid).
Proof.
  destruct r as [err|]; intros H.
  - now rewrite (fetchJWKS_error _ _ _ _ _ H).
  - unfold CognitoModule.fetchJWKS in H.
    destruct (net _) as [resp | e]; [| discriminate].
    destruct (negb _); [discriminate |].
    destruct (CognitoModule.Body resp) as [body | e]; [| discriminate].
    destruct (CognitoModule.json_Unmarshal_JWKS body) as [keys | e]; [| discriminate].
    injection H as <-. simpl. apply update_cache_keeps.
Qed.

(** X1. A key that is cached, with the time since the last fetch within the
    TTL, is returned from the cache: whatever the network would answer, and
    the cache is left as it is. *)
Theorem GetKey_fresh_hit :
  forall (c : CognitoModule.JWKSCache) (kid : string)
         (key : CognitoModule.rsa_PublicKey) (now : Z)
         (net : string -> outcome CognitoModule.http_Response),
    CognitoModule.cache c !! kid = Some key ->
    CognitoModule.time_Since now (CognitoModule.lastFetch c) <= CognitoModule.ttl c ->
    CognitoModule.GetKey c kid now net = (c, Ok key).
Proof.
  intros c kid key now net Hkey Hfresh. unfold CognitoModule.GetKey.
  rewrite Hkey. destruct (Z.ltb_spec (CognitoModule.ttl c)
                            (CognitoModule.time_Since now (CognitoModule.lastFetch c)));
    [lia | reflexivity].
Qed.

(** X2. Once the TTL has run out, a cached key is no longer served without
    a refresh: when the key-set endpoint cannot be reached, [GetKey] returns
    the error of the fetch, although the key is in the cache, and leaves
    the cache (and its fetch time) as it was. *)
Theorem GetKey_expired_and_offline :
  forall (c : CognitoModule.JWKSCache) (kid : string)
         (key : CognitoModule.rsa_PublicKey) (now : Z)
         (net : string -> outcome CognitoModule.http_Response) (e : error),
    CognitoModule.cache c !! kid = Some key ->
    CognitoModule.ttl c < CognitoModule.time_Since now (CognitoModule.lastFetch c) ->
    net (CognitoModule.jwksURL c) = Err e ->
    CognitoModule.GetKey c kid now net
    = (c, Err (Errorf "failed to fetch JWKS: %w"
                 (Some (Errorf "failed to fetch JWKS: %w" (Some e))))).
Proof.
  intros c kid key now net e Hkey Hold Hnet. unfold CognitoModule.GetKey.
  rewrite Hkey. destruct (Z.ltb_spec (CognitoModule.ttl c)
                            (CognitoModule.time_Since now (CognitoModule.lastFetch c)));
    [| lia].
  unfold CognitoModule.fetchJWKS. rewrite Hnet. reflexivity.
Qed.

Lemma GetKey_cases :
  forall (c c' : CognitoModule.JWKSCache) (kid : string) (now : Z)
         (net : string -> outcome CognitoModule.http_Response)
         (r : outcome CognitoModule.rsa_PublicKey),
    CognitoModule.GetKey c kid now net = (c', r) ->
    (forall k, is_Some (CognitoModule.cache c !! k) ->
               is_Some (CognitoModule.cache c' !! k))
    /\ match r with
       | Ok key => CognitoModule.cache c' !! kid = Some key
       | Err _ =>
           c' = c
           \/ (CognitoModule.cache c' !! kid = None
               /\ CognitoModule.lastFetch c' = now)
       end.
Proof.
  intros c c' kid now net r H. unfold CognitoModule.GetKey in H.
  assert (Hfetch :
    (let (c1, o) := CognitoModule.fetchJWKS c now net in
     match o with
     | Some err => (c1, Err (Errorf "failed to fetch JWKS: %w" (Some err)))
     | None =>
         match CognitoModule.cache c1 !! kid with
         | Some key => (c1, Ok key)
         | None => (c1, Err (Errorf ("key with kid '" ++ kid ++ "' not found in JWKS") None))
         end
     end) = (c', r) ->
    (forall k, is_Some (CognitoModule.cache c !! k) ->
               is_Some (CognitoModule.cache c' !! k))
    /\ match r with
       | Ok key => CognitoModule.cache c' !! kid = Some key
       | Err _ =>
           c' = c
           \/ (CognitoModule.cache c' !! kid = None
               /\ CognitoModule.lastFetch c' = now)
       end).
  { destruct (CognitoModule.fetchJWKS c now net) as [c1 o] eqn:Hf.
    destruct o as [err|].
    - intros [= <- <-]. rewrite (fetchJWKS_error _ _ _ _ _ Hf). auto.
    - destruct (CognitoModule.cache c1 !! kid) as [key|] eqn:Hk; intros [= <- <-].
      + split; [intros k; now apply (fetchJWKS_keeps _ _ _ _ _ k Hf) | exact Hk].
      + split; [intros k; now apply (fetchJWKS_keeps _ _ _ _ _ k Hf) |].
        right. split; [exact Hk |].
        unfold CognitoModule.fetchJWKS in Hf.
        destruct (net _) as [resp | e]; [| discriminate].
        destruct (negb _); [discriminate |].
        destruct (CognitoModule.Body resp) as [body | e]; [| discriminate].
        destruct (CognitoModule.json_Unmarshal_JWKS body); [| discriminate].
        now injection Hf as <-. }
  destruct (CognitoModule.cache c !! kid) as [key|] eqn:Hkey; [| exact (Hfetch H)].
  destruct (CognitoModule.ttl c <? _); [exact (Hfetch H) |].
  injection H as <- <-. auto.
Qed.

(** X3. Whatever [GetKey] returns, no key id is dropped from the cache; a
    key it returns is the one the resulting cache holds under the key id;
    and when it fails, either the cache is untouched (the fetch failed) or
    the cache was refreshed at [now] and still has no such key id. *)
Theorem GetKey_result_and_cache :
  forall (c c' : CognitoModule.JWKSCache) (kid : string) (now : Z)
         (net : string -> outcome CognitoModule.http_Response)
         (r : outcome CognitoModule.rsa_PublicKey),
    CognitoModule.GetKey c kid now net = (c', r) ->
    (forall k, is_Some (CognitoModule.cache c !! k) ->
               is_Some (CognitoModule.cache c' !! k))
    /\ match r with
       | Ok key => CognitoModule.cache c' !! kid = Some key
       | Err _ =>
           c' = c
           \/ (CognitoModule.cache c' !! kid = None
               /\ CognitoModule.lastFetch c' = now)
       end.
Proof. exact GetKey_cases. Qed.

(** X4. Where the entries of a refreshed table come from: an entry is either
    one of the table before the refresh, or the converted key of an entry
    of the document whose key type is RSA. Keys of other types, and keys
    whose modulus or exponent does not decode, never enter the table. *)
Theorem update_cache_provenance :
  forall (keys : list CognitoModule.JWK)
         (old : gmap string CognitoModule.rsa_PublicKey) (kid : string)
         (key : CognitoModule.rsa_PublicKey),
    CognitoModule.update_cache keys old !! kid = Some key ->
    old !! kid = Some key
    \/ exists jwk,
         In jwk keys /\ CognitoModule.Kid jwk = kid
         /\ CognitoModule.Kty jwk = "RSA"
         /\ CognitoModule.jwkToRSAPublicKey jwk = Ok key.
Proof.
  induction keys as [|jwk rest IH]; intros old kid key H; simpl in H; [now left |].
  destruct (String.eqb_spec (CognitoModule.Kty jwk) "RSA") as [Hrsa | Hrsa]; simpl in H.
  - destruct (CognitoModule.jwkToRSAPublicKey jwk) as [k | err] eqn:Hconv.
    + destruct (IH _ _ _ H) as [Hold | (j & Hin & Hk & Hty & Hc)].
      * destruct (decide (CognitoModule.Kid jwk = kid)) as [Heq | Hne].
        -- rewrite <- Heq, lookup_insert_eq in Hold. injection Hold as <-.
           right. exists jwk. simpl. auto.
        -- rewrite lookup_insert_ne in Hold by exact Hne. now left.
      * right. exists j. simpl. auto.
    + destruct (IH _ _ _ H) as [Hold | (j & Hin & Hk & Hty & Hc)]; [now left |].
      right. exists j. simpl. auto.
  - destruct (IH _ _ _ H) as [Hold | (j & Hin & Hk & Hty & Hc)]; [now left |].
    right. exists j. simpl. auto.
Qed.

(** X5. The key function hands a key to the parser only for a token whose
    header names an RSA signing method and carries a string [kid], and the
    key is the one the cache then holds under that [kid]. *)
Theorem keyFunc_gives_cached_RSA_key :
  forall (c c' : CognitoModule.JWKSCache) (now : Z)
         (net : string -> outcome CognitoModule.http_Response)
         (token : CognitoModule.UnverifiedToken)
         (key : CognitoModule.rsa_PublicKey),
    CognitoModule.keyFunc c now net token = (c', Ok key) ->
    CognitoModule.Method_is_RSA token = true
    /\ exists kid,
         CognitoModule.Header token !! "kid" = Some (JStr kid)
         /\ CognitoModule.cache c' !! kid = Some key.
Proof.
  intros c c' now net token key H. unfold CognitoModule.keyFunc in H.
  destruct (CognitoModule.Method_is_RSA token); simpl in H; [| discriminate].
  split; [reflexivity |].
  destruct (CognitoModule.Header token !! "kid") as [[| | |kid| |]|]; try discriminate.
  exists kid. split; [reflexivity |].
  now destruct (GetKey_cases _ _ _ _ _ _ H) as [_ Hk].
Qed.

End KeyCacheMore.

(** ** Token verification, continued *)

Lemma runtime_verify_success (config : Runtime.Config) (now : Z)
    (parsed : outcome Runtime.jwt_Token) (claims : Runtime.CognitoTokenClaims) :
  Runtime.VerifyCognitoIDToken config now parsed = Returns (Ok claims)
  <-> exists exp,
        parsed = Ok {| Runtime.Valid := true; Runtime.Claims := Runtime.ClaimsPtr claims |}
        /\ Runtime.Issuer claims = Runtime.CognitoIssuer config
        /\ In (Runtime.CognitoAudience config) (Runtime.Audience claims)
        /\ Runtime.TokenUse claims = "id"
        /\ Runtime.ExpiresAt claims = Some exp
        /\ now <= exp
        /\ Runtime.Subject claims <> "".
Proof.
  split.
  - unfold Runtime.VerifyCognitoIDToken.
    destruct parsed as [[valid cl] | err]; [| discriminate]. simpl.
    destruct valid; simpl; [| discriminate].
    destruct cl as [c|]; [| discriminate].
    destruct (String.eqb_spec (Runtime.Issuer c) (Runtime.CognitoIssuer config))
      as [Hiss | _]; simpl; [| discriminate].
    destruct (Runtime.validAudience _ _) eqn:Haud; simpl; [| discriminate].
    destruct (String.eqb_spec (Runtime.TokenUse c) "id") as [Huse | _]; simpl;
      [| discriminate].
    destruct (Runtime.ExpiresAt c) as [exp|] eqn:Hexp; [| discriminate].
    destruct (Z.ltb_spec exp now); [discriminate |].
    destruct (String.eqb_spec (Runtime.Subject c) "") as [_ | Hsub]; [discriminate |].
    intros [= ->]. exists exp. apply validAudience_spec in Haud. auto 10.
  - intros (exp & -> & Hiss & Haud & Huse & Hexp & Hle & Hsub).
    rewrite (runtime_expiry_check config now exp claims) by assumption.
    destruct (Z.ltb_spec exp now); [lia | reflexivity].
Qed.

(** X6. The runtime verifier returns claims exactly for a token that the
    parser accepted as valid and whose claims have the configured issuer,
    the configured audience among their audiences, token use [id], an
    expiry not before the time of the check, and a non-empty subject; the
    claims returned are those of the token. *)
Theorem VerifyCognitoIDToken_success_iff :
  forall (config : Runtime.Config) (now : Z) (parsed : outcome Runtime.jwt_Token)
         (claims : Runtime.CognitoTokenClaims),
    Runtime.VerifyCognitoIDToken config now parsed = Returns (Ok claims)
    <-> exists exp,
          parsed = Ok {| Runtime.Valid := true;
                         Runtime.Claims := Runtime.ClaimsPtr claims |}
          /\ Runtime.Issuer claims = Runtime.CognitoIssuer config
          /\ In (Runtime.CognitoAudience config) (Runtime.Audience claims)
          /\ Runtime.TokenUse claims = "id"
          /\ Runtime.ExpiresAt claims = Some exp
          /\ now <= exp
          /\ Runtime.Subject claims <> "".
Proof. exact runtime_verify_success. Qed.

Lemma cognito_check_success (config : CognitoModule.CognitoConfig) (now : Z)
    (parsed : outcome CognitoModule.jwt_Token) (claims : gmap string json) :
  CognitoModule.check_claims config now parsed = Ok claims
  <-> parsed = Ok {| CognitoModule.Valid := true;
                     CognitoModule.Claims := CognitoModule.ClaimsMap claims |}
      /\ claims !! "iss" = Some (JStr (CognitoModule.Issuer config))
      /\ match claims !! "aud" with
         | Some (JStr aud) => aud = CognitoModule.Audience config
         | Some (JArr l) => first_audience l = CognitoModule.Audience config
         | _ => CognitoModule.Audience config = ""
         end
      /\ claims !! "token_use" = Some (JStr "id")
      /\ exists exp,
           claims !! "exp" = Some (JNum exp)
           /\ CognitoModule.Unix now < CognitoModule.int64_of_float exp.
Proof.
  unfold CognitoModule.check_claims. split.
  - destruct parsed as [[valid cl] | err]; [| discriminate]. simpl.
    destruct valid; simpl; [| discriminate].
    destruct cl as [m|]; [| discriminate].
    destruct (m !! "iss") as [[| | |iss| |]|] eqn:Hiss; simpl; try discriminate.
    destruct (String.eqb_spec iss (CognitoModule.Issuer config)) as [-> | _]; simpl;
      [| discriminate].
    destruct (String.eqb_spec
                match m !! "aud" with
                | Some (JStr aud) => aud
                | Some (JArr (JStr audStr :: _)) => audStr
                | _ => ""
                end (CognitoModule.Audience config)) as [Haud | _]; simpl;
      [| discriminate].
    destruct (m !! "token_use") as [[| | |u| |]|] eqn:Huse; simpl; try discriminate.
    destruct (String.eqb_spec u "id") as [-> | _]; simpl; [| discriminate].
    destruct (m !! "exp") as [[| |exp| | |]|] eqn:Hexp; try discriminate.
    rewrite Z.geb_leb.
    destruct (Z.leb_spec (CognitoModule.int64_of_float exp) (CognitoModule.Unix now));
      [discriminate |].
    intros [= <-]. rewrite Hiss, Huse, Hexp. repeat split; eauto.
    destruct (m !! "aud") as [[| | |a|l|]|]; try (symmetry; exact Haud); exact Haud.
  - intros (-> & Hiss & Haud & Huse & exp & Hexp & Hlt). simpl.
    rewrite Hiss, Huse, Hexp, !String.eqb_refl. simpl.
    assert (Ha : match claims !! "aud" with
                 | Some (JStr aud) => aud
                 | Some (JArr (JStr audStr :: _)) => audStr
                 | _ => ""
                 end = CognitoModule.Audience config).
    { destruct (claims !! "aud") as [[| | |a|l|]|]; auto. }
    rewrite Ha, String.eqb_refl. simpl. rewrite Z.geb_leb.
    destruct (Z.leb_spec (CognitoModule.int64_of_float exp) (CognitoModule.Unix now));
      [lia | reflexivity].
Qed.



(** ** The wallet provisioner, continued *)

Section RuntimeWalletMore.
Context {sha : Sha256} {crypto : Crypto} {codec : Runtime.WalletCodec}.

(** X9. First provisioning. With the wallet feature on, the chain [evm],
    the storage answering and no record stored for the identity,
    [ensureWallet] reads once, derives once and writes once: it stores,
    under (wallet, identity), the encoded record of the derived address,
    stamped with the clock in milliseconds, readable by its owner
    (permission 1) and not writable by clients (permission 0), and returns
    that record. *)
Theorem ensureWallet_first_provisioning :
  forall (nk : NakamaModule) (externalID : string) (config : Runtime.Config)
         (w : World) (address : string),
    Runtime.WalletEnabled config = true ->
    nk_StorageRead_failure nk = None ->
    nk_StorageWrite_failure nk = None ->
    storage w !! (Runtime.WalletCollection, externalID) = None ->
    Runtime.WalletChain config = "evm" ->
    Runtime.deriveEVMAddress externalID config = Ok address ->
    let wallet := {| Runtime.Chain := "evm"; Runtime.Address := address;
                     Runtime.CreatedAt := Runtime.UnixMilli (clock w) |} in
    let obj := {| Value := Runtime.json_Marshal wallet;
                  PermissionRead := 1; PermissionWrite := 0 |} in
    Runtime.ensureWallet nk externalID config w
    = (Ok wallet,
       {| storage := <[(Runtime.WalletCollection, externalID) := obj]> (storage w);
          clock := clock w;
          trace := trace w ++ [EvStorageRead Runtime.WalletCollection externalID;
                               EvDerive externalID;
                               EvStorageWrite Runtime.WalletCollection externalID obj] |}).
Proof.
  intros nk externalID config w address.
  intros Hen Hread Hwrite Hobj Hchain Haddr wallet obj. subst wallet obj.
  unfold Runtime.ensureWallet, Runtime.deriveWalletAddress, StorageRead,
    StorageWrite, bind, emit, fail, ret, lift, time_Now.
  rewrite Hen, Hread, Hwrite. simpl. rewrite Hobj. simpl.
  rewrite Hchain. simpl. rewrite Haddr. simpl.
  now rewrite <- !app_assoc.
Qed.

(** X10. For every call of the runtime [ensureWallet]: the storage is
    unchanged at every key other than (wallet, identity); when the call
    fails, for whatever reason, the storage is unchanged altogether (no
    partial record); when it succeeds, the storage holds an object for the
    identity that is the returned record (it decodes to it, or is its
    encoding). *)
Theorem ensureWallet_storage_effect :
  forall (nk : NakamaModule) (externalID : string) (config : Runtime.Config)
         (w : World),
    let r := Runtime.ensureWallet nk externalID config w in
    (forall k, k <> (Runtime.WalletCollection, externalID) ->
               storage (snd r) !! k = storage w !! k)
    /\ match fst r with
       | Err _ => storage (snd r) = storage w
       | Ok wallet =>
           exists obj,
             storage (snd r) !! (Runtime.WalletCollection, externalID) = Some obj
             /\ (Runtime.json_Unmarshal (Value obj) = Ok wallet
                 \/ Value obj = Runtime.json_Marshal wallet)
       end.
Proof.
  intros nk externalID config w.
  unfold Runtime.ensureWallet, Runtime.deriveWalletAddress, StorageRead,
    StorageWrite, bind, emit, fail, ret, lift, time_Now.
  destruct (Runtime.WalletEnabled config); simpl; [| auto].
  destruct (nk_StorageRead_failure nk); simpl; [auto |].
  destruct (storage w !! (Runtime.WalletCollection, externalID)) as [obj|] eqn:Hobj;
    simpl.
  { destruct (Runtime.json_Unmarshal (Value obj)) as [wallet | err] eqn:Hdec; simpl;
      (split; [reflexivity |]); eauto. }
  destruct (String.eqb (Runtime.WalletChain config) "evm"); simpl.
  - destruct (Runtime.deriveEVMAddress externalID config) as [address | err]; simpl;
      [| auto].
    destruct (nk_StorageWrite_failure nk); simpl; [auto |].
    split.
    + intros k Hk. now rewrite lookup_insert_ne.
    + eexists. rewrite lookup_insert_eq. split; [reflexivity | right; reflexivity].
  - destruct (String.eqb (Runtime.WalletChain config) "solana"); simpl; auto.
Qed.

Lemma runtime_getWallet_cases (nk : NakamaModule) (externalID : string) (w : World) :
  let r := Runtime.getWallet nk externalID w in
  snd r = after_read Runtime.WalletCollection externalID w
  /\ match fst r with
     | Ok wallet =>
         exists obj,
           storage w !! (Runtime.WalletCollection, externalID) = Some obj
           /\ Runtime.json_Unmarshal (Value obj) = Ok wallet
     | Err e =>
         nk_StorageRead_failure nk = Some e
         \/ (storage w !! (Runtime.WalletCollection, externalID) = None
             /\ e = Sentinel ErrWalletNotFound)
         \/ exists obj,
              storage w !! (Runtime.WalletCollection, externalID) = Some obj
              /\ Runtime.json_Unmarshal (Value obj) = Err e
     end.
Proof.
  unfold Runtime.getWallet, StorageRead, bind, emit, fail, ret.
  destruct (nk_StorageRead_failure nk); simpl; [auto |].
  destruct (storage w !! (Runtime.WalletCollection, externalID)) as [obj|]; simpl;
    [| auto].
  destruct (Runtime.json_Unmarshal (Value obj)) as [wallet | err] eqn:Hdec; simpl;
    eauto 6.
Qed.

(** X11. [getWallet] only reads: the world after the call is the world
    before it with one read recorded. It never makes a record up: a wallet
    it returns is the decoding of the object stored for the identity; and
    its error is the error of the read, or [ErrWalletNotFound] when nothing
    is stored, or the decoding error of the stored object. *)
Theorem getWallet_reads_only :
  forall (nk : NakamaModule) (externalID : string) (w : World),
    let r := Runtime.getWallet nk externalID w in
    snd r = after_read Runtime.WalletCollection externalID w
    /\ match fst r with
       | Ok wallet =>
           exists obj,
             storage w !! (Runtime.WalletCollection, externalID) = Some obj
             /\ Runtime.json_Unmarshal (Value obj) = Ok wallet
       | Err e =>
           nk_StorageRead_failure nk = Some e
           \/ (storage w !! (Runtime.WalletCollection, externalID) = None
               /\ e = Sentinel ErrWalletNotFound)
           \/ exists obj,
                storage w !! (Runtime.WalletCollection, externalID) = Some obj
                /\ Runtime.json_Unmarshal (Value obj) = Err e
       end.
Proof. exact runtime_getWallet_cases. Qed.

Lemma runtime_ensureWallet_ok_stored (nk : NakamaModule) (externalID : string)
    (config : Runtime.Config) (w w1 : World) (wallet : Runtime.Wallet) :
  Runtime.ensureWallet nk externalID config w = (Ok wallet, w1) ->
  Runtime.json_Unmarshal (Runtime.json_Marshal wallet) = Ok wallet ->
  nk_StorageRead_failure nk = None
  /\ exists obj,
       storage w1 !! (Runtime.WalletCollection, externalID) = Some obj
       /\ Runtime.json_Unmarshal (Value obj) = Ok wallet.
Proof.
  intros Hfirst Hround.
  unfold Runtime.ensureWallet, StorageRead, StorageWrite, bind, emit, fail, ret,
    lift, time_Now, Runtime.deriveWalletAddress in Hfirst.
  destruct (Runtime.WalletEnabled config); [| discriminate].
  simpl in Hfirst.
  destruct (nk_StorageRead_failure nk); [discriminate |].
  split; [reflexivity |]. simpl in Hfirst.
  destruct (storage w !! (Runtime.WalletCollection, externalID)) as [obj|] eqn:Hobj.
  - destruct (Runtime.json_Unmarshal (Value obj)) as [wl | err] eqn:Hdec;
      [| discriminate].
    injection Hfirst as <- <-. eauto.
  - destruct (String.eqb (Runtime.WalletChain config) "evm");
      [| destruct (String.eqb (Runtime.WalletChain config) "solana"); discriminate].
    destruct (Runtime.deriveEVMAddress externalID config); [| discriminate].
    simpl in Hfirst.
    destruct (nk_StorageWrite_failure nk); [discriminate |].
    injection Hfirst as <- <-. eexists. simpl.
    rewrite lookup_insert_eq. split; [reflexivity | exact Hround].
Qed.

(** X12. Provision, then look up. After a successful [ensureWallet] (whose
    record decodes back from its encoding), [getWallet] for the same
    identity returns the very record [ensureWallet] returned. *)
Theorem ensureWallet_then_getWallet :
  forall (nk : NakamaModule) (externalID : string) (config : Runtime.Config)
         (w w1 : World) (wallet : Runtime.Wallet),
    Runtime.ensureWallet nk externalID config w = (Ok wallet, w1) ->
    Runtime.json_Unmarshal (Runtime.json_Marshal wallet) = Ok wallet ->
    Runtime.getWallet nk externalID w1
    = (Ok wallet, after_read Runtime.WalletCollection externalID w1).
Proof.
  intros nk externalID config w w1 wallet Hfirst Hround.
  destruct (runtime_ensureWallet_ok_stored _ _ _ _ _ _ Hfirst Hround)
    as (Hread & obj & Hobj & Hdec).
  unfold Runtime.getWallet, StorageRead, bind, emit, fail, ret.
  rewrite Hread. simpl. rewrite Hobj, Hdec. reflexivity.
Qed.

End RuntimeWalletMore.

Lemma string_length_app (s t : string) :
  String.length (s ++ t) = (String.length s + String.length t)%nat.
Proof.
  induction s as [|a s IH]; [reflexivity |].
  rewrite string_app_cons. simpl. now rewrite IH.
Qed.

Section CognitoWalletMore.
Context {sha : Sha256} {codec : CognitoModule.WalletCodec}.

Lemma hex_EncodeToString_length (b : bytes) :
  String.length (CognitoModule.hex_EncodeToString b) = (2 * length b)%nat.
Proof.
  induction b as [|x b IH]; [reflexivity |].
  simpl. rewrite IH. lia.
Qed.

(** X13. The shape of the addresses of the 2024 module, for a digest of 32
    bytes: on [evm] the address is [0x] followed by 40 characters (the hex
    of the first 20 bytes of the digest of the identity), on [solana] it is
    64 characters (the hex of the whole digest); every other chain is
    refused with "unsupported chain" and the name of the chain. *)
Theorem deriveAddress_shape :
  forall (externalID chain : string),
    length (sha256_Sum256 externalID) = 32%nat ->
    match CognitoModule.deriveAddress externalID chain with
    | Ok address =>
        (chain = "evm" /\ String.length address = 42%nat
         /\ address = "0x" ++ CognitoModule.hex_EncodeToString
                                (take 20 (sha256_Sum256 externalID)))
        \/ (chain = "solana" /\ String.length address = 64%nat
            /\ address = CognitoModule.hex_EncodeToString (sha256_Sum256 externalID))
    | Err e =>
        chain <> "evm" /\ chain <> "solana"
        /\ e = Errorf ("unsupported chain: " ++ chain) None
    end.
Proof.
  intros externalID chain Hlen. unfold CognitoModule.deriveAddress.
  destruct (String.eqb_spec chain "evm") as [-> | Hevm].
  - left. split; [reflexivity |]. split; [| reflexivity].
    rewrite string_length_app, hex_EncodeToString_length, length_take, Hlen.
    reflexivity.
  - destruct (String.eqb_spec chain "solana") as [-> | Hsol].
    + right. split; [reflexivity |].
      rewrite take_ge by lia.
      split; [| reflexivity]. rewrite hex_EncodeToString_length, Hlen. reflexivity.
    + auto.
Qed.

(** X14. The 2024 [ensureWallet] takes every failure of [readWallet] - no
    object, a failed read, an object that does not decode - for an absent
    wallet: for a supported chain and a storage that accepts the write, it
    then derives the address and writes a record over whatever is stored
    for the identity, stamped with the clock in seconds and with read and
    write permission 0, and returns it. *)
Theorem cognito_ensureWallet_creates_on_any_read_error :
  forall (nk : NakamaModule) (externalID chain : string) (w w0 : World)
         (e : error) (address : string),
    CognitoModule.readWallet nk externalID w = (Err e, w0) ->
    CognitoModule.deriveAddress externalID chain = Ok address ->
    nk_StorageWrite_failure nk = None ->
    let wallet := {| CognitoModule.Chain := chain; CognitoModule.Address := address;
                     CognitoModule.CreatedAt := CognitoModule.Unix (clock w) |} in
    let obj := {| Value := CognitoModule.json_Marshal wallet;
                  PermissionRead := 0; PermissionWrite := 0 |} in
    CognitoModule.ensureWallet nk externalID chain w
    = (Ok wallet,
       {| storage := <[(CognitoModule.walletCollection, externalID) := obj]> (storage w);
          clock := clock w;
          trace := trace w ++ [EvStorageRead CognitoModule.walletCollection externalID;
                               EvDerive externalID;
                               EvStorageWrite CognitoModule.walletCollection externalID
                                 obj] |}).
Proof.
  intros nk externalID chain w w0 e address.
  intros Hread Haddr Hwrite wallet obj. subst wallet obj.
  unfold CognitoModule.ensureWallet. rewrite Hread.
  assert (Hw0 : w0 = after_read CognitoModule.walletCollection externalID w).
  { unfold CognitoModule.readWallet, StorageRead, bind, emit, fail in Hread.
    destruct (nk_StorageRead_failure nk); simpl in Hread; [now injection Hread |].
    destruct (storage w !! _) as [o|]; [| now injection Hread].
    destruct (CognitoModule.json_Unmarshal (Value o)); [discriminate | now injection Hread]. }
  subst w0.
  unfold CognitoModule.writeWallet, StorageWrite, bind, emit, fail, ret, time_Now.
  rewrite Haddr, Hwrite. simpl. now rewrite <- !app_assoc.
Qed.

Lemma cognito_ensureWallet_effect (nk : NakamaModule) (externalID chain : string)
    (w : World) :
  let r := CognitoModule.ensureWallet nk externalID chain w in
  (forall k, k <> (CognitoModule.walletCollection, externalID) ->
             storage (snd r) !! k = storage w !! k)
  /\ match fst r with
     | Err _ => storage (snd r) = storage w
     | Ok wallet =>
         exists obj,
           storage (snd r) !! (CognitoModule.walletCollection, externalID) = Some obj
           /\ (CognitoModule.json_Unmarshal (Value obj) = Ok wallet
               \/ Value obj = CognitoModule.json_Marshal wallet)
     end.
Proof.
  unfold CognitoModule.ensureWallet, CognitoModule.readWallet,
    CognitoModule.writeWallet, StorageRead, StorageWrite, bind, emit, fail, ret,
    time_Now.
  destruct (nk_StorageRead_failure nk) as [rerr|]; simpl.
  - destruct (CognitoModule.deriveAddress externalID chain) as [address | err]; simpl;
      [| auto].
    destruct (nk_StorageWrite_failure nk); simpl; [auto |].
    split; [intros k Hk; now rewrite lookup_insert_ne |].
    eexists. rewrite lookup_insert_eq. eauto.
  - destruct (storage w !! (CognitoModule.walletCollection, externalID))
      as [obj|] eqn:Hobj; simpl.
    + destruct (CognitoModule.json_Unmarshal (Value obj)) as [wallet | uerr] eqn:Hdec;
        simpl; [eauto |].
      destruct (CognitoModule.deriveAddress externalID chain) as [address | err];
        simpl; [| auto].
      destruct (nk_StorageWrite_failure nk); simpl; [auto |].
      split; [intros k Hk; now rewrite lookup_insert_ne |].
      eexists. rewrite lookup_insert_eq. eauto.
    + destruct (CognitoModule.deriveAddress externalID chain) as [address | err];
        simpl; [| auto].
      destruct (nk_StorageWrite_failure nk); simpl; [auto |].
      split; [intros k Hk; now rewrite lookup_insert_ne |].
      eexists. rewrite lookup_insert_eq. eauto.
Qed.

(** X15. For every call of the 2024 [ensureWallet]: the storage is unchanged
    at every key other than (wallet, identity); a failing call leaves the
    storage unchanged altogether; after a successful call the storage holds
    an object for the identity that is the returned record. *)
Theorem cognito_ensureWallet_storage_effect :
  forall (nk : NakamaModule) (externalID chain : string) (w : World),
    let r := CognitoModule.ensureWallet nk externalID chain w in
    (forall k, k <> (CognitoModule.walletCollection, externalID) ->
               storage (snd r) !! k = storage w !! k)
    /\ match fst r with
       | Err _ => storage (snd r) = storage w
       | Ok wallet =>
           exists obj,
             storage (snd r) !! (CognitoModule.walletCollection, externalID) = Some obj
             /\ (CognitoModule.json_Unmarshal (Value obj) = Ok wallet
                 \/ Value obj = CognitoModule.json_Marshal wallet)
       end.
Proof. exact cognito_ensureWallet_effect. Qed.

End CognitoWalletMore.

(** ** The RPC handlers of the runtime module, continued *)

Lemma is_cognito_id_prefixed (customId : string) :
  Runtime.is_cognito_id customId = true
  <-> exists rest, customId = "cognito:" ++ rest /\ rest <> "".
Proof.
  unfold Runtime.is_cognito_id. split.
  - intros H. apply andb_true_iff in H as [H1 H3].
    apply andb_true_iff in H1 as [_ H2].
    apply Nat.ltb_lt in H2. apply String.eqb_eq in H3.
    do 9 (destruct customId as [|? customId]; [simpl in H2; lia |]).
    simpl in H3. injection H3 as -> -> -> -> -> -> -> ->.
    eexists. split; [reflexivity | discriminate].
  - intros (rest & -> & Hne). destruct rest as [|a rest]; [congruence |].
    reflexivity.
Qed.

(** X16. The handlers take the custom id of an account for a Cognito
    identity exactly when it is [cognito:] followed by at least one more
    character; the bare prefix is refused. *)
Theorem is_cognito_id_iff :
  forall customId : string,
    Runtime.is_cognito_id customId = true
    <-> exists rest, customId = "cognito:" ++ rest /\ rest <> "".
Proof. exact is_cognito_id_prefixed. Qed.

(** X17. Every identity under which a login or a link registers an account,
    [cognito:] followed by the subject of a token that [VerifyCognitoIDToken]
    accepted, is later recognised by the wallet handlers: verification
    refuses the empty subject. *)
Theorem verified_subject_is_cognito_id :
  forall (config : Runtime.Config) (now : Z) (parsed : outcome Runtime.jwt_Token)
         (claims : Runtime.CognitoTokenClaims),
    Runtime.VerifyCognitoIDToken config now parsed = Returns (Ok claims) ->
    Runtime.is_cognito_id ("cognito:" ++ Runtime.Subject claims) = true.
Proof.
  intros config now parsed claims H.
  apply runtime_verify_success in H as (exp & _ & _ & _ & _ & _ & _ & Hsub).
  apply is_cognito_id_prefixed. eauto.
Qed.

Section RuntimeHandlersMore.
Context {sha : Sha256} {crypto : Crypto} {codec : Runtime.WalletCodec}
        {coretypes : Runtime.CoreTypes}.

Lemma runtime_rpcGetWallet_ok (nk : NakamaModule) (config : Runtime.Config)
    (ctx_user_id : option string) (w w' : World) (j : json) :
  Runtime.rpcGetWallet nk config ctx_user_id w = (Ok j, w') ->
  exists userID customId obj wallet,
    Runtime.WalletEnabled config = true
    /\ ctx_user_id = Some userID /\ userID <> ""
    /\ nk_AccountGetId nk userID = Ok customId
    /\ Runtime.is_cognito_id customId = true
    /\ storage w !! (Runtime.WalletCollection, customId) = Some obj
    /\ Runtime.json_Unmarshal (Value obj) = Ok wallet
    /\ j = JObj [("address", JStr (Runtime.Address wallet));
                 ("chain", JStr (Runtime.Chain wallet))]
    /\ w' = after_read Runtime.WalletCollection customId w.
Proof.
  unfold Runtime.rpcGetWallet. intros H.
  destruct (Runtime.WalletEnabled config) eqn:Hen; simpl in H; [| discriminate].
  destruct ctx_user_id as [userID|]; [| discriminate].
  destruct (String.eqb_spec userID "") as [| Hne]; [discriminate |].
  unfold bind, lift in H.
  destruct (nk_AccountGetId nk userID) as [customId | err] eqn:Hacc; [| discriminate].
  destruct (Runtime.is_cognito_id customId) eqn:Hid; [| discriminate].
  pose proof (runtime_getWallet_cases nk customId w) as [Hw Hr].
  destruct (Runtime.getWallet nk customId w) as [[wallet | err] w1]; [| discriminate].
  simpl in Hw, Hr. destruct Hr as (obj & Hobj & Hdec).
  unfold ret in H. injection H as <- <-.
  exists userID, customId, obj, wallet. repeat split; auto.
Qed.

Lemma runtime_rpcGetWallet_storage (nk : NakamaModule) (config : Runtime.Config)
    (ctx_user_id : option string) (w : World) :
  storage (snd (Runtime.rpcGetWallet nk config ctx_user_id w)) = storage w.
Proof.
  unfold Runtime.rpcGetWallet.
  destruct (Runtime.WalletEnabled config); simpl; [| reflexivity].
  destruct ctx_user_id as [userID|]; [| reflexivity].
  destruct (String.eqb userID ""); [reflexivity |].
  unfold bind, lift.
  destruct (nk_AccountGetId nk userID) as [customId | err]; [| reflexivity].
  destruct (Runtime.is_cognito_id customId); [| reflexivity].
  pose proof (runtime_getWallet_cases nk customId w) as [Hw _].
  destruct (Runtime.getWallet nk customId w) as [[wallet | err] w1]; simpl in *;
    subst w1; reflexivity.
Qed.

(** X18. [rpcGetWallet] never changes the storage, and it answers only
    with the wallet feature on, for a caller with a session whose account
    has a Cognito custom id: the answer is then the address and the chain
    decoded from the object stored under (wallet, that custom id). *)
Theorem rpcGetWallet_returns_the_callers_stored_wallet :
  forall (nk : NakamaModule) (config : Runtime.Config)
         (ctx_user_id : option string) (w : World),
    let r := Runtime.rpcGetWallet nk config ctx_user_id w in
    storage (snd r) = storage w
    /\ forall j, fst r = Ok j ->
         exists userID customId obj wallet,
           Runtime.WalletEnabled config = true
           /\ ctx_user_id = Some userID /\ userID <> ""
           /\ nk_AccountGetId nk userID = Ok customId
           /\ Runtime.is_cognito_id customId = true
           /\ storage w !! (Runtime.WalletCollection, customId) = Some obj
           /\ Runtime.json_Unmarshal (Value obj) = Ok wallet
           /\ j = JObj [("address", JStr (Runtime.Address wallet));
                        ("chain", JStr (Runtime.Chain wallet))].
Proof.
  intros nk config ctx_user_id w r. split.
  - apply runtime_rpcGetWallet_storage.
  - intros j Hj. subst r.
    destruct (Runtime.rpcGetWallet nk config ctx_user_id w) as [o w'] eqn:Hrun.
    simpl in Hj. subst o.
    destruct (runtime_rpcGetWallet_ok _ _ _ _ _ _ Hrun)
      as (userID & customId & obj & wallet & H).
    exists userID, customId, obj, wallet. tauto.
Qed.

Lemma signAndSend_world (externalID : string)
    (request : Runtime.EVMTransactionRequest) (config : Runtime.Config)
    (signer kmsSigner : Runtime.KMSSigner) (w : World) :
  let r := Runtime.signAndSendEVMTransaction externalID request config
             signer kmsSigner w in
  snd r = w
  \/ exists hash,
       snd r = {| storage := storage w; clock := clock w;
                  trace := trace w ++ [EvSign externalID hash] |}.
Proof.
  unfold Runtime.signAndSendEVMTransaction, bind, lift, fail.
  destruct (String.eqb (Runtime.To request) ""); [auto |].
  destruct (parse_field_cases (Runtime.ValueWei request) "invalid value: ")
    as [(v1 & -> & _) | [-> _]]; [| auto].
  destruct (parse_field_cases (Runtime.GasLimit request) "invalid gas limit: ")
    as [(v2 & -> & _) | [-> _]]; [| auto].
  destruct (parse_field_cases (Runtime.MaxFeePerGasWei request)
              "invalid max fee per gas: ")
    as [(v3 & -> & _) | [-> _]]; [| auto].
  destruct (parse_field_cases (Runtime.MaxPriorityFeePerGasWei request)
              "invalid max priority fee per gas: ")
    as [(v4 & -> & _) | [-> _]]; [| auto].
  unfold Runtime.signTransaction, bind, emit, fail, ret. simpl.
  destruct (Runtime.Sign kmsSigner _ _) as [signature | err]; simpl; [| eauto].
  destruct (Runtime.tx_WithSignature _ _ _); simpl; eauto.
Qed.

(** X19. [rpcSignAndSend] never touches the storage, so it asks for no
    provisioned wallet, and it calls the signing service at most once: only
    with the wallet feature on, for a caller with a session and a decoded
    request, and then under the Cognito custom id of the caller's own
    account. *)
Theorem rpcSignAndSend_signs_once_for_the_caller :
  forall (nk : NakamaModule) (config : Runtime.Config)
         (kmsSigner : Runtime.KMSSigner) (ctx_user_id : option string)
         (txRequest : outcome Runtime.EVMTransactionRequest) (w : World),
    let r := Runtime.rpcSignAndSend nk config kmsSigner ctx_user_id txRequest w in
    storage (snd r) = storage w
    /\ (new_events w (snd r) = []
        \/ exists userID customId request hash,
             Runtime.WalletEnabled config = true
             /\ ctx_user_id = Some userID /\ userID <> ""
             /\ nk_AccountGetId nk userID = Ok customId
             /\ Runtime.is_cognito_id customId = true
             /\ txRequest = Ok request
             /\ new_events w (snd r) = [EvSign customId hash]).
Proof.
  intros nk config kmsSigner ctx_user_id txRequest w.
  assert (Hnil : new_events w w = []) by (unfold new_events; apply drop_all).
  unfold Runtime.rpcSignAndSend.
  destruct (Runtime.WalletEnabled config) eqn:Hen; simpl; [| auto].
  destruct ctx_user_id as [userID|]; [| simpl; auto].
  destruct (String.eqb_spec userID "") as [| Hne]; [simpl; auto |].
  unfold bind, lift, ret.
  destruct (nk_AccountGetId nk userID) as [customId | err] eqn:Hacc; [| simpl; auto].
  destruct (Runtime.is_cognito_id customId) eqn:Hid; [| simpl; auto].
  destruct txRequest as [request | err]; [| simpl; auto].
  pose proof (signAndSend_world customId request config kmsSigner kmsSigner w) as Hw.
  cbv zeta in Hw.
  destruct (Runtime.signAndSendEVMTransaction customId request config kmsSigner
              kmsSigner w) as [[txHash | err] w1]; simpl in Hw |- *.
  all: destruct Hw as [-> | [hash ->]]; simpl; (split; [reflexivity |]); auto.
  all: right; exists userID, customId, request, hash; repeat split; auto.
  all: unfold new_events; simpl; apply drop_app_length.
Qed.

(** X20. With the wallet feature off, a login leaves the storage alone and
    asks for no address: the only call it may add is the update of the
    account, and a successful answer holds the session token and no
    wallet. *)
Theorem rpcCognitoLogin_with_wallet_disabled :
  forall (nk : NakamaModule) (jwksManager : Runtime.JWKSManager)
         (config : Runtime.Config) (request : outcome Runtime.LoginRequest)
         (w : World),
    Runtime.WalletEnabled config = false ->
    let r := Runtime.rpcCognitoLogin nk jwksManager config request w in
    storage (snd r) = storage w
    /\ (new_events w (snd r) = []
        \/ exists userId, new_events w (snd r) = [EvAccountUpdate userId])
    /\ forall j, fst r = Returns (Ok j) ->
                 exists session, j = JObj [("token", JStr session)].
Proof.
  intros nk jwksManager config request w.
  intros Hen.
  assert (Hnil : new_events w w = []) by (unfold new_events; apply drop_all).
  unfold Runtime.rpcCognitoLogin.
  destruct request as [request | err]; simpl; [| split; [| split]; auto; discriminate].
  destruct (Runtime.VerifyCognitoIDToken _ _ _) as [[claims | err] |]; simpl;
    [| split; [| split]; auto; discriminate ..].
  destruct (nk_AuthenticateCustom nk _ _ _) as [[[session userId] created] | err]; simpl;
    [| split; [| split]; auto; discriminate].
  unfold Runtime.provision. rewrite Hen. rewrite userVars_nonempty. simpl.
  split; [reflexivity |]. split.
  - right. exists userId. unfold new_events. simpl. apply drop_app_length.
  - intros j Hj. injection Hj as <-. eauto.
Qed.

End RuntimeHandlersMore.

(** ** Configuration and initialisation of the runtime module *)

Lemma getEnv_required (env : gmap string string) (key value : string) :
  Runtime.getEnv env key "" = value -> value <> "" -> env !! key = Some value.
Proof.
  unfold Runtime.getEnv, Runtime.os_Getenv. intros H Hne.
  destruct (env !! key) as [v|]; simpl in H.
  - destruct (String.eqb_spec v ""); simpl in H; congruence.
  - congruence.
Qed.

Lemma getEnv_default (env : gmap string string) (key defaultValue : string) :
  defaultValue <> "" -> Runtime.getEnv env key defaultValue <> "".
Proof.
  unfold Runtime.getEnv. intros Hd.
  destruct (String.eqb_spec (Runtime.os_Getenv env key) ""); simpl; auto.
Qed.

Lemma loadConfig_ok (env : gmap string string) (cfg : Runtime.Config) :
  Runtime.loadConfig env = Ok cfg ->
  cfg = {| Runtime.CognitoIssuer := Runtime.getEnv env "NAKAMA_COGNITO_ISS" "";
           Runtime.CognitoAudience := Runtime.getEnv env "NAKAMA_COGNITO_AUDIENCE" "";
           Runtime.JWKSCacheTTL := Runtime.getEnvInt env "NAKAMA_JWKS_CACHE_TTL" 3600;
           Runtime.WalletEnabled := Runtime.getEnvBool env "NAKAMA_WALLET_ENABLED" false;
           Runtime.WalletChain := Runtime.getEnv env "NAKAMA_WALLET_CHAIN" "evm";
           Runtime.WalletMasterKeyARN :=
             Runtime.getEnv env "NAKAMA_WALLET_MASTER_KEY_ARN" "";
           Runtime.WalletDerivationPath :=
             Runtime.getEnv env "NAKAMA_WALLET_DERIVATION_PATH" "m/44'/60'/0'/0" |}
  /\ Runtime.CognitoIssuer cfg <> ""
  /\ Runtime.CognitoAudience cfg <> ""
  /\ (Runtime.WalletEnabled cfg = true -> Runtime.WalletMasterKeyARN cfg <> "").
Proof.
  unfold Runtime.loadConfig. cbv zeta. simpl.
  destruct (String.eqb_spec (Runtime.getEnv env "NAKAMA_COGNITO_ISS" "") "")
    as [| Hiss]; [discriminate |].
  destruct (String.eqb_spec (Runtime.getEnv env "NAKAMA_COGNITO_AUDIENCE" "") "")
    as [| Haud]; [discriminate |].
  destruct (Runtime.getEnvBool env "NAKAMA_WALLET_ENABLED" false) eqn:Hen; simpl.
  - destruct (String.eqb_spec (Runtime.getEnv env "NAKAMA_WALLET_MASTER_KEY_ARN" "") "")
      as [| Harn]; [discriminate |].
    intros H. injection H as <-. simpl. auto.
  - intros H. injection H as <-. simpl. repeat split; auto.
Qed.

(** X21. A configuration that [loadConfig] returns has an issuer and an
    audience that are the non-empty values of their variables in the
    environment, a chain and a derivation path that are not empty, and,
    when the wallet feature is on, a master key that is the non-empty value
    of its variable. *)
Theorem loadConfig_returns_valid_configuration :
  forall (env : gmap string string) (cfg : Runtime.Config),
    Runtime.loadConfig env = Ok cfg ->
    env !! "NAKAMA_COGNITO_ISS" = Some (Runtime.CognitoIssuer cfg)
    /\ Runtime.CognitoIssuer cfg <> ""
    /\ env !! "NAKAMA_COGNITO_AUDIENCE" = Some (Runtime.CognitoAudience cfg)
    /\ Runtime.CognitoAudience cfg <> ""
    /\ Runtime.WalletChain cfg <> ""
    /\ Runtime.WalletDerivationPath cfg <> ""
    /\ (Runtime.WalletEnabled cfg = true ->
        env !! "NAKAMA_WALLET_MASTER_KEY_ARN" = Some (Runtime.WalletMasterKeyARN cfg)
        /\ Runtime.WalletMasterKeyARN cfg <> "").
Proof.
  intros env cfg H. apply loadConfig_ok in H as (Hcfg & Hiss & Haud & Harn).
  split; [apply getEnv_required; [now rewrite Hcfg | exact Hiss] |].
  split; [exact Hiss |].
  split; [apply getEnv_required; [now rewrite Hcfg | exact Haud] |].
  split; [exact Haud |].
  split; [rewrite Hcfg; simpl; now apply getEnv_default |].
  split; [rewrite Hcfg; simpl; now apply getEnv_default |].
  intros Hen. split; [| auto].
  apply getEnv_required; [now rewrite Hcfg | auto].
Qed.

Lemma getEnvBool_true (env : gmap string string) (key : string) :
  Runtime.getEnvBool env key false = true
  <-> exists value, env !! key = Some value
                    /\ In value ["1"; "t"; "T"; "TRUE"; "true"; "True"].
Proof.
  unfold Runtime.getEnvBool, Runtime.os_Getenv, strconv.ParseBool. split.
  - destruct (env !! key) as [v|]; cbv beta iota zeta delta [default from_option id];
      [| intros; discriminate].
    destruct (String.eqb v ""); cbv beta iota delta [negb]; [intros; discriminate |].
    destruct (existsb (String.eqb v) ["1"; "t"; "T"; "TRUE"; "true"; "True"]) eqn:Ht.
    + intros _. apply existsb_exists in Ht as (x & Hin & Hx).
      apply String.eqb_eq in Hx. subst x. eauto.
    + destruct (existsb (String.eqb v) ["0"; "f"; "F"; "FALSE"; "false"; "False"]);
        intros; discriminate.
  - intros (v & -> & Hin). simpl in Hin.
    destruct Hin as [<- | [<- | [<- | [<- | [<- | [<- | []]]]]]]; reflexivity.
Qed.

(** X22. The wallet feature of a loaded configuration is on exactly when
    [NAKAMA_WALLET_ENABLED] is set to one of [1], [t], [T], [TRUE], [true],
    [True]; every other value, such as [yes] or [on], leaves it off without
    an error. *)
Theorem loadConfig_wallet_enabled_iff :
  forall (env : gmap string string) (cfg : Runtime.Config),
    Runtime.loadConfig env = Ok cfg ->
    (Runtime.WalletEnabled cfg = true
     <-> exists value, env !! "NAKAMA_WALLET_ENABLED" = Some value
                       /\ In value ["1"; "t"; "T"; "TRUE"; "true"; "True"]).
Proof.
  intros env cfg H. apply loadConfig_ok in H as (Hcfg & _).
  rewrite <- getEnvBool_true. now rewrite Hcfg.
Qed.

Section Initialisation.
Context {sha : Sha256} {crypto : Crypto}.

(** X23. When [InitModule] succeeds, the configuration is the one
    [loadConfig] read, the verifier was built for the key-set URL of its
    issuer, every handler named was accepted by the initializer, and the
    signer and [rpc_sign_and_send] exist exactly with the wallet feature:
    three handlers and no signer without it, four handlers and the mock
    signer with it. Whatever the outcome, [rpc_sign_and_send] is registered
    only by a successful initialisation with the wallet feature on. *)
Theorem InitModule_registration :
  forall (env : gmap string string)
         (NewDefault : list string -> outcome (string -> outcome Runtime.jwt_Token))
         (RegisterRpc : string -> option error),
    let r := Runtime.InitModule env NewDefault RegisterRpc in
    (In "rpc_sign_and_send" (snd r)
     <-> exists g, fst r = Ok g /\ Runtime.WalletEnabled (Runtime.g_config g) = true)
    /\ forall g, fst r = Ok g ->
         Runtime.loadConfig env = Ok (Runtime.g_config g)
         /\ Runtime.mgr_config (Runtime.g_jwksManager g) = Runtime.g_config g
         /\ NewDefault [Runtime.CognitoIssuer (Runtime.g_config g)
                        ++ "/.well-known/jwks.json"]
            = Ok (Runtime.jwks (Runtime.g_jwksManager g))
         /\ Forall (fun id => RegisterRpc id = None) (snd r)
         /\ (if Runtime.WalletEnabled (Runtime.g_config g)
             then Runtime.g_kmsSigner g
                  = Some (Runtime.GetKMSSigner (Runtime.g_config g))
                  /\ snd r = ["rpc_cognito_login"; "rpc_link_cognito";
                              "rpc_get_wallet"; "rpc_sign_and_send"]
             else Runtime.g_kmsSigner g = None
                  /\ snd r = ["rpc_cognito_login"; "rpc_link_cognito";
                              "rpc_get_wallet"]).
Proof.
  intros env NewDefault RegisterRpc.
  assert (Hno : forall l : list string,
             Forall (fun id => id <> "rpc_sign_and_send") l ->
             forall (e : error),
               (In "rpc_sign_and_send" l
                <-> exists g, @Err Runtime.Globals e = Ok g
                              /\ Runtime.WalletEnabled (Runtime.g_config g) = true)).
  { intros l Hl e. split.
    - intros Hin. rewrite List.Forall_forall in Hl. now apply Hl in Hin.
    - intros (g & Hg & _). discriminate. }
  unfold Runtime.InitModule.
  destruct (Runtime.loadConfig env) as [config | err] eqn:Hload; cbn [fst snd];
    [| split; [apply Hno; constructor | discriminate]].
  unfold Runtime.NewJWKSManager.
  apply loadConfig_ok in Hload as Hvalid. destruct Hvalid as (_ & Hiss & _).
  destruct (String.eqb_spec (Runtime.CognitoIssuer config) ""); [contradiction |].
  destruct (NewDefault _) as [jwks | err] eqn:Hnd; cbn [fst snd];
    [| split; [apply Hno; constructor | discriminate]].
  destruct (RegisterRpc "rpc_cognito_login") eqn:H1; cbn [fst snd];
    [split; [apply Hno; constructor | discriminate] |].
  destruct (RegisterRpc "rpc_link_cognito") eqn:H2; cbn [fst snd];
    [split; [apply Hno; repeat constructor; discriminate | discriminate] |].
  destruct (RegisterRpc "rpc_get_wallet") eqn:H3; cbn [fst snd];
    [split; [apply Hno; repeat constructor; discriminate | discriminate] |].
  destruct (Runtime.WalletEnabled config) eqn:Hen; cbn [fst snd].
  - destruct (RegisterRpc "rpc_sign_and_send") eqn:H4; cbn [fst snd];
      [split; [apply Hno; repeat constructor; discriminate | discriminate] |].
    split.
    + split; [intros _; eexists; split; [reflexivity | exact Hen] | intros _; simpl; tauto].
    + intros g Hg. injection Hg as <-. simpl. rewrite Hen.
      repeat split; auto.
  - split.
    + split.
      * intros [H | [H | [H | []]]]; discriminate.
      * intros (g & Hg & Hg'). injection Hg as <-. simpl in Hg'. congruence.
    + intros g Hg. injection Hg as <-. simpl. rewrite Hen.
      repeat split; auto.
Qed.

(** X24. [GetPublicKey] of the mock signer returns the bytes of the public
    key whose address [deriveEVMAddress] provisions for the identity; and
    when it fails, the derivation of the address and every signature for
    the identity fail with the same error. *)
Theorem GetPublicKey_is_the_key_of_the_address :
  forall (config : Runtime.Config) (externalID : string),
    match Runtime.GetPublicKey (Runtime.GetKMSSigner config) externalID with
    | Ok pub =>
        exists publicKey,
          pub = crypto_FromECDSAPub publicKey
          /\ Runtime.deriveEVMAddress externalID config
             = Ok (address_Hex (crypto_PubkeyToAddress publicKey))
    | Err e =>
        Runtime.deriveEVMAddress externalID config = Err e
        /\ forall hash,
             Runtime.Sign (Runtime.GetKMSSigner config) externalID hash = Err e
    end.
Proof.
  intros config externalID.
  unfold Runtime.GetKMSSigner, Runtime.MockKMSSigner_KMSSigner,
    Runtime.MockKMSSigner_GetPublicKey, Runtime.MockKMSSigner_Sign,
    Runtime.derivePrivateKey, Runtime.deriveEVMAddress, Runtime.NewMockKMSSigner.
  simpl. destruct (crypto_ToECDSA _) as [privateKey | err]; eauto.
Qed.

(** X25. The address and the key of an identity depend on the configuration
    through [WalletMasterKeyARN] alone: two configurations with the same
    master key give the same address, the same public key and the same
    signatures, whatever their chain and their derivation path. *)
Theorem address_and_key_depend_on_master_key_only :
  forall (config1 config2 : Runtime.Config) (externalID : string),
    Runtime.WalletMasterKeyARN config1 = Runtime.WalletMasterKeyARN config2 ->
    Runtime.deriveEVMAddress externalID config1
    = Runtime.deriveEVMAddress externalID config2
    /\ Runtime.GetPublicKey (Runtime.GetKMSSigner config1) externalID
       = Runtime.GetPublicKey (Runtime.GetKMSSigner config2) externalID
    /\ forall hash,
         Runtime.Sign (Runtime.GetKMSSigner config1) externalID hash
         = Runtime.Sign (Runtime.GetKMSSigner config2) externalID hash.
Proof.
  intros config1 config2 externalID.
  unfold Runtime.GetKMSSigner, Runtime.MockKMSSigner_KMSSigner,
    Runtime.MockKMSSigner_GetPublicKey, Runtime.MockKMSSigner_Sign,
    Runtime.derivePrivateKey, Runtime.deriveEVMAddress, Runtime.NewMockKMSSigner.
  simpl. intros ->. auto.
Qed.

End Initialisation.

(** ** The RPC handlers of the 2024 module, continued *)

Lemma zeros_length (n : nat) : String.length (CognitoModule.zeros n) = n.
Proof. induction n as [|n IH]; simpl; congruence. Qed.

Lemma hex_digits_length (fuel : nat) (n : Z) (acc : string) :
  (String.length (CognitoModule.hex_digits fuel n acc) <= fuel + String.length acc)%nat.
Proof.
  revert n acc. induction fuel as [|fuel IH]; intros n acc; simpl; [lia |].
  destruct (n =? 0); [lia |].
  specialize (IH (n / 16) (String (CognitoModule.hex_digit (n mod 16)) acc)).
  simpl in IH. lia.
Qed.

Lemma Sprintf_064x_length (n : Z) :
  String.length (CognitoModule.Sprintf_064x n) = 64%nat.
Proof.
  unfold CognitoModule.Sprintf_064x.
  destruct (n <? 0).
  - pose proof (hex_digits_length 16 (- n) "") as H.
    set (d := CognitoModule.hex_digits 16 (- n) "") in *.
    rewrite !string_length_app, zeros_length.
    change (String.length "-") with 1%nat. change (String.length "") with 0%nat in H.
    lia.
  - pose proof (hex_digits_length 16 n "") as H.
    set (d := CognitoModule.hex_digits 16 n "") in *.
    rewrite string_length_app, zeros_length.
    change (String.length "") with 0%nat in H. lia.
Qed.

Section CognitoHandlersMore.
Context {sha : Sha256} {enc : CognitoModule.Encoding}
        {parser : CognitoModule.JwtParser} {codec : CognitoModule.WalletCodec}.

Lemma cognito_rpcSignAndSend_cases (nk : NakamaModule) (ctx_user_id : option string)
    (req : outcome CognitoModule.TransactionRequest) (w : World) :
  let r := CognitoModule.rpcSignAndSend nk ctx_user_id req w in
  snd r = w
  /\ forall j,
       fst r = Ok j
       <-> exists userID request customId,
             ctx_user_id = Some userID /\ userID <> ""
             /\ req = Ok request /\ CognitoModule.To request <> ""
             /\ nk_AccountGetId nk userID = Ok customId
             /\ CognitoModule.is_cognito_id customId = true
             /\ j = JObj [("txHash",
                           JStr ("0x" ++ CognitoModule.Sprintf_064x (clock w)))].
Proof.
  unfold CognitoModule.rpcSignAndSend, fail, bind, ret, time_Now.
  destruct ctx_user_id as [userID|]; cbn [fst snd];
    [| split; [reflexivity | intros j; split; [discriminate | intros (? & ? & ? & ? & _); discriminate]]].
  destruct (String.eqb_spec userID "") as [-> | Hne]; cbn [fst snd].
  { split; [reflexivity |]. intros j. split; [discriminate |].
    intros (u & ? & ? & Hu & Hu' & _). injection Hu as <-. congruence. }
  destruct req as [request | err]; cbn [fst snd].
  2: { split; [reflexivity |]. intros j. split; [discriminate |].
       intros (? & ? & ? & _ & _ & ? & _). discriminate. }
  destruct (String.eqb_spec (CognitoModule.To request) "") as [Hto | Hto]; cbn [fst snd].
  { split; [reflexivity |]. intros j. split; [discriminate |].
    intros (? & r' & ? & _ & _ & Hr & Hr' & _). injection Hr as <-. congruence. }
  destruct (nk_AccountGetId nk userID) as [customId | err] eqn:Hacc; cbn [fst snd].
  2: { split; [reflexivity |]. intros j. split; [discriminate |].
       intros (u & ? & ? & Hu & _ & _ & _ & Ha & _). injection Hu as <-. congruence. }
  destruct (CognitoModule.is_cognito_id customId) eqn:Hid; cbn [fst snd].
  2: { split; [reflexivity |]. intros j. split; [discriminate |].
       intros (u & ? & ? & Hu & _ & _ & _ & Ha & Hc & _). injection Hu as <-.
       rewrite Hacc in Ha. injection Ha as <-. congruence. }
  split; [reflexivity |]. intros j. split.
  - intros H. injection H as <-. exists userID, request, customId. auto 10.
  - intros (u & ? & ? & _ & _ & _ & _ & _ & _ & ->). reflexivity.
Qed.

(** X26. [rpcSignAndSend] of the 2024 module is a placeholder: it never
    changes the world (no signature, no storage access), it succeeds exactly
    for a caller with a session whose account has a Cognito custom id and a
    decoded request with a recipient - the numeric fields are not looked
    at - and its answer is [0x] and the clock in 64 hexadecimal digits, 66
    characters in all. *)
Theorem cognito_rpcSignAndSend_is_a_placeholder :
  forall (nk : NakamaModule) (ctx_user_id : option string)
         (req : outcome CognitoModule.TransactionRequest) (w : World),
    let r := CognitoModule.rpcSignAndSend nk ctx_user_id req w in
    snd r = w
    /\ String.length ("0x" ++ CognitoModule.Sprintf_064x (clock w)) = 66%nat
    /\ forall j,
         fst r = Ok j
         <-> exists userID request customId,
               ctx_user_id = Some userID /\ userID <> ""
               /\ req = Ok request /\ CognitoModule.To request <> ""
               /\ nk_AccountGetId nk userID = Ok customId
               /\ CognitoModule.is_cognito_id customId = true
               /\ j = JObj [("txHash",
                             JStr ("0x" ++ CognitoModule.Sprintf_064x (clock w)))].
Proof.
  intros nk ctx_user_id req w r.
  destruct (cognito_rpcSignAndSend_cases nk ctx_user_id req w) as [Hw Hj].
  split; [exact Hw |]. split; [| exact Hj].
  rewrite string_length_app, Sprintf_064x_length. reflexivity.
Qed.

Lemma updateUserMetadata_storage (nk : NakamaModule) (userID : string)
    (claims : gmap string json) (w : World) :
  storage (snd (CognitoModule.updateUserMetadata nk userID claims w)) = storage w.
Proof.
  unfold CognitoModule.updateUserMetadata. cbv zeta.
  destruct (0 <? size _)%nat; [| reflexivity].
  unfold bind, emit, fail, ret. simpl.
  destruct (nk_AccountUpdateId nk userID); reflexivity.
Qed.

(** X27. A login of the 2024 module that succeeds always answers with a
    wallet, and that wallet is stored: after the call the storage holds,
    under (wallet, [cognito:] and the subject), an object that is the
    record whose address and chain the answer carries; no other key of the
    storage has changed. *)
Theorem cognito_login_answers_with_the_stored_wallet :
  forall (nk : NakamaModule) (module : CognitoModule.CognitoModule)
         (net : string -> outcome CognitoModule.http_Response)
         (req : outcome CognitoModule.LoginRequest) (w w' : World)
         (c : CognitoModule.JWKSCache) (j : json),
    CognitoModule.rpcCognitoLogin nk module net req w = (Ok j, c, w') ->
    exists sub token wallet obj,
      sub <> ""
      /\ j = CognitoModule.LoginResponse_json
               {| CognitoModule.Token := token;
                  CognitoModule.Wallet :=
                    {| CognitoModule.sum_Address := CognitoModule.Address wallet;
                       CognitoModule.sum_Chain := CognitoModule.Chain wallet |} |}
      /\ storage w' !! (CognitoModule.walletCollection, "cognito:" ++ sub) = Some obj
      /\ (CognitoModule.json_Unmarshal (Value obj) = Ok wallet
          \/ Value obj = CognitoModule.json_Marshal wallet)
      /\ forall k, k <> (CognitoModule.walletCollection, "cognito:" ++ sub) ->
                   storage w' !! k = storage w !! k.
Proof.
  intros nk module net req w w' c j.
  unfold CognitoModule.rpcCognitoLogin. intros H.
  destruct req as [req | err]; [| discriminate].
  destruct (String.eqb (CognitoModule.IDToken req) ""); [discriminate |].
  destruct (CognitoModule.verifyCognitoIDToken _ _ _ _) as [c1 [claims | err]];
    [| discriminate].
  destruct (CognitoModule.string_claim claims "sub") as [sub|]; [| discriminate].
  destruct (String.eqb_spec sub "") as [| Hsub]; [discriminate |].
  cbv zeta in H.
  destruct (nk_AuthenticateCustom nk _ _ _) as [[[userID usernameResult] created] | err];
    [| discriminate].
  pose proof (updateUserMetadata_storage nk userID claims w) as Hmeta.
  pose proof (cognito_ensureWallet_effect nk ("cognito:" ++ sub)
                (CognitoModule.WalletChain (CognitoModule.config module))
                (snd (CognitoModule.updateUserMetadata nk userID claims w)))
    as [Hframe Hstored].
  destruct (CognitoModule.ensureWallet _ _ _ _) as [[wallet | err] w2];
    [| discriminate].
  destruct (nk_AuthenticateTokenGenerate nk userID usernameResult) as [token | err];
    [| discriminate].
  injection H as <- <- <-. simpl in Hframe, Hstored.
  destruct Hstored as (obj & Hobj & Hval).
  exists sub, token, wallet, obj. repeat split; auto.
  intros k Hk. rewrite Hframe by exact Hk. now rewrite Hmeta.
Qed.

(** X28. [rpcGetWallet] of the 2024 module answers only for a caller with a
    session whose account has a Cognito custom id, and then with the
    address and the chain decoded from the object stored under (wallet,
    that custom id); all it does is one read. *)
Theorem cognito_rpcGetWallet_returns_the_stored_wallet :
  forall (nk : NakamaModule) (ctx_user_id : option string) (w w' : World)
         (j : json),
    CognitoModule.rpcGetWallet nk ctx_user_id w = (Ok j, w') ->
    exists userID customId obj walletRecord,
      ctx_user_id = Some userID /\ userID <> ""
      /\ nk_AccountGetId nk userID = Ok customId
      /\ CognitoModule.is_cognito_id customId = true
      /\ storage w !! (CognitoModule.walletCollection, customId) = Some obj
      /\ CognitoModule.json_Unmarshal (Value obj) = Ok walletRecord
      /\ j = JObj [("address", JStr (CognitoModule.Address walletRecord));
                   ("chain", JStr (CognitoModule.Chain walletRecord))]
      /\ w' = after_read CognitoModule.walletCollection customId w.
Proof.
  intros nk ctx_user_id w w' j.
  unfold CognitoModule.rpcGetWallet. intros H.
  destruct ctx_user_id as [userID|]; [| discriminate].
  destruct (String.eqb_spec userID "") as [| Hne]; [discriminate |].
  destruct (nk_AccountGetId nk userID) as [customId | err] eqn:Hacc; [| discriminate].
  destruct (CognitoModule.is_cognito_id customId) eqn:Hid; [| discriminate].
  unfold CognitoModule.readWallet, StorageRead, bind, emit, fail, ret in H.
  destruct (nk_StorageRead_failure nk); simpl in H; [discriminate |].
  destruct (storage w !! (CognitoModule.walletCollection, customId)) as [obj|] eqn:Hobj;
    simpl in H; [| discriminate].
  destruct (CognitoModule.json_Unmarshal (Value obj)) as [walletRecord | err] eqn:Hdec;
    simpl in H; [| discriminate].
  injection H as <- <-.
  exists userID, customId, obj, walletRecord. repeat split; auto.
Qed.

End CognitoHandlersMore.

(** ** Numeric fields of a transaction request *)

Lemma decimal_digit (ch : ascii) :
  let d := Z.of_nat (nat_of_ascii ch) - 48 in
  (0 <=? d) && (d <=? 9) = true ->
  Ascii.eqb ch "_" = false /\ Ascii.eqb ch "-" = false /\ Ascii.eqb ch "+" = false
  /\ big.digit ch = Some d /\ d < 10.
Proof.
  intros d H. apply andb_true_iff in H as [H0 H9].
  apply Z.leb_le in H0, H9.
  repeat split.
  - destruct (Ascii.eqb_spec ch "_") as [-> |]; [| reflexivity].
    subst d. change (Z.of_nat (nat_of_ascii "_") - 48) with 47 in H9. lia.
  - destruct (Ascii.eqb_spec ch "-") as [-> |]; [| reflexivity].
    subst d. change (Z.of_nat (nat_of_ascii "-") - 48) with (-3) in H0. lia.
  - destruct (Ascii.eqb_spec ch "+") as [-> |]; [| reflexivity].
    subst d. change (Z.of_nat (nat_of_ascii "+") - 48) with (-5) in H0. lia.
  - unfold big.digit. subst d.
    destruct (Z.leb_spec 48 (Z.of_nat (nat_of_ascii ch))); [| lia].
    destruct (Z.leb_spec (Z.of_nat (nat_of_ascii ch)) 57); [| lia].
    reflexivity.
  - lia.
Qed.

Lemma scan_loop_decimal (l : list ascii) :
  forall (res count v : Z) (prev : big.prev_kind) (invalSep : bool),
    strconv.digits l res = Some v ->
    big.scan_loop 10 l res count prev invalSep
    = (v, count + Z.of_nat (length l),
       match l with [] => prev | _ => big.PrevDigit end, invalSep, []).
Proof.
  induction l as [|ch l IH]; intros res count v prev invalSep H; simpl in H.
  - injection H as <-. simpl. now rewrite Z.add_0_r.
  - destruct ((0 <=? Z.of_nat (nat_of_ascii ch) - 48)
              && (Z.of_nat (nat_of_ascii ch) - 48 <=? 9)) eqn:Hd; [| discriminate].
    destruct (decimal_digit ch Hd) as (Hsep & _ & _ & Hdigit & Hlt).
    cbn [big.scan_loop]. rewrite Hsep, Hdigit.
    destruct (Z.ltb_spec (Z.of_nat (nat_of_ascii ch) - 48) 10); [| lia].
    rewrite (IH _ _ _ _ _ H).
    replace (count + 1 + Z.of_nat (length l)) with (count + Z.of_nat (length (ch :: l)))
      by (simpl length; lia).
    destruct l; reflexivity.
Qed.

Lemma nat_scan_no_prefix (ch : ascii) (rest : list ascii) :
  ch <> "0"%char ->
  big.nat_scan (ch :: rest)
  = (let '(res, count, prev, invalSep, rest) :=
       big.scan_loop 10 (ch :: rest) 0 0 big.PrevOther false in
     let err := invalSep || match prev with big.PrevSep => true | _ => false end in
     if count =? 0 then (None, rest) else (if err then None else Some res, rest)).
Proof.
  intros Hne. unfold big.nat_scan.
  destruct ch as [[] [] [] [] [] [] [] []]; try reflexivity.
  now contradiction Hne.
Qed.

Lemma SetString_decimal (s : string) (v : Z) :
  strconv.digits (list_ascii_of_string s) 0 = Some v ->
  (forall a rest, s <> String "0" (String a rest)) ->
  s <> "" ->
  big.SetString s = Some v.
Proof.
  intros Hv Hzero Hne. unfold big.SetString.
  destruct s as [|ch s]; [congruence |]. cbn [list_ascii_of_string] in Hv |- *.
  destruct (Ascii.eqb_spec ch "0") as [-> | Hch].
  - destruct s as [|a s]; [| now contradiction (Hzero a s)].
    simpl in Hv. injection Hv as <-. reflexivity.
  - assert (Hd : (0 <=? Z.of_nat (nat_of_ascii ch) - 48)
                 && (Z.of_nat (nat_of_ascii ch) - 48 <=? 9) = true).
    { simpl in Hv. destruct (_ && _); [reflexivity | discriminate]. }
    destruct (decimal_digit ch Hd) as (_ & Hminus & Hplus & _).
    rewrite Hminus, Hplus.
    rewrite nat_scan_no_prefix by exact Hch.
    rewrite (scan_loop_decimal _ _ _ _ _ _ Hv).
    cbn [length].
    destruct (Z.eqb_spec (0 + Z.of_nat (S (length (list_ascii_of_string s)))) 0);
      [lia | reflexivity].
Qed.

(** X29. A numeric field of a transaction request that is a run of decimal
    digits not starting with a zero (or the single digit 0) is taken at
    its decimal value; so is the empty field, at 0. *)
Theorem parse_field_decimal :
  forall (field label : string) (v : Z),
    strconv.digits (list_ascii_of_string field) 0 = Some v ->
    (forall a rest, field <> String "0" (String a rest)) ->
    Runtime.parse_field field label = Ok v.
Proof.
  intros field label v.
  intros Hv Hzero. unfold Runtime.parse_field.
  destruct (String.eqb_spec field "") as [-> | Hne].
  - simpl in Hv. now injection Hv as <-.
  - now rewrite (SetString_decimal field v Hv Hzero Hne).
Qed.

(** ** The further properties at sample inputs *)

Lemma GetKey_fresh_hit_witness :
  CognitoModule.GetKey (enc := Sample.enc) warm_cache "k1" 1000 offline
  = (warm_cache, Ok Sample.key).
Proof.
  apply (GetKey_fresh_hit (enc := Sample.enc) warm_cache "k1" Sample.key 1000 offline);
    vm_compute; [reflexivity | discriminate].
Defined.

Lemma GetKey_expired_and_offline_witness :
  CognitoModule.GetKey (enc := Sample.enc) stale_cache "old-kid"
    (3601 * 1000000000) offline
  = (stale_cache,
     Err (Errorf "failed to fetch JWKS: %w"
            (Some (Errorf "failed to fetch JWKS: %w"
                     (Some (External "dial tcp: connection refused")))))).
Proof.
  apply (GetKey_expired_and_offline (enc := Sample.enc) stale_cache "old-kid"
           Sample.key (3601 * 1000000000) offline);
    vm_compute; reflexivity.
Defined.

Lemma GetKey_result_and_cache_witness :
  (forall k, is_Some (CognitoModule.cache stale_cache !! k) ->
             is_Some (CognitoModule.cache stale_cache !! k))
  /\ (stale_cache = stale_cache
      \/ (CognitoModule.cache stale_cache !! "old-kid" = None
          /\ CognitoModule.lastFetch stale_cache = 3601 * 1000000000)).
Proof.
  apply (GetKey_result_and_cache (enc := Sample.enc) stale_cache stale_cache "old-kid"
           (3601 * 1000000000) offline
           (Err (Errorf "failed to fetch JWKS: %w"
                   (Some (Errorf "failed to fetch JWKS: %w"
                            (Some (External "dial tcp: connection refused"))))))).
  vm_compute. reflexivity.
Defined.

Lemma update_cache_provenance_witness :
  CognitoModule.cache stale_cache !! "new-kid" = Some Sample.key
  \/ exists jwk,
       In jwk [Sample.jwk_of "new-kid"] /\ CognitoModule.Kid jwk = "new-kid"
       /\ CognitoModule.Kty jwk = "RSA"
       /\ CognitoModule.jwkToRSAPublicKey (enc := Sample.enc) jwk = Ok Sample.key.
Proof.
  apply (update_cache_provenance (enc := Sample.enc) [Sample.jwk_of "new-kid"]
           (CognitoModule.cache stale_cache) "new-kid" Sample.key).
  vm_compute. reflexivity.
Defined.

Lemma keyFunc_gives_cached_RSA_key_witness :
  CognitoModule.Method_is_RSA sample_token = true
  /\ exists kid,
       CognitoModule.Header sample_token !! "kid" = Some (JStr kid)
       /\ CognitoModule.cache warm_cache !! kid = Some Sample.key.
Proof.
  apply (keyFunc_gives_cached_RSA_key (enc := Sample.enc) warm_cache warm_cache 1000
           offline sample_token Sample.key).
  vm_compute. reflexivity.
Defined.


Lemma ensureWallet_first_provisioning_witness :
  exists wallet w',
    Runtime.ensureWallet (sha := Sample.sha) (crypto := Sample.crypto)
      (codec := Sample.runtime_codec) Sample.nk "cognito:user-42"
      sample_runtime_config Sample.world = (Ok wallet, w')
    /\ Runtime.Address wallet = "0xarn:aws:kms:key/1:cognito:user-42".
Proof.
  pose proof (ensureWallet_first_provisioning (sha := Sample.sha)
                (crypto := Sample.crypto) (codec := Sample.runtime_codec)
                Sample.nk "cognito:user-42" sample_runtime_config Sample.world
                "0xarn:aws:kms:key/1:cognito:user-42"
                eq_refl eq_refl eq_refl eq_refl eq_refl eq_refl) as H.
  cbv zeta in H. eexists. eexists. split; [exact H | reflexivity].
Defined.

Lemma ensureWallet_then_getWallet_witness :
  Runtime.getWallet (codec := Sample.runtime_codec) Sample.nk "cognito:user-42"
    (after_read "wallet" "cognito:user-42" world_with_wallet)
  = (Ok stored_wallet,
     after_read Runtime.WalletCollection "cognito:user-42"
       (after_read "wallet" "cognito:user-42" world_with_wallet)).
Proof.
  apply (ensureWallet_then_getWallet (sha := Sample.sha) (crypto := Sample.crypto)
           (codec := Sample.runtime_codec) Sample.nk "cognito:user-42"
           sample_runtime_config world_with_wallet);
    vm_compute; reflexivity.
Defined.

Lemma deriveAddress_shape_witness :
  match CognitoModule.deriveAddress (sha := Sample.sha) long_identity "evm" with
  | Ok address =>
      ("evm" = "evm" /\ String.length address = 42%nat
       /\ address = "0x" ++ CognitoModule.hex_EncodeToString
                              (take 20 (sha256_Sum256 (Sha256 := Sample.sha)
                                          long_identity)))
      \/ ("evm" = "solana" /\ String.length address = 64%nat
          /\ address = CognitoModule.hex_EncodeToString
                         (sha256_Sum256 (Sha256 := Sample.sha) long_identity))
  | Err e =>
      "evm" <> "evm" /\ "evm" <> "solana"
      /\ e = Errorf ("unsupported chain: " ++ "evm") None
  end.
Proof.
  apply (deriveAddress_shape (sha := Sample.sha) long_identity "evm"). reflexivity.
Defined.

Lemma cognito_ensureWallet_creates_on_any_read_error_witness :
  exists wallet w',
    CognitoModule.ensureWallet (sha := Sample.sha) (codec := Sample.cognito_codec)
      reads_fail "cognito:user-42" "evm" world_with_wallet = (Ok wallet, w')
    /\ CognitoModule.Address wallet = "0x636f676e69746f3a757365722d3432".
Proof.
  pose proof (cognito_ensureWallet_creates_on_any_read_error (sha := Sample.sha)
                (codec := Sample.cognito_codec) reads_fail "cognito:user-42" "evm"
                world_with_wallet _ _ _ eq_refl eq_refl eq_refl) as H.
  cbv zeta in H. eexists. eexists. split; [exact H | reflexivity].
Defined.

Lemma verified_subject_is_cognito_id_witness :
  Runtime.is_cognito_id ("cognito:" ++ "user-42") = true.
Proof.
  apply (verified_subject_is_cognito_id sample_runtime_config 0
           (Ok {| Runtime.Valid := true;
                  Runtime.Claims :=
                    Runtime.ClaimsPtr
                      (sample_runtime_claims ["client-abc"] (3600 * 1000000000)) |})
           (sample_runtime_claims ["client-abc"] (3600 * 1000000000))).
  reflexivity.
Defined.

Lemma rpcCognitoLogin_with_wallet_disabled_witness :
  let r := Runtime.rpcCognitoLogin (sha := Sample.sha) (crypto := Sample.crypto)
             (codec := Sample.runtime_codec) Sample.nk sample_manager
             wallet_off_config (Ok runtime_login_request) Sample.world in
  storage (snd r) = storage Sample.world
  /\ (new_events Sample.world (snd r) = []
      \/ exists userId, new_events Sample.world (snd r) = [EvAccountUpdate userId])
  /\ forall j, fst r = Returns (Ok j) ->
               exists session, j = JObj [("token", JStr session)].
Proof.
  apply (rpcCognitoLogin_with_wallet_disabled (sha := Sample.sha)
           (crypto := Sample.crypto) (codec := Sample.runtime_codec) Sample.nk
           sample_manager wallet_off_config (Ok runtime_login_request) Sample.world).
  reflexivity.
Defined.

Lemma loadConfig_returns_valid_configuration_witness :
  sample_env !! "NAKAMA_COGNITO_ISS"
  = Some (Runtime.CognitoIssuer sample_runtime_config)
  /\ Runtime.CognitoIssuer sample_runtime_config <> ""
  /\ sample_env !! "NAKAMA_COGNITO_AUDIENCE"
     = Some (Runtime.CognitoAudience sample_runtime_config)
  /\ Runtime.CognitoAudience sample_runtime_config <> ""
  /\ Runtime.WalletChain sample_runtime_config <> ""
  /\ Runtime.WalletDerivationPath sample_runtime_config <> ""
  /\ (Runtime.WalletEnabled sample_runtime_config = true ->
      sample_env !! "NAKAMA_WALLET_MASTER_KEY_ARN"
      = Some (Runtime.WalletMasterKeyARN sample_runtime_config)
      /\ Runtime.WalletMasterKeyARN sample_runtime_config <> "").
Proof.
  apply (loadConfig_returns_valid_configuration sample_env sample_runtime_config).
  vm_compute. reflexivity.
Defined.

Lemma loadConfig_wallet_enabled_iff_witness :
  Runtime.WalletEnabled sample_runtime_config = true
  <-> exists value, sample_env !! "NAKAMA_WALLET_ENABLED" = Some value
                    /\ In value ["1"; "t"; "T"; "TRUE"; "true"; "True"].
Proof.
  apply (loadConfig_wallet_enabled_iff sample_env sample_runtime_config).
  vm_compute. reflexivity.
Defined.

Lemma address_and_key_depend_on_master_key_only_witness :
  Runtime.deriveEVMAddress (sha := Sample.sha) (crypto := Sample.crypto)
    "cognito:user-42" sample_runtime_config
  = Runtime.deriveEVMAddress (sha := Sample.sha) (crypto := Sample.crypto)
      "cognito:user-42" solana_config
  /\ Runtime.GetPublicKey
       (Runtime.GetKMSSigner (sha := Sample.sha) (crypto := Sample.crypto)
          sample_runtime_config) "cognito:user-42"
     = Runtime.GetPublicKey
         (Runtime.GetKMSSigner (sha := Sample.sha) (crypto := Sample.crypto)
            solana_config) "cognito:user-42"
  /\ forall hash,
       Runtime.Sign
         (Runtime.GetKMSSigner (sha := Sample.sha) (crypto := Sample.crypto)
            sample_runtime_config) "cognito:user-42" hash
       = Runtime.Sign
           (Runtime.GetKMSSigner (sha := Sample.sha) (crypto := Sample.crypto)
              solana_config) "cognito:user-42" hash.
Proof.
  apply (address_and_key_depend_on_master_key_only (sha := Sample.sha)
           (crypto := Sample.crypto) sample_runtime_config solana_config
           "cognito:user-42").
  reflexivity.
Defined.

Lemma cognito_login_answers_with_the_stored_wallet_witness :
  exists j c w',
    CognitoModule.rpcCognitoLogin (sha := Sample.sha) (enc := Sample.enc)
      (parser := Sample.parser) (codec := Sample.cognito_codec) Sample.nk
      sample_module offline (Ok login_request) Sample.world = (Ok j, c, w')
    /\ exists sub token wallet obj,
         sub <> ""
         /\ j = CognitoModule.LoginResponse_json
                  {| CognitoModule.Token := token;
                     CognitoModule.Wallet :=
                       {| CognitoModule.sum_Address := CognitoModule.Address wallet;
                          CognitoModule.sum_Chain := CognitoModule.Chain wallet |} |}
         /\ storage w' !! (CognitoModule.walletCollection, "cognito:" ++ sub) = Some obj
         /\ (CognitoModule.json_Unmarshal (WalletCodec := Sample.cognito_codec)
               (Value obj) = Ok wallet
             \/ Value obj
                = CognitoModule.json_Marshal (WalletCodec := Sample.cognito_codec) wallet)
         /\ forall k, k <> (CognitoModule.walletCollection, "cognito:" ++ sub) ->
                      storage w' !! k = storage Sample.world !! k.
Proof.
  eexists. eexists. eexists. split; [vm_compute; reflexivity |].
  apply (cognito_login_answers_with_the_stored_wallet (sha := Sample.sha)
           (enc := Sample.enc) (parser := Sample.parser)
           (codec := Sample.cognito_codec) Sample.nk sample_module offline
           (Ok login_request) Sample.world _ warm_cache).
  vm_compute. reflexivity.
Defined.

Lemma cognito_rpcGetWallet_returns_the_stored_wallet_witness :
  exists userID customId obj walletRecord,
    Some "user-1" = Some userID /\ userID <> ""
    /\ nk_AccountGetId Sample.nk userID = Ok customId
    /\ CognitoModule.is_cognito_id customId = true
    /\ storage world_with_wallet !! (CognitoModule.walletCollection, customId) = Some obj
    /\ CognitoModule.json_Unmarshal (WalletCodec := Sample.cognito_codec) (Value obj)
       = Ok walletRecord
    /\ JObj [("address", JStr "0x52908400098527886E0F7030069857D2E4169EE7");
             ("chain", JStr "evm")]
       = JObj [("address", JStr (CognitoModule.Address walletRecord));
               ("chain", JStr (CognitoModule.Chain walletRecord))]
    /\ after_read "wallet" "cognito:user-42" world_with_wallet
       = after_read CognitoModule.walletCollection customId world_with_wallet.
Proof.
  apply (cognito_rpcGetWallet_returns_the_stored_wallet
           (codec := Sample.cognito_codec) Sample.nk (Some "user-1")
           world_with_wallet).
  vm_compute. reflexivity.
Defined.

Lemma parse_field_decimal_witness :
  Runtime.parse_field "21000" "invalid gas limit: " = Ok 21000.
Proof.
  apply parse_field_decimal; [reflexivity | discriminate].
Defined.
